(** * schema-to-tool: JSON Schema to tool definitions

    A shallow embedding of [schema_to_tool/converter.py],
    [schema_to_tool/formats/openai.py] and
    [schema_to_tool/formats/anthropic.py], and the properties of the
    metadata extractor, the two format mappers and the two validators.

    Python values are modelled as they reach the code after [json.load]:
    a tree of [None], booleans, numbers, strings, lists and dictionaries
    with string keys.  Dictionaries are finite maps ([gmap]): Python compares
    dictionaries without regard to insertion order, and so does [=] here.
    Strings are sequences of Unicode code points.  Code that can raise
    returns an [outcome].

    The converter is modelled a second time over a store of objects
    ([Module Heap]), where dictionaries are referred to and updated in place;
    that model carries the statement that the input is left alone, and it is
    proved to compute what the value model computes. *)

From Stdlib Require Import ZArith NArith String Ascii List Bool Lia.
From stdpp Require Import base option list gmap.
Import ListNotations.

Set Warnings "-register-all".
Local Open Scope N_scope.

(** ** Python strings *)

(** A [str] is a sequence of code points. *)
Abbreviation pystr := (list N).

(** A string literal of the source (all of them are ASCII). *)
Definition py (s : string) : pystr :=
  map N_of_ascii (list_ascii_of_string s).
Arguments py : simpl never.

(** [sep.join(parts)] *)
Fixpoint str_join (sep : pystr) (parts : list pystr) : pystr :=
  match parts with
  | [] => []
  | [p] => p
  | p :: rest => p ++ sep ++ str_join sep rest
  end.

(** [s.replace(old, new)] for one-character [old] and [new], the only form
    the source uses. *)
Definition str_replace (old new : N) (s : pystr) : pystr :=
  map (fun c => if N.eqb c old then new else c) s.

(** The two predicates of the Unicode character database that the source
    consults through [str.isalnum] and [str.isdigit] on one-character
    strings. *)
Class Unicode := {
  isalnum : N -> bool;
  isdigit : N -> bool
}.

Definition ascii_isdigit (c : N) : bool := (48 <=? c) && (c <=? 57).

Definition ascii_isalnum (c : N) : bool :=
  ascii_isdigit c
  || ((65 <=? c) && (c <=? 90))
  || ((97 <=? c) && (c <=? 122)).

(** What the proofs need to know of the database: its ASCII block. *)
Class UnicodeAscii (U : Unicode) : Prop := {
  isalnum_ascii : forall c, c < 128 -> isalnum c = ascii_isalnum c;
  isdigit_ascii : forall c, c < 128 -> isdigit c = ascii_isdigit c
}.

Definition between (lo hi c : N) : bool := (lo <=? c) && (c <=? hi).

(** Python's tables on U+0000..U+00FF.  Code points from U+0100 on are not
    tabulated here; the table answers [false] for them and is only ever
    consulted below U+0100. *)
Definition latin1_isdigit (c : N) : bool :=
  ascii_isdigit c || (c =? 178) || (c =? 179) || (c =? 185).

Definition latin1_isalnum (c : N) : bool :=
  ascii_isalnum c
  || (c =? 170) || (c =? 178) || (c =? 179) || (c =? 181)
  || (c =? 185) || (c =? 186) || between 188 190 c
  || between 192 214 c || between 216 246 c || between 248 255 c.

Definition python_latin1 : Unicode :=
  {| isalnum := latin1_isalnum; isdigit := latin1_isdigit |}.

(** ** Exceptions and results *)

Inductive exn : Type :=
  | ValueError (msg : pystr)
  | KeyError (key : pystr)
  | AttributeError
  | TypeError.

(** The result of running a piece of the source: a value, a raised
    exception, or [Unmodelled] where Python's behaviour falls outside the
    data model (see [dict_update]). *)
Inductive outcome (A : Type) : Type :=
  | Ok (a : A)
  | Raise (e : exn)
  | Unmodelled.
Arguments Ok {A} a.
Arguments Raise {A} e.
Arguments Unmodelled {A}.

Definition outcome_bind {A B} (f : A -> outcome B) (m : outcome A) : outcome B :=
  match m with
  | Ok a => f a
  | Raise e => Raise e
  | Unmodelled => Unmodelled
  end.

#[global] Instance outcome_mbind : MBind outcome := @outcome_bind.
#[global] Instance outcome_mret : MRet outcome := @Ok.

(** ** JSON values *)

Inductive json : Type :=
  | JNull
  | JBool (b : bool)
  | JInt (z : Z)
  | JFloat (bits : N)             (* a binary64, by its bit pattern *)
  | JStr (s : pystr)
  | JList (l : list json)
  | JObj (m : gmap pystr json).

Abbreviation dict := (gmap pystr json).

(** [d.get(k, dflt)] *)
Definition dict_get (d : dict) (k : pystr) (dflt : json) : json :=
  default dflt (d !! k).

(** [k in d] *)
Definition dict_contains (d : dict) (k : pystr) : bool :=
  bool_decide (is_Some (d !! k)).

(** [d[k]] *)
Definition dict_getitem (d : dict) (k : pystr) : outcome json :=
  match d !! k with
  | Some v => Ok v
  | None => Raise (KeyError k)
  end.

(** [d.pop(k, None)], for its effect on [d] *)
Definition dict_pop (d : dict) (k : pystr) : dict := delete k d.

(** [d[k] = v] *)
Definition dict_setitem (d : dict) (k : pystr) (v : json) : dict := <[k := v]> d.

(** [d.update(other)].  A dictionary argument is merged in, its entries
    winning.  Any other argument is read as an iterable of key/value pairs:
    [None], booleans and numbers are not iterable, a non-empty string yields
    one-character elements, which are not pairs, and an empty string or list
    yields nothing.  A non-empty list can add keys that are not strings, which
    the data model does not have. *)
Definition dict_update (d : dict) (other : json) : outcome dict :=
  match other with
  | JObj m => Ok (m ∪ d)
  | JNull | JBool _ | JInt _ | JFloat _ => Raise TypeError
  | JStr [] => Ok d
  | JStr (_ :: _) =>
      Raise (ValueError
        (py "dictionary update sequence element #0 has length 1; 2 is required"))
  | JList [] => Ok d
  | JList (_ :: _) => Unmodelled
  end.

(** [isinstance(v, str)] and [isinstance(v, dict)] *)
Definition isinstance_str (v : json) : bool :=
  match v with JStr _ => true | _ => false end.

Definition isinstance_dict (v : json) : bool :=
  match v with JObj _ => true | _ => false end.

(** [v == s] for a string literal [s] *)
Definition eq_str (v : json) (s : pystr) : bool :=
  match v with
  | JStr t => bool_decide (t = s)
  | _ => false
  end.

(** [v is None] *)
Definition is_None (v : json) : bool :=
  match v with JNull => true | _ => false end.

(** Truth value of [v], as [not v] and [v or w] test it. *)
Definition truthy (v : json) : bool :=
  match v with
  | JNull => false
  | JBool b => b
  | JInt z => negb (Z.eqb z 0)
  | JFloat bits => negb (N.eqb bits 0 || N.eqb bits (2 ^ 63))
  | JStr s => match s with [] => false | _ => true end
  | JList l => match l with [] => false | _ => true end
  | JObj m => negb (bool_decide (m = ∅))
  end.

(** ** [formats/openai.py] *)

Module OpenAIFormatter.

(** [OpenAIFormatter.format(metadata)] *)
Definition format (metadata : dict) : outcome json :=
  name ← dict_getitem metadata (py "name");
  description ← dict_getitem metadata (py "description");
  parameters ← dict_getitem metadata (py "parameters");
  Ok (JObj {[ py "type" := JStr (py "function");
              py "function" := JObj {[ py "name" := name;
                                       py "description" := description;
                                       py "parameters" := parameters ]} ]}).

(** The checks on [func["name"]]. *)
Definition check_name (func : dict) (errors : list pystr) : outcome (list pystr) :=
  if negb (dict_contains func (py "name")) then
    Ok (errors ++ [py "Function must have a 'name' field"])
  else
    name ← dict_getitem func (py "name");
    if negb (isinstance_str name) then
      Ok (errors ++ [py "Function 'name' must be a string"])
    else if negb (truthy name) then
      Ok (errors ++ [py "Function 'name' cannot be empty"])
    else Ok errors.

(** The check on [func["description"]]. *)
Definition check_description (func : dict) (errors : list pystr)
  : outcome (list pystr) :=
  if dict_contains func (py "description") then
    description ← dict_getitem func (py "description");
    if negb (isinstance_str description) then
      Ok (errors ++ [py "Function 'description' must be a string"])
    else Ok errors
  else Ok errors.

(** The checks on [func["parameters"]]. *)
Definition check_parameters (func : dict) (errors : list pystr)
  : outcome (list pystr) :=
  if negb (dict_contains func (py "parameters")) then
    Ok (errors ++ [py "Function must have a 'parameters' field"])
  else
    parameters ← dict_getitem func (py "parameters");
    match parameters with
    | JObj params =>
        let errors :=
          if negb (eq_str (dict_get params (py "type") JNull) (py "object"))
          then errors ++ [py "Function parameters 'type' must be 'object'"]
          else errors in
        let errors :=
          if negb (dict_contains params (py "properties"))
          then errors ++ [py "Function parameters must have 'properties'"]
          else errors in
        Ok errors
    | _ => Ok (errors ++ [py "Function 'parameters' must be a dictionary"])
    end.

(** [len(errors) == 0, errors] *)
Definition verdict (errors : list pystr) : bool * list pystr :=
  (Nat.eqb (length errors) 0, errors).

(** [OpenAIFormatter.validate(tool)] *)
Definition validate (tool : json) : outcome (bool * list pystr) :=
  let errors := [] in
  match tool with
  | JObj tool =>
      let errors :=
        if negb (eq_str (dict_get tool (py "type") JNull) (py "function"))
        then errors ++ [py "Tool 'type' must be 'function'"]
        else errors in
      if negb (dict_contains tool (py "function")) then
        let errors := errors ++ [py "Tool must have a 'function' field"] in
        Ok (verdict errors)
      else
        func ← dict_getitem tool (py "function");
        match func with
        | JObj func =>
            errors ← check_name func errors;
            errors ← check_description func errors;
            errors ← check_parameters func errors;
            Ok (verdict errors)
        | _ =>
            let errors := errors ++ [py "'function' must be a dictionary"] in
            Ok (verdict errors)
        end
  | _ => Ok (false, [py "Tool must be a dictionary"])
  end.

(** [v.get(k, dflt)] on a value that need not be a dictionary: only a
    dictionary has a [get] attribute. *)
Definition attr_get (v : json) (k : pystr) (dflt : json) : outcome json :=
  match v with
  | JObj d => Ok (dict_get d k dflt)
  | _ => Raise AttributeError
  end.

(** [OpenAIFormatter.extract_schema(tool)] *)
Definition extract_schema (tool : json) : outcome dict :=
  func ← attr_get tool (py "function") (JObj ∅);
  name ← attr_get func (py "name") (JStr []);
  description ← attr_get func (py "description") (JStr []);
  let schema : dict := {[ py "name" := name; py "description" := description ]} in
  params ← attr_get func (py "parameters") (JObj ∅);
  dict_update schema params.

End OpenAIFormatter.

(** ** [formats/anthropic.py] *)

Module AnthropicFormatter.

(** [AnthropicFormatter.format(metadata)] *)
Definition format (metadata : dict) : outcome json :=
  name ← dict_getitem metadata (py "name");
  description ← dict_getitem metadata (py "description");
  parameters ← dict_getitem metadata (py "parameters");
  Ok (JObj {[ py "name" := name;
              py "description" := description;
              py "input_schema" := parameters ]}).

(** The checks on [tool["name"]]. *)
Definition check_name (tool : dict) (errors : list pystr) : outcome (list pystr) :=
  if negb (dict_contains tool (py "name")) then
    Ok (errors ++ [py "Tool must have a 'name' field"])
  else
    name ← dict_getitem tool (py "name");
    if negb (isinstance_str name) then
      Ok (errors ++ [py "Tool 'name' must be a string"])
    else if negb (truthy name) then
      Ok (errors ++ [py "Tool 'name' cannot be empty"])
    else Ok errors.

(** The check on [tool["description"]]. *)
Definition check_description (tool : dict) (errors : list pystr)
  : outcome (list pystr) :=
  if dict_contains tool (py "description") then
    description ← dict_getitem tool (py "description");
    if negb (isinstance_str description) then
      Ok (errors ++ [py "Tool 'description' must be a string"])
    else Ok errors
  else Ok errors.

(** The checks on [tool["input_schema"]]. *)
Definition check_input_schema (tool : dict) (errors : list pystr)
  : outcome (list pystr) :=
  if negb (dict_contains tool (py "input_schema")) then
    Ok (errors ++ [py "Tool must have an 'input_schema' field"])
  else
    input_schema ← dict_getitem tool (py "input_schema");
    match input_schema with
    | JObj schema =>
        let errors :=
          if negb (eq_str (dict_get schema (py "type") JNull) (py "object"))
          then errors ++ [py "Tool input_schema 'type' must be 'object'"]
          else errors in
        let errors :=
          if negb (dict_contains schema (py "properties"))
          then errors ++ [py "Tool input_schema must have 'properties'"]
          else errors in
        Ok errors
    | _ => Ok (errors ++ [py "Tool 'input_schema' must be a dictionary"])
    end.

(** [AnthropicFormatter.validate(tool)] *)
Definition validate (tool : json) : outcome (bool * list pystr) :=
  let errors := [] in
  match tool with
  | JObj tool =>
      errors ← check_name tool errors;
      errors ← check_description tool errors;
      errors ← check_input_schema tool errors;
      Ok (OpenAIFormatter.verdict errors)
  | _ => Ok (false, [py "Tool must be a dictionary"])
  end.

(** [AnthropicFormatter.extract_schema(tool)] *)
Definition extract_schema (tool : json) : outcome dict :=
  name ← OpenAIFormatter.attr_get tool (py "name") (JStr []);
  description ← OpenAIFormatter.attr_get tool (py "description") (JStr []);
  let schema : dict := {[ py "name" := name; py "description" := description ]} in
  input_schema ← OpenAIFormatter.attr_get tool (py "input_schema") (JObj ∅);
  dict_update schema input_schema.

End AnthropicFormatter.


(** ** [converter.py] *)

Module SchemaConverter.

(** An instance: its one attribute, [self.schema]. *)
Record t : Type := { schema : dict }.

Definition SUPPORTED_FORMATS : list pystr := [py "openai"; py "anthropic"].

(** [SchemaConverter(schema)]: [__init__] stores the schema and
    [_validate_schema] rejects whatever is not a dictionary. *)
Definition __init__ (schema : json) : outcome t :=
  match schema with
  | JObj d => Ok {| schema := d |}
  | _ => Raise (ValueError (py "Schema must be a dictionary"))
  end.

Section WithUnicode.
Context {U : Unicode}.

(** The body of [_normalize_name] once [name] is known to be a [str]. *)
Definition normalize_str (name : pystr) : pystr :=
  let normalized := str_replace 45 95 (str_replace 32 95 name) in
  let normalized :=
    List.filter (fun c => isalnum c || N.eqb c 95) normalized in
  let normalized :=
    match normalized with
    | c :: _ => if isdigit c then 95 :: normalized else normalized
    | [] => normalized
    end in
  match normalized with
  | [] => py "unnamed_tool"
  | _ :: _ => normalized
  end.

(** [self._normalize_name(name)].  Its first step, [name.replace], exists
    on strings only. *)
Definition _normalize_name (name : json) : outcome pystr :=
  match name with
  | JStr s => Ok (normalize_str s)
  | _ => Raise AttributeError
  end.

(** The [parameters] that [_extract_tool_metadata] builds. *)
Definition build_parameters (schema : dict) : outcome json :=
  if dict_contains schema (py "properties") then
    let parameters : dict :=
      {[ py "type" := JStr (py "object");
         py "properties" := dict_get schema (py "properties") (JObj ∅) ]} in
    parameters ←
      (if dict_contains schema (py "required") then
         required ← dict_getitem schema (py "required");
         Ok (dict_setitem parameters (py "required") required)
       else Ok parameters);
    parameters ←
      (if negb (is_None (dict_get schema (py "additionalProperties") JNull)) then
         additional ← dict_getitem schema (py "additionalProperties");
         Ok (dict_setitem parameters (py "additionalProperties") additional)
       else Ok parameters);
    Ok (JObj parameters)
  else if dict_contains schema (py "parameters") then
    dict_getitem schema (py "parameters")
  else
    let parameters := schema in
    let parameters := dict_pop parameters (py "name") in
    let parameters := dict_pop parameters (py "title") in
    let parameters := dict_pop parameters (py "description") in
    let parameters :=
      if negb (dict_contains parameters (py "type"))
      then dict_setitem parameters (py "type") (JStr (py "object"))
      else parameters in
    Ok (JObj parameters).

(** [self._extract_tool_metadata()] *)
Definition _extract_tool_metadata (self : t) : outcome dict :=
  let name :=
    dict_get (schema self) (py "name")
      (dict_get (schema self) (py "title") (JStr (py "unnamed_tool"))) in
  let description := dict_get (schema self) (py "description") (JStr []) in
  parameters ← build_parameters (schema self);
  name ← _normalize_name name;
  Ok ({[ py "name" := JStr name;
         py "description" := description;
         py "parameters" := parameters ]} : dict).

(** [self.convert(format)] *)
Definition convert (self : t) (format : pystr) : outcome json :=
  if negb (bool_decide (format ∈ SUPPORTED_FORMATS)) then
    Raise (ValueError
      (py "Unsupported format: " ++ format ++ py ". "
       ++ py "Supported formats: " ++ str_join (py ", ") SUPPORTED_FORMATS))
  else
    metadata ← _extract_tool_metadata self;
    if bool_decide (format = py "openai") then
      OpenAIFormatter.format metadata
    else if bool_decide (format = py "anthropic") then
      AnthropicFormatter.format metadata
    else
      Raise (ValueError (py "Unknown format: " ++ format)).

End WithUnicode.

End SchemaConverter.

(** ** The converter over a store of objects

    The definitions above compute with values, so they cannot touch their
    input.  To say that the source does not modify the schema it was given,
    the converter is modelled once more as Python runs it: dictionaries and
    lists are objects in a store, a variable holds a reference, and [copy],
    [pop] and item assignment read and write the store. *)

Module Heap.

Abbreviation loc := positive.

Inductive val : Type :=
  | VNone
  | VBool (b : bool)
  | VInt (z : Z)
  | VFloat (bits : N)
  | VStr (s : pystr)
  | VRef (l : loc).               (* a list or a dictionary *)

Inductive obj : Type :=
  | ODict (d : gmap pystr val)
  | OList (l : list val).

Abbreviation heap := (gmap loc obj).

(** A computation runs from a store to a result and a store; a raised
    exception keeps the store as it was when it was raised. *)
Definition M (A : Type) : Type := heap -> outcome A * heap.

Definition ret {A} (a : A) : M A := fun h => (Ok a, h).

Definition bind {A B} (f : A -> M B) (m : M A) : M B :=
  fun h =>
    match m h with
    | (Ok a, h') => f a h'
    | (Raise e, h') => (Raise e, h')
    | (Unmodelled, h') => (Unmodelled, h')
    end.

#[global] Instance M_mret : MRet M := @ret.
#[global] Instance M_mbind : MBind M := @bind.

Definition raise {A} (e : exn) : M A := fun h => (Raise e, h).

(** A new object, at an address the store does not use. *)
Definition alloc (o : obj) : M val :=
  fun h => let l := fresh (dom h) in (Ok (VRef l), <[l := o]> h).

(** The dictionary behind a reference.  The source applies the operations
    below to [self.schema], which [__init__] has checked to be a dictionary,
    and to dictionaries it has just built; any other receiver is outside the
    model. *)
Definition read_dict (v : val) : M (gmap pystr val) :=
  fun h =>
    match v with
    | VRef l =>
        match h !! l with
        | Some (ODict d) => (Ok d, h)
        | _ => (Unmodelled, h)
        end
    | _ => (Unmodelled, h)
    end.

Definition write_dict (v : val) (d : gmap pystr val) : M unit :=
  fun h =>
    match v with
    | VRef l => (Ok tt, <[l := ODict d]> h)
    | _ => (Unmodelled, h)
    end.

(** [{...}], a dictionary display *)
Definition new_dict (d : gmap pystr val) : M val := alloc (ODict d).

(** [v.get(k, dflt)] *)
Definition dict_get (v : val) (k : pystr) (dflt : val) : M val :=
  d ← read_dict v; mret (default dflt (d !! k)).

(** [k in v] *)
Definition dict_contains (v : val) (k : pystr) : M bool :=
  d ← read_dict v; mret (bool_decide (is_Some (d !! k))).

(** [v[k]] *)
Definition dict_getitem (v : val) (k : pystr) : M val :=
  d ← read_dict v;
  match d !! k with
  | Some x => mret x
  | None => raise (KeyError k)
  end.

(** [v.copy()]: a new dictionary with the same entries *)
Definition dict_copy (v : val) : M val :=
  d ← read_dict v; alloc (ODict d).

(** [v.pop(k, None)] *)
Definition dict_pop (v : val) (k : pystr) : M unit :=
  d ← read_dict v; write_dict v (delete k d).

(** [v[k] = x] *)
Definition dict_setitem (v : val) (k : pystr) (x : val) : M unit :=
  d ← read_dict v; write_dict v (<[k := x]> d).

Definition is_None (v : val) : bool :=
  match v with VNone => true | _ => false end.

(** An instance: [self.schema] refers to the caller's dictionary. *)
Record t : Type := { schema : val }.

(** [SchemaConverter(schema)] *)
Definition __init__ (schema : val) : M t :=
  fun h =>
    match schema with
    | VRef l =>
        match h !! l with
        | Some (ODict _) => (Ok {| schema := schema |}, h)
        | Some (OList _) =>
            (Raise (ValueError (py "Schema must be a dictionary")), h)
        | None => (Unmodelled, h)
        end
    | _ => (Raise (ValueError (py "Schema must be a dictionary")), h)
    end.

Section WithUnicode.
Context {U : Unicode}.

(** [self._normalize_name(name)] *)
Definition _normalize_name (name : val) : M pystr :=
  match name with
  | VStr s => mret (SchemaConverter.normalize_str s)
  | _ => raise AttributeError
  end.

(** [self._extract_tool_metadata()] *)
Definition _extract_tool_metadata (self : t) : M val :=
  title ← dict_get (schema self) (py "title") (VStr (py "unnamed_tool"));
  name ← dict_get (schema self) (py "name") title;
  description ← dict_get (schema self) (py "description") (VStr []);
  has_properties ← dict_contains (schema self) (py "properties");
  parameters ←
    (if has_properties : bool then
       empty_dict ← new_dict ∅;
       properties ← dict_get (schema self) (py "properties") empty_dict;
       parameters ←
         new_dict {[ py "type" := VStr (py "object");
                     py "properties" := properties ]};
       has_required ← dict_contains (schema self) (py "required");
       _ ← (if has_required : bool then
              required ← dict_getitem (schema self) (py "required");
              dict_setitem parameters (py "required") required
            else mret tt);
       additional ← dict_get (schema self) (py "additionalProperties") VNone;
       _ ← (if negb (is_None additional) then
              additional ← dict_getitem (schema self) (py "additionalProperties");
              dict_setitem parameters (py "additionalProperties") additional
            else mret tt);
       mret parameters
     else
       has_parameters ← dict_contains (schema self) (py "parameters");
       if has_parameters : bool then
         dict_getitem (schema self) (py "parameters")
       else
         parameters ← dict_copy (schema self);
         _ ← dict_pop parameters (py "name");
         _ ← dict_pop parameters (py "title");
         _ ← dict_pop parameters (py "description");
         has_type ← dict_contains parameters (py "type");
         _ ← (if negb has_type then
                dict_setitem parameters (py "type") (VStr (py "object"))
              else mret tt);
         mret parameters);
  name ← _normalize_name name;
  new_dict {[ py "name" := VStr name;
              py "description" := description;
              py "parameters" := parameters ]}.

(** [OpenAIFormatter.format(metadata)] *)
Definition openai_format (metadata : val) : M val :=
  name ← dict_getitem metadata (py "name");
  description ← dict_getitem metadata (py "description");
  parameters ← dict_getitem metadata (py "parameters");
  function ←
    new_dict {[ py "name" := name;
                py "description" := description;
                py "parameters" := parameters ]};
  new_dict {[ py "type" := VStr (py "function"); py "function" := function ]}.

(** [AnthropicFormatter.format(metadata)] *)
Definition anthropic_format (metadata : val) : M val :=
  name ← dict_getitem metadata (py "name");
  description ← dict_getitem metadata (py "description");
  parameters ← dict_getitem metadata (py "parameters");
  new_dict {[ py "name" := name;
              py "description" := description;
              py "input_schema" := parameters ]}.

(** [self.convert(format)] *)
Definition convert (self : t) (format : pystr) : M val :=
  if negb (bool_decide (format ∈ SchemaConverter.SUPPORTED_FORMATS)) then
    raise (ValueError
      (py "Unsupported format: " ++ format ++ py ". "
       ++ py "Supported formats: "
       ++ str_join (py ", ") SchemaConverter.SUPPORTED_FORMATS))
  else
    metadata ← _extract_tool_metadata self;
    if bool_decide (format = py "openai") then openai_format metadata
    else if bool_decide (format = py "anthropic") then anthropic_format metadata
    else raise (ValueError (py "Unknown format: " ++ format)).

End WithUnicode.

(** A Hoare triple: from a store satisfying [P], [m] ends in a store
    satisfying [Q a] when it returns [a], and [R] when it does not
    return. *)
Definition triple {A} (P : heap -> Prop) (m : M A)
    (Q : A -> heap -> Prop) (R : heap -> Prop) : Prop :=
  forall h, P h ->
    match m h with
    | (Ok a, h') => Q a h'
    | (_, h') => R h'
    end.

(** [v] refers to an object that the store [F] does not have. *)
Definition fresh_for (F : heap) (v : val) : Prop :=
  exists l, v = VRef l /\ F !! l = None.

(** The store [h] has every object of [F], unchanged. *)
Definition keeps (F : heap) (h : heap) : Prop :=
  forall l o, F !! l = Some o -> h !! l = Some o.

End Heap.

Import SchemaConverter.

(** ** Notions used in the statements *)

(** The characters that survive the filter of [_normalize_name]. *)
Definition kept `{Unicode} (c : N) : bool := isalnum c || N.eqb c 95.

(** The character class [[A-Za-z0-9_]]. *)
Definition word_char (c : N) : bool := ascii_isalnum c || N.eqb c 95.

(** A whole-string match of [^_?[A-Za-z0-9_]*$]: an optional underscore,
    then word characters up to the end. *)
Definition matches_name_regex (s : pystr) : bool :=
  forallb word_char s
  || match s with
     | c :: rest => N.eqb c 95 && forallb word_char rest
     | [] => false
     end.

(** The name [café], whose last letter is U+00E9. *)
Definition cafe : pystr := [99; 97; 102; 233].

(** The value that [_extract_tool_metadata] takes for the name. *)
Definition raw_name (d : dict) : json :=
  dict_get d (py "name") (dict_get d (py "title") (JStr (py "unnamed_tool"))).

(** ** Documents used in the examples *)

(** [{"name": "Get Weather", "description": "Gets weather",
      "properties": {"city": {"type": "string"}}, "required": ["city"]}] *)
Definition weather_schema : dict :=
  {[ py "name" := JStr (py "Get Weather");
     py "description" := JStr (py "Gets weather");
     py "properties" :=
       JObj {[ py "city" := JObj {[ py "type" := JStr (py "string") ]} ]};
     py "required" := JList [JStr (py "city")] ]}.

(** [{"type": "function", "function": {"name": "Get_Weather", ...}}] *)
Definition weather_openai_tool : dict :=
  {[ py "type" := JStr (py "function");
     py "function" :=
       JObj {[ py "name" := JStr (py "Get_Weather");
               py "description" := JStr (py "Gets weather");
               py "parameters" :=
                 JObj {[ py "type" := JStr (py "object");
                         py "properties" :=
                           JObj {[ py "city" :=
                                     JObj {[ py "type" := JStr (py "string") ]} ]};
                         py "required" := JList [JStr (py "city")] ]} ]} ]}.

(** [{"type": "array"}] *)
Definition array_schema : dict := {[ py "type" := JStr (py "array") ]}.

(** [{"name": "f"}] *)
Definition bare_schema : dict := {[ py "name" := JStr (py "f") ]}.

(** [{"name": "f", "description": "", "parameters": {"type": "object"}}],
    what the extractor returns for [bare_schema]. *)
Definition bare_metadata : dict :=
  {[ py "name" := JStr (py "f");
     py "description" := JStr [];
     py "parameters" := JObj {[ py "type" := JStr (py "object") ]} ]}.

(** [{"type": "object", "properties": {}, "name": "inner"}] *)
Definition shadowing_parameters : dict :=
  {[ py "type" := JStr (py "object");
     py "properties" := JObj ∅;
     py "name" := JStr (py "inner") ]}.

(** [{"type": "function",
      "function": {"name": "outer", "parameters": {..., "name": "inner"}}}] *)
Definition shadowing_openai_tool : dict :=
  {[ py "type" := JStr (py "function");
     py "function" :=
       JObj {[ py "name" := JStr (py "outer");
               py "parameters" := JObj shadowing_parameters ]} ]}.

(** [{"name": "outer", "input_schema": {..., "name": "inner"}}] *)
Definition shadowing_anthropic_tool : dict :=
  {[ py "name" := JStr (py "outer");
     py "input_schema" := JObj shadowing_parameters ]}.

(** [{"type": "function", "function": {"name": "",
      "parameters": {"type": "object", "properties": {}}}}] *)
Definition empty_name_tool : dict :=
  {[ py "type" := JStr (py "function");
     py "function" :=
       JObj {[ py "name" := JStr [];
               py "parameters" :=
                 JObj {[ py "type" := JStr (py "object");
                         py "properties" := JObj ∅ ]} ]} ]}.

(** [{"name": "t", "input_schema": {"type": "array", "properties": {}}}] *)
Definition array_input_tool : dict :=
  {[ py "name" := JStr (py "t");
     py "input_schema" :=
       JObj {[ py "type" := JStr (py "array");
               py "properties" := JObj ∅ ]} ]}.

(** A store with one object, the schema [{"name": "f", "x": 1}], and a
    converter built on it. *)
Definition tagged_schema : Heap.obj :=
  Heap.ODict {[ py "name" := Heap.VStr (py "f"); py "x" := Heap.VInt 1 ]}.

Definition tagged_store : Heap.heap := {[ 1%positive := tagged_schema ]}.

Definition tagged_self : Heap.t := {| Heap.schema := Heap.VRef 1 |}.

(** The canonical metadata of the data model: a string [name], a string
    [description] and a [parameters] dictionary whose [type] is
    ["object"]. *)
Definition canonical_metadata (meta : dict) (name : pystr) (parameters : dict) : Prop :=
  meta !! py "name" = Some (JStr name)
  /\ (exists description, meta !! py "description" = Some (JStr description))
  /\ meta !! py "parameters" = Some (JObj parameters)
  /\ parameters !! py "type" = Some (JStr (py "object")).

(** ** What a validator's defect list says about a tool definition *)

(** The defects on the [name] field, by message. *)
Definition name_defects (absent not_str blank : pystr) (d : dict) : list pystr :=
  match d !! py "name" with
  | None => [absent]
  | Some (JStr []) => [blank]
  | Some (JStr (_ :: _)) => []
  | Some _ => [not_str]
  end.

Definition description_defects (not_str : pystr) (d : dict) : list pystr :=
  match d !! py "description" with
  | None | Some (JStr _) => []
  | Some _ => [not_str]
  end.

(** The defects on the parameter schema stored under [key]. *)
Definition schema_defects (key absent not_dict bad_type no_properties : pystr)
    (d : dict) : list pystr :=
  match d !! key with
  | None => [absent]
  | Some (JObj params) =>
      (if eq_str (dict_get params (py "type") JNull) (py "object")
       then [] else [bad_type])
      ++ (if dict_contains params (py "properties") then [] else [no_properties])
  | Some _ => [not_dict]
  end.

(** Each defect of the Anthropic validator is reported exactly when its
    own condition holds. *)
Definition anthropic_reports (tool : dict) (errors : list pystr) : Prop :=
  (In (py "Tool must have a 'name' field") errors
     <-> tool !! py "name" = None)
  /\ (In (py "Tool 'name' must be a string") errors
     <-> exists v, tool !! py "name" = Some v /\ isinstance_str v = false)
  /\ (In (py "Tool 'name' cannot be empty") errors
     <-> tool !! py "name" = Some (JStr []))
  /\ (In (py "Tool 'description' must be a string") errors
     <-> exists v, tool !! py "description" = Some v /\ isinstance_str v = false)
  /\ (In (py "Tool must have an 'input_schema' field") errors
     <-> tool !! py "input_schema" = None)
  /\ (In (py "Tool 'input_schema' must be a dictionary") errors
     <-> exists v, tool !! py "input_schema" = Some v /\ isinstance_dict v = false)
  /\ (In (py "Tool input_schema 'type' must be 'object'") errors
     <-> exists s : dict, tool !! py "input_schema" = Some (JObj s)
           /\ s !! py "type" <> Some (JStr (py "object")))
  /\ (In (py "Tool input_schema must have 'properties'") errors
     <-> exists s : dict, tool !! py "input_schema" = Some (JObj s)
           /\ s !! py "properties" = None).

(** The defects of the OpenAI validator on the [function] dictionary. *)
Definition function_reports (func : dict) (errors : list pystr) : Prop :=
  (In (py "Function must have a 'name' field") errors
     <-> func !! py "name" = None)
  /\ (In (py "Function 'name' must be a string") errors
     <-> exists v, func !! py "name" = Some v /\ isinstance_str v = false)
  /\ (In (py "Function 'name' cannot be empty") errors
     <-> func !! py "name" = Some (JStr []))
  /\ (In (py "Function 'description' must be a string") errors
     <-> exists v, func !! py "description" = Some v /\ isinstance_str v = false)
  /\ (In (py "Function must have a 'parameters' field") errors
     <-> func !! py "parameters" = None)
  /\ (In (py "Function 'parameters' must be a dictionary") errors
     <-> exists v, func !! py "parameters" = Some v /\ isinstance_dict v = false)
  /\ (In (py "Function parameters 'type' must be 'object'") errors
     <-> exists s : dict, func !! py "parameters" = Some (JObj s)
           /\ s !! py "type" <> Some (JStr (py "object")))
  /\ (In (py "Function parameters must have 'properties'") errors
     <-> exists s : dict, func !! py "parameters" = Some (JObj s)
           /\ s !! py "properties" = None).

(** The defects of the OpenAI validator; the function-level ones apply
    when [function] is a dictionary. *)
Definition openai_reports (tool : dict) (errors : list pystr) : Prop :=
  (In (py "Tool 'type' must be 'function'") errors
     <-> tool !! py "type" <> Some (JStr (py "function")))
  /\ (In (py "Tool must have a 'function' field") errors
     <-> tool !! py "function" = None)
  /\ (In (py "'function' must be a dictionary") errors
     <-> exists v, tool !! py "function" = Some v /\ isinstance_dict v = false)
  /\ (forall func : dict,
        tool !! py "function" = Some (JObj func) -> function_reports func errors).

(** A value of the store stands for a JSON tree. *)
Inductive represents (h : Heap.heap) : Heap.val -> json -> Prop :=
  | represents_none : represents h Heap.VNone JNull
  | represents_bool b : represents h (Heap.VBool b) (JBool b)
  | represents_int z : represents h (Heap.VInt z) (JInt z)
  | represents_float bits : represents h (Heap.VFloat bits) (JFloat bits)
  | represents_str s : represents h (Heap.VStr s) (JStr s)
  | represents_list l vs js :
      h !! l = Some (Heap.OList vs) ->
      Forall2 (represents h) vs js ->
      represents h (Heap.VRef l) (JList js)
  | represents_dict l (d : gmap pystr Heap.val) (m : dict) :
      h !! l = Some (Heap.ODict d) ->
      (forall k, option_Forall2 (represents h) (d !! k) (m !! k)) ->
      represents h (Heap.VRef l) (JObj m).

(** Entry by entry, the dictionary [d] of the store stands for [m]. *)
Definition entries_represent (h : Heap.heap)
    (d : gmap pystr Heap.val) (m : dict) : Prop :=
  forall k, option_Forall2 (represents h) (d !! k) (m !! k).

(** ** More documents used in the examples *)

(** [{"title": "Find-Me", "parameters": [1, 2]}]: nested parameters that are
    not even a mapping. *)
Definition nested_schema : dict :=
  {[ py "title" := JStr (py "Find-Me");
     py "parameters" := JList [JInt 1; JInt 2] ]}.

(** [{"name": null, "title": "ok", "properties": {}}] *)
Definition null_name_schema : dict :=
  {[ py "name" := JNull; py "title" := JStr (py "ok");
     py "properties" := JObj ∅ ]}.

(** The weather document with keys that path 1 does not read. *)
Definition weather_schema_extended : dict :=
  <[ py "parameters" := JStr (py "ignored") ]>
    (<[ py "$schema" := JStr (py "draft-07") ]> weather_schema).

(** [{"name": "f", "description": 7, "properties": {}}]: a description that
    is not a string. *)
Definition numbered_schema : dict :=
  {[ py "name" := JStr (py "f"); py "description" := JInt 7;
     py "properties" := JObj ∅ ]}.

(** ** More tool definitions used in the examples *)

(** [{"name": "f", "input_schema": {"type": "object", "properties": {}}}] *)
Definition plain_anthropic_tool : dict :=
  {[ py "name" := JStr (py "f");
     py "input_schema" :=
       JObj {[ py "type" := JStr (py "object"); py "properties" := JObj ∅ ]} ]}.

(** The same tool with [properties] set to a number and a description
    added inside the schema. *)
Definition odd_anthropic_tool : dict :=
  {[ py "name" := JStr (py "f");
     py "input_schema" :=
       JObj {[ py "type" := JStr (py "object"); py "properties" := JInt 7;
               py "note" := JNull ]} ]}.

(** [{"name": "f", "parameters": {"type": "object", "properties": {}}}] *)
Definition plain_function : dict :=
  {[ py "name" := JStr (py "f");
     py "parameters" :=
       JObj {[ py "type" := JStr (py "object"); py "properties" := JObj ∅ ]} ]}.

Definition odd_function : dict :=
  {[ py "name" := JStr (py "f");
     py "parameters" :=
       JObj {[ py "type" := JStr (py "object"); py "properties" := JInt 7;
               py "note" := JNull ]} ]}.

(** [{"type": "function", "function": func}] *)
Definition openai_tool_of (func : dict) : dict :=
  {[ py "type" := JStr (py "function"); py "function" := JObj func ]}.

(** An accepted Anthropic tool whose schema has a [name] entry of its own,
    and not a string. *)
Definition shadowed_name_tool : dict :=
  {[ py "name" := JStr (py "f");
     py "input_schema" :=
       JObj {[ py "type" := JStr (py "object"); py "properties" := JObj ∅;
               py "name" := JInt 3 ]} ]}.

(** A store with the document [{"title": "t", "parameters": <object 2>}] at
    address 1 and an empty dictionary at address 2. *)
Definition nested_store : Heap.heap :=
  {[ 1%positive :=
       Heap.ODict {[ py "title" := Heap.VStr (py "t");
                     py "parameters" := Heap.VRef 2 ]};
     2%positive := Heap.ODict ∅ ]}.

(** ** [cli.py]: the [validate] command *)

(** The command is modelled from the point where [json.load] has returned
    the parsed file; reading and parsing are not part of the model. *)

Module Cli.

Inductive stream : Type := Stdout | Stderr.

(** Whether the stream behind [click.echo] takes a message.  A text stream
    refuses what its encoding cannot write (a lone surrogate on a strict
    UTF-8 stream, for one); the tables are left open, like the Unicode
    ones. *)
Class Console := { writable : stream -> pystr -> bool }.

(** How a command ends: [sys.exit(code)], an exception that nothing
    catches, a write that the stream refused, or a step that the model
    does not cover. *)
Inductive ending : Type :=
  | Exit (code : Z)
  | Uncaught (e : exn)
  | EchoFailed
  | NotModelled.

(** The messages echoed so far, oldest first. *)
Abbreviation transcript := (list (stream * pystr)).

(** A step of a command: it goes on with a value or ends the command, and
    extends the transcript. *)
Definition cmd (A : Type) : Type := transcript -> (A + ending) * transcript.

Definition ret {A} (a : A) : cmd A := fun out => (inl a, out).

Definition bind {A B} (f : A -> cmd B) (m : cmd A) : cmd B :=
  fun out =>
    match m out with
    | (inl a, out') => f a out'
    | (inr e, out') => (inr e, out')
    end.

#[global] Instance cmd_mret : MRet cmd := @ret.
#[global] Instance cmd_mbind : MBind cmd := @bind.

Definition stop {A} (e : ending) : cmd A := fun out => (inr e, out).

(** [sys.exit(code)] *)
Definition sys_exit {A} (code : Z) : cmd A := stop (Exit code).

(** A call into the library: an exception it raises is not caught here. *)
Definition call {A} (o : outcome A) : cmd A :=
  match o with
  | Ok a => ret a
  | Raise e => stop (Uncaught e)
  | Unmodelled => stop NotModelled
  end.

(** [click.echo(message)] and [click.echo(message, err=True)] *)
Definition echo `{Console} (s : stream) (message : pystr) : cmd unit :=
  fun out =>
    if writable s message then (inl tt, out ++ [(s, message)])
    else (inr EchoFailed, out).

(** Decimal digits, most significant first. *)
Fixpoint digits (d : Decimal.uint) : pystr :=
  match d with
  | Decimal.Nil => []
  | Decimal.D0 d => 48 :: digits d
  | Decimal.D1 d => 49 :: digits d
  | Decimal.D2 d => 50 :: digits d
  | Decimal.D3 d => 51 :: digits d
  | Decimal.D4 d => 52 :: digits d
  | Decimal.D5 d => 53 :: digits d
  | Decimal.D6 d => 54 :: digits d
  | Decimal.D7 d => 55 :: digits d
  | Decimal.D8 d => 56 :: digits d
  | Decimal.D9 d => 57 :: digits d
  end.

(** [f"tool[{i}]"] *)
Definition tool_label (i : nat) : pystr :=
  py "tool[" ++ digits (Nat.to_uint i) ++ py "]".

(** [f"{v}"], the text of a value inside an f-string.  The texts of floats,
    lists and dictionaries (the last in insertion order) are outside the
    model, and so is an integer beyond the default limit of 4300 digits. *)
Definition format_value (v : json) : outcome pystr :=
  match v with
  | JStr s => Ok s
  | JNull => Ok (py "None")
  | JBool true => Ok (py "True")
  | JBool false => Ok (py "False")
  | JInt z =>
      if Z.ltb (Z.abs z) (10 ^ 4300) then
        Ok match Z.to_int z with
           | Decimal.Pos d => digits d
           | Decimal.Neg d => 45 :: digits d
           end
      else Unmodelled
  | JFloat _ | JList _ | JObj _ => Unmodelled
  end.

(** [tool if isinstance(tool, list) else [tool]] *)
Definition tools_of (tool : json) : list json :=
  match tool with
  | JList l => l
  | _ => [tool]
  end.

(** The name under which tool [i] is reported. *)
Definition tool_name (format : pystr) (i : nat) (t : json) : outcome json :=
  if bool_decide (format = py "openai") && isinstance_dict t then
    func ← OpenAIFormatter.attr_get t (py "function") (JObj ∅);
    OpenAIFormatter.attr_get func (py "name") (JStr (tool_label i))
  else if bool_decide (format = py "anthropic") && isinstance_dict t then
    OpenAIFormatter.attr_get t (py "name") (JStr (tool_label i))
  else Ok (JStr (tool_label i)).

Section WithConsole.
Context {C : Console}.

(** [for error in errors: click.echo(f"  - {error}")] *)
Fixpoint echo_errors (errors : list pystr) : cmd unit :=
  match errors with
  | [] => ret tt
  | error :: rest =>
      _ ← echo Stdout (py "  - " ++ error);
      echo_errors rest
  end.

(** The body of the loop for tool [i]; the result is the new value of
    [all_valid]. *)
Definition report_tool (format : pystr) (i : nat) (t : json) (all_valid : bool)
  : cmd bool :=
  result ←
    (if bool_decide (format = py "openai") then
       call (OpenAIFormatter.validate t)
     else if bool_decide (format = py "anthropic") then
       call (AnthropicFormatter.validate t)
     else
       _ ← echo Stderr (py "Error: Unknown format: " ++ format);
       sys_exit 1);
  name ← call (tool_name format i t);
  if fst result : bool then
    shown ← call (format_value name);
    _ ← echo Stdout (py "[OK] " ++ shown ++ py ": Valid " ++ format
                     ++ py " tool definition");
    ret all_valid
  else
    shown ← call (format_value name);
    _ ← echo Stdout (py "[ERROR] " ++ shown ++ py ": Invalid " ++ format
                     ++ py " tool definition");
    _ ← echo_errors (snd result);
    ret false.

(** [for i, t in enumerate(tools)], from index [i] on *)
Fixpoint report_tools (format : pystr) (i : nat) (tools : list json)
    (all_valid : bool) : cmd bool :=
  match tools with
  | [] => ret all_valid
  | t :: rest =>
      all_valid ← report_tool format i t all_valid;
      report_tools format (S i) rest all_valid
  end.

(** The body of [validate] after the file is parsed.  It does not return:
    it ends in [sys.exit] or earlier. *)
Definition validate_parsed (tool : json) (format : pystr) : cmd Empty_set :=
  all_valid ← report_tools format 0 (tools_of tool) true;
  if all_valid : bool then
    _ ← echo Stdout (10 :: py "All tool definitions are valid.");
    sys_exit 0
  else
    _ ← echo Stderr (10 :: py "Some tool definitions have errors.");
    sys_exit 1.

(** A run of the command: what was echoed, and how it ended. *)
Definition validate (tool : json) (format : pystr) : transcript * ending :=
  match validate_parsed tool format [] with
  | (inl impossible, _) => match impossible with end
  | (inr e, out) => (out, e)
  end.

End WithConsole.

End Cli.


(** A strict UTF-8 standard output, which refuses lone surrogates, beside a
    standard error that escapes what it cannot encode. *)
Definition utf8_console : Cli.Console :=
  {| Cli.writable := fun s message =>
       match s with
       | Cli.Stderr => true
       | Cli.Stdout =>
           forallb (fun c => negb ((55296 <=? c) && (c <=? 57343))) message
       end |}.


(** [{"type": "function", "function": 3}] *)
Definition numbered_function_tool : dict :=
  {[ py "type" := JStr (py "function"); py "function" := JInt 3 ]}.

(** [{"name": "f", "input_schema": null}] *)
Definition null_schema_tool : dict :=
  {[ py "name" := JStr (py "f"); py "input_schema" := JNull ]}.

(** The document [{"name": "f", "x": 1}] that [tagged_schema] holds, and a
    second store that holds it at another address. *)
Definition tagged_document : dict :=
  {[ py "name" := JStr (py "f"); py "x" := JInt 1 ]}.

Definition moved_store : Heap.heap := {[ 5%positive := tagged_schema ]}.

(** * Properties *)

(** ** The Unicode tables *)

#[global] Instance python_latin1_ascii : UnicodeAscii python_latin1.
Proof.
  split; intros c Hc; cbn;
    unfold latin1_isalnum, latin1_isdigit, between;
    repeat match goal with
      | |- context [N.eqb c ?k] =>
          replace (N.eqb c k) with false by (symmetry; apply N.eqb_neq; lia)
      | |- context [N.leb ?k c] =>
          lazymatch k with
          | 188 => idtac | 192 => idtac | 216 => idtac | 248 => idtac
          end;
          replace (N.leb k c) with false by (symmetry; apply N.leb_gt; lia)
      end;
    cbn; now rewrite ?orb_false_r.
Qed.

(** ** Name normalization *)

Section Normalize.
Context {U : Unicode} {UA : UnicodeAscii U}.

Lemma kept_ascii c : c < 128 -> kept c = word_char c.
Proof. intros Hc. unfold kept, word_char. now rewrite isalnum_ascii. Qed.

Lemma kept_not_space c : kept c = true -> c <> 32 /\ c <> 45.
Proof.
  intros Hk; split; intros ->;
    rewrite kept_ascii in Hk by reflexivity; discriminate.
Qed.

Lemma str_replace_absent old new s :
  Forall (fun c => c <> old) s -> str_replace old new s = s.
Proof.
  unfold str_replace.
  induction 1 as [|c s Hc _ IH]; cbn; [reflexivity|].
  rewrite IH. now apply N.eqb_neq in Hc as ->.
Qed.

Lemma filter_all {A} (p : A -> bool) l :
  Forall (fun x => p x = true) l -> List.filter p l = l.
Proof. induction 1 as [|x l Hx _ IH]; cbn; [|rewrite Hx, IH]; reflexivity. Qed.

Lemma filter_Forall {A} (p : A -> bool) l :
  Forall (fun x => p x = true) (List.filter p l).
Proof.
  induction l as [|x l IH]; cbn; [constructor|].
  destruct (p x) eqn:Hx; [constructor|]; assumption.
Qed.

(** A string that is already clean and does not start with a digit is left
    as it is. *)
Lemma normalize_str_fixed c r :
  Forall (fun x => kept x = true) (c :: r) -> isdigit c = false ->
  normalize_str (c :: r) = c :: r.
Proof.
  intros Hk Hd. unfold normalize_str.
  rewrite (str_replace_absent 32), (str_replace_absent 45).
  - fold kept. rewrite (filter_all kept) by assumption. now rewrite Hd.
  - eapply Forall_impl; [exact Hk|]. intros x Hx. now apply kept_not_space.
  - eapply Forall_impl; [exact Hk|]. intros x Hx. now apply kept_not_space.
Qed.

Lemma unnamed_tool_kept : Forall (fun x => kept x = true) (py "unnamed_tool").
Proof.
  apply Forall_forall. intros x Hx. rewrite kept_ascii.
  - revert x Hx. apply Forall_forall. vm_compute. repeat constructor.
  - revert x Hx. apply Forall_forall. vm_compute. repeat constructor.
Qed.

(** The three facts about every normalized name. *)
Lemma normalize_str_shape s :
  exists c r, normalize_str s = c :: r
    /\ Forall (fun x => kept x = true) (c :: r)
    /\ isdigit c = false.
Proof.
  unfold normalize_str. fold kept.
  pose proof (filter_Forall kept (str_replace 45 95 (str_replace 32 95 s))) as Hf.
  destruct (List.filter kept _) as [|c r] eqn:E.
  - exists 117, (py "nnamed_tool"). split; [reflexivity|]. split.
    + exact unnamed_tool_kept.
    + now rewrite isdigit_ascii.
  - destruct (isdigit c) eqn:Hd.
    + exists 95, (c :: r). split; [reflexivity|]. split.
      * constructor; [now rewrite kept_ascii|assumption].
      * now rewrite isdigit_ascii.
    + exists c, r. auto.
Qed.

Lemma normalize_str_idempotent s :
  normalize_str (normalize_str s) = normalize_str s.
Proof.
  destruct (normalize_str_shape s) as (c & r & -> & Hk & Hd).
  now apply normalize_str_fixed.
Qed.

End Normalize.

Section NormalizeAscii.
Context {U : Unicode} {UA : UnicodeAscii U}.

Lemma normalize_str_ascii s :
  Forall (fun c => c < 128) s -> Forall (fun c => c < 128) (normalize_str s).
Proof.
  intros Hs. unfold normalize_str.
  assert (Hf : Forall (fun c => c < 128)
                 (List.filter (fun c => isalnum c || N.eqb c 95)
                    (str_replace 45 95 (str_replace 32 95 s)))).
  { apply Forall_forall. intros c Hc. apply list_elem_of_In, filter_In in Hc.
    destruct Hc as [Hc _]. unfold str_replace in Hc.
    apply in_map_iff in Hc as (b & <- & Hb).
    apply in_map_iff in Hb as (a & <- & Ha).
    apply list_elem_of_In in Ha. rewrite Forall_forall in Hs. specialize (Hs _ Ha).
    destruct (N.eqb a 32); cbn; [reflexivity|].
    destruct (N.eqb a 45); [reflexivity|assumption]. }
  destruct (List.filter _ _) as [|c r].
  - apply Forall_forall. intros x Hx. revert x Hx. apply Forall_forall.
    vm_compute. repeat constructor.
  - destruct (isdigit c); [constructor; [reflexivity|]|]; assumption.
Qed.

Lemma kept_word_chars s :
  Forall (fun c => c < 128) s -> Forall (fun c => kept c = true) s ->
  forallb word_char s = true.
Proof.
  intros Ha Hk. apply forallb_forall. intros c Hc. apply list_elem_of_In in Hc.
  rewrite Forall_forall in Ha, Hk. rewrite <- kept_ascii by auto. auto.
Qed.

(** Nothing of [s] survives: the fallback name. *)
Lemma normalize_str_fallback s :
  Forall (fun c => kept c = false /\ c <> 32 /\ c <> 45) s ->
  normalize_str s = py "unnamed_tool".
Proof.
  intros Hs. unfold normalize_str. fold kept.
  rewrite !str_replace_absent.
  - replace (List.filter kept s) with (@nil N); [reflexivity|].
    induction Hs as [|c s (Hc & _) _ IH]; cbn; [|rewrite Hc]; auto.
  - eapply Forall_impl; [exact Hs|]. cbn. tauto.
  - rewrite str_replace_absent; eapply Forall_impl; try exact Hs; cbn; tauto.
Qed.

End NormalizeAscii.

(** C6. Name normalization is idempotent: normalizing a string always
    returns a name, and normalizing that name returns it unchanged. *)
Theorem normalize_name_idempotent (U : Unicode) (UA : UnicodeAscii U) (s : pystr) :
  exists r,
    _normalize_name (JStr s) = Ok r /\ _normalize_name (JStr r) = Ok r.
Proof.
  exists (normalize_str s). cbn. split; [reflexivity|].
  now rewrite normalize_str_idempotent.
Qed.

Lemma normalize_name_idempotent_witness :
  exists r,
    _normalize_name (U := python_latin1) (JStr (py "2 fast-2 furious!")) = Ok r
    /\ _normalize_name (U := python_latin1) (JStr r) = Ok r.
Proof. exact (normalize_name_idempotent python_latin1 python_latin1_ascii _). Defined.

(** C5, as stated, fails: a letter outside ASCII is alphanumeric for
    [str.isalnum], is kept, and the regular expression rejects it. *)
Lemma normalize_name_regex_counterexample :
  _normalize_name (U := python_latin1) (JStr cafe) = Ok cafe
  /\ matches_name_regex cafe = false.
Proof. split; reflexivity. Qed.

(** C5, amended. Every normalized name is non-empty, consists of characters
    that [str.isalnum] accepts or underscores, and does not start with a
    digit; it is [unnamed_tool] when no character of the input survives; and
    for an ASCII input it matches [^_?[A-Za-z0-9_]*$]. *)
Theorem normalize_name_shape (U : Unicode) (UA : UnicodeAscii U) (s : pystr) :
  exists c r,
    _normalize_name (JStr s) = Ok (c :: r)
    /\ Forall (fun x => isalnum x || N.eqb x 95 = true) (c :: r)
    /\ isdigit c = false
    /\ ascii_isdigit c = false
    /\ (Forall (fun x => (isalnum x || N.eqb x 95) = false /\ x <> 32 /\ x <> 45) s ->
        c :: r = py "unnamed_tool")
    /\ (Forall (fun x => x < 128) s -> matches_name_regex (c :: r) = true).
Proof.
  destruct (normalize_str_shape s) as (c & r & E & Hk & Hd).
  exists c, r. cbn [_normalize_name]. rewrite E.
  split; [reflexivity|]. split; [exact Hk|]. split; [exact Hd|].
  split; [|split].
  - destruct (N.ltb_spec c 128) as [Hc|Hc].
    + now rewrite <- isdigit_ascii.
    + unfold ascii_isdigit. apply andb_false_intro2. apply N.leb_gt. lia.
  - intros Hs. rewrite <- E. now apply normalize_str_fallback.
  - intros Hs. unfold matches_name_regex. apply orb_true_intro. left.
    apply kept_word_chars; [|exact Hk]. rewrite <- E. now apply normalize_str_ascii.
Qed.

Lemma normalize_name_shape_witness :
  exists c r,
    _normalize_name (U := python_latin1) (JStr (py "2 fast-2 furious!")) = Ok (c :: r)
    /\ Forall (fun x => latin1_isalnum x || N.eqb x 95 = true) (c :: r)
    /\ latin1_isdigit c = false
    /\ ascii_isdigit c = false
    /\ (Forall (fun x => (latin1_isalnum x || N.eqb x 95) = false /\ x <> 32 /\ x <> 45)
          (py "2 fast-2 furious!") ->
        c :: r = py "unnamed_tool")
    /\ (Forall (fun x => x < 128) (py "2 fast-2 furious!") ->
        matches_name_regex (c :: r) = true).
Proof. exact (normalize_name_shape python_latin1 python_latin1_ascii _). Defined.

(** ** The metadata extractor *)

Lemma dict_contains_true (d : dict) k : dict_contains d k = true <-> is_Some (d !! k).
Proof. unfold dict_contains. apply bool_decide_eq_true. Qed.

Lemma dict_contains_false (d : dict) k : dict_contains d k = false <-> d !! k = None.
Proof.
  unfold dict_contains. rewrite bool_decide_eq_false. symmetry. apply eq_None_not_Some.
Qed.

Ltac key_ne := solve [ discriminate | intros ?; discriminate ].

Section Extract.
Context {U : Unicode}.

(** Extraction is the parameters object, then the normalized name. *)
Lemma extract_unfold self :
  _extract_tool_metadata self =
    parameters ← build_parameters (schema self);
    name ← _normalize_name (raw_name (schema self));
    Ok ({[ py "name" := JStr name;
           py "description" := dict_get (schema self) (py "description") (JStr []);
           py "parameters" := parameters ]} : dict).
Proof. reflexivity. Qed.

(** Path 1 of [build_parameters]. *)
Lemma build_parameters_properties (d : dict) :
  is_Some (d !! py "properties") ->
  exists p : dict,
    build_parameters d = Ok (JObj p)
    /\ p !! py "type" = Some (JStr (py "object"))
    /\ p !! py "properties" = d !! py "properties"
    /\ p !! py "required" = d !! py "required"
    /\ p !! py "additionalProperties" =
         match d !! py "additionalProperties" with
         | Some JNull => None
         | other => other
         end
    /\ forall k,
         k <> py "type" -> k <> py "properties" -> k <> py "required" ->
         k <> py "additionalProperties" -> p !! k = None.
Proof.
  intros [props Hprops]. unfold build_parameters.
  assert (dict_contains d (py "properties") = true) as ->
    by (apply dict_contains_true; eauto).
  unfold dict_get, dict_getitem, dict_setitem. rewrite Hprops. cbn [default].
  destruct (d !! py "required") as [req|] eqn:Hreq;
    [ assert (dict_contains d (py "required") = true) as ->
        by (apply dict_contains_true; rewrite Hreq; eauto)
    | assert (dict_contains d (py "required") = false) as ->
        by (now apply dict_contains_false) ];
    destruct (d !! py "additionalProperties") as [ap|] eqn:Hap; cbn;
    try (destruct ap; cbn);
    eexists; (split; [reflexivity|]);
    repeat split;
    try (intros k ? ? ? ?);
    repeat first
      [ rewrite lookup_insert_eq
      | rewrite lookup_insert_ne by (first [key_ne | congruence])
      | rewrite lookup_singleton_eq
      | rewrite lookup_singleton_ne by (first [key_ne | congruence])
      | rewrite lookup_empty ];
    reflexivity.
Qed.

(** Path 3 of [build_parameters]. *)
Lemma build_parameters_whole (d : dict) :
  d !! py "properties" = None -> d !! py "parameters" = None ->
  exists p : dict,
    build_parameters d = Ok (JObj p)
    /\ p !! py "type" = Some (default (JStr (py "object")) (d !! py "type"))
    /\ p !! py "name" = None
    /\ p !! py "title" = None
    /\ p !! py "description" = None
    /\ forall k,
         k <> py "type" -> k <> py "name" -> k <> py "title" ->
         k <> py "description" -> p !! k = d !! k.
Proof.
  intros Hprops Hparams. unfold build_parameters.
  apply dict_contains_false in Hprops as ->.
  apply dict_contains_false in Hparams as ->.
  unfold dict_pop, dict_setitem. cbn [negb].
  set (q := delete (py "description") (delete (py "title") (delete (py "name") d))).
  assert (Hq : forall k, k <> py "name" -> k <> py "title" ->
                 k <> py "description" -> q !! k = d !! k).
  { intros k ? ? ?. unfold q. now rewrite !lookup_delete_ne by congruence. }
  assert (Hqn : q !! py "name" = None).
  { unfold q. rewrite !lookup_delete_ne by key_ne. apply lookup_delete_eq. }
  assert (Hqt : q !! py "title" = None).
  { unfold q. rewrite lookup_delete_ne by key_ne. apply lookup_delete_eq. }
  assert (Hqd : q !! py "description" = None) by apply lookup_delete_eq.
  assert (Hty : q !! py "type" = d !! py "type") by (apply Hq; key_ne).
  destruct (d !! py "type") as [ty|] eqn:Hd.
  - assert (dict_contains q (py "type") = true) as ->
      by (apply dict_contains_true; rewrite Hty; eauto).
    exists q. cbn. repeat split; auto.
  - assert (dict_contains q (py "type") = false) as ->
      by (now apply dict_contains_false).
    eexists. cbn. split; [reflexivity|].
    repeat split; try (intros k ? ? ? ?);
      rewrite ?lookup_insert_eq, ?lookup_insert_ne by (first [key_ne | congruence]);
      auto.
Qed.

End Extract.

(** C1, as stated, fails: a document that brings its own [type] keeps it. *)
Lemma extract_keeps_type_counterexample :
  array_schema !! py "properties" = None
  /\ array_schema !! py "parameters" = None
  /\ _extract_tool_metadata (U := python_latin1) {| schema := array_schema |}
     = Ok {[ py "name" := JStr (py "unnamed_tool");
             py "description" := JStr [];
             py "parameters" := JObj {[ py "type" := JStr (py "array") ]} ]}
  /\ JStr (py "array") <> JStr (py "object").
Proof.
  split; [reflexivity|]. split; [reflexivity|]. split; [|discriminate].
  vm_compute. reflexivity.
Qed.

(** C1, amended. For a document with neither [properties] nor [parameters],
    the parameters object is the document without [name], [title] and
    [description]; its [type] is the document's own [type] when it has one
    and ["object"] otherwise.  The extractor returns it whenever the name
    is a string, and raises otherwise. *)
Theorem extract_whole_document (U : Unicode) (self : t) :
  schema self !! py "properties" = None ->
  schema self !! py "parameters" = None ->
  exists p : dict,
    p !! py "type" =
      Some (default (JStr (py "object")) (schema self !! py "type"))
    /\ (schema self !! py "type" = None ->
        p !! py "type" = Some (JStr (py "object")))
    /\ p !! py "name" = None
    /\ p !! py "title" = None
    /\ p !! py "description" = None
    /\ (forall k,
          k <> py "type" -> k <> py "name" -> k <> py "title" ->
          k <> py "description" -> p !! k = schema self !! k)
    /\ (forall meta,
          _extract_tool_metadata self = Ok meta ->
          meta !! py "parameters" = Some (JObj p))
    /\ (forall s,
          raw_name (schema self) = JStr s ->
          exists meta, _extract_tool_metadata self = Ok meta)
    /\ (isinstance_str (raw_name (schema self)) = false ->
        _extract_tool_metadata self = Raise AttributeError).
Proof.
  intros Hprops Hparams.
  destruct (build_parameters_whole _ Hprops Hparams)
    as (p & Hb & Hty & Hn & Ht & Hd & Hk).
  exists p. split; [exact Hty|]. split; [intros E; now rewrite Hty, E|].
  do 4 (split; [assumption|]).
  rewrite extract_unfold, Hb. cbn.
  destruct (raw_name (schema self)); cbn; repeat split; try discriminate;
    try (intros meta [= <-]; now rewrite !lookup_insert_ne by key_ne);
    eauto.
Qed.

Lemma extract_whole_document_witness :
  exists p : dict,
    p !! py "type" = Some (default (JStr (py "object")) (array_schema !! py "type"))
    /\ (array_schema !! py "type" = None ->
        p !! py "type" = Some (JStr (py "object")))
    /\ p !! py "name" = None
    /\ p !! py "title" = None
    /\ p !! py "description" = None
    /\ (forall k,
          k <> py "type" -> k <> py "name" -> k <> py "title" ->
          k <> py "description" -> p !! k = array_schema !! k)
    /\ (forall meta,
          _extract_tool_metadata (U := python_latin1) {| schema := array_schema |}
            = Ok meta ->
          meta !! py "parameters" = Some (JObj p))
    /\ (forall s,
          raw_name array_schema = JStr s ->
          exists meta,
            _extract_tool_metadata (U := python_latin1) {| schema := array_schema |}
              = Ok meta)
    /\ (isinstance_str (raw_name array_schema) = false ->
        _extract_tool_metadata (U := python_latin1) {| schema := array_schema |}
          = Raise AttributeError).
Proof.
  apply (extract_whole_document python_latin1 {| schema := array_schema |});
    reflexivity.
Defined.

(** C3. For a document with a [properties] key, the parameters object has
    [type] ["object"], the document's [properties], its [required] when it
    has one, its [additionalProperties] when it has one that is not [None],
    and no other key, so no [title].  The extractor returns it whenever the
    name is a string, and raises otherwise. *)
Theorem extract_properties_path (U : Unicode) (self : t) :
  is_Some (schema self !! py "properties") ->
  exists p : dict,
    p !! py "type" = Some (JStr (py "object"))
    /\ p !! py "properties" = schema self !! py "properties"
    /\ p !! py "required" = schema self !! py "required"
    /\ p !! py "additionalProperties" =
         match schema self !! py "additionalProperties" with
         | Some JNull => None
         | other => other
         end
    /\ (forall k,
          k <> py "type" -> k <> py "properties" -> k <> py "required" ->
          k <> py "additionalProperties" -> p !! k = None)
    /\ p !! py "title" = None
    /\ (forall meta,
          _extract_tool_metadata self = Ok meta ->
          meta !! py "parameters" = Some (JObj p))
    /\ (forall s,
          raw_name (schema self) = JStr s ->
          exists meta, _extract_tool_metadata self = Ok meta)
    /\ (isinstance_str (raw_name (schema self)) = false ->
        _extract_tool_metadata self = Raise AttributeError).
Proof.
  intros Hprops.
  destruct (build_parameters_properties _ Hprops)
    as (p & Hb & Hty & Hp & Hr & Ha & Hk).
  exists p. do 5 (split; [assumption|]).
  split; [apply Hk; key_ne|].
  rewrite extract_unfold, Hb. cbn.
  destruct (raw_name (schema self)); cbn; repeat split; try discriminate;
    try (intros meta [= <-]; now rewrite !lookup_insert_ne by key_ne);
    eauto.
Qed.

Lemma extract_properties_path_witness :
  exists p : dict,
    p !! py "type" = Some (JStr (py "object"))
    /\ p !! py "properties" = weather_schema !! py "properties"
    /\ p !! py "required" = weather_schema !! py "required"
    /\ p !! py "additionalProperties" =
         match weather_schema !! py "additionalProperties" with
         | Some JNull => None
         | other => other
         end
    /\ (forall k,
          k <> py "type" -> k <> py "properties" -> k <> py "required" ->
          k <> py "additionalProperties" -> p !! k = None)
    /\ p !! py "title" = None
    /\ (forall meta,
          _extract_tool_metadata (U := python_latin1) {| schema := weather_schema |}
            = Ok meta ->
          meta !! py "parameters" = Some (JObj p))
    /\ (forall s,
          raw_name weather_schema = JStr s ->
          exists meta,
            _extract_tool_metadata (U := python_latin1) {| schema := weather_schema |}
              = Ok meta)
    /\ (isinstance_str (raw_name weather_schema) = false ->
        _extract_tool_metadata (U := python_latin1) {| schema := weather_schema |}
          = Raise AttributeError).
Proof.
  apply (extract_properties_path python_latin1 {| schema := weather_schema |}).
  vm_compute. eauto.
Defined.

(** ** Conversion *)

Section ConvertAscii.
Context {U : Unicode} {UA : UnicodeAscii U}.

(** On an ASCII name every table gives the same normalized name. *)
Lemma normalize_str_table s :
  Forall (fun c => c < 128) s ->
  normalize_str (U := U) s = normalize_str (U := python_latin1) s.
Proof.
  intros Hs. unfold normalize_str.
  set (r := str_replace 45 95 (str_replace 32 95 s)).
  assert (Hr : Forall (fun c => c < 128) r).
  { subst r. unfold str_replace. rewrite !Forall_map.
    eapply Forall_impl; [exact Hs|]. cbn. intros a Ha.
    destruct (N.eqb a 32); cbn; [reflexivity|].
    destruct (N.eqb a 45); [reflexivity|assumption]. }
  assert (E : List.filter (fun c => isalnum (Unicode := U) c || N.eqb c 95) r
              = List.filter (fun c => latin1_isalnum c || N.eqb c 95) r).
  { apply filter_ext_in. intros c Hc. apply list_elem_of_In in Hc.
    rewrite Forall_forall in Hr.
    rewrite isalnum_ascii by auto.
    now rewrite <- (isalnum_ascii (U := python_latin1)) by auto. }
  cbn [isalnum isdigit python_latin1]. rewrite E. clear E.
  destruct (List.filter _ r) as [|c q] eqn:Ef; [reflexivity|].
  assert (Hc : c < 128).
  { rewrite Forall_forall in Hr. apply Hr, list_elem_of_In.
    eapply (proj1 (filter_In _ c r)). rewrite Ef. now left. }
  rewrite isdigit_ascii by assumption.
  now rewrite <- (isdigit_ascii (U := python_latin1)) by assumption.
Qed.

Lemma convert_table self format s :
  raw_name (schema self) = JStr s -> Forall (fun c => c < 128) s ->
  convert (U := U) self format = convert (U := python_latin1) self format.
Proof.
  intros Hn Hs. unfold convert. rewrite !extract_unfold, Hn.
  cbn [_normalize_name]. now rewrite normalize_str_table.
Qed.

End ConvertAscii.

(** C4. Converting the weather document to the OpenAI format returns
    exactly the tool definition of the scenario. *)
Theorem convert_weather_openai (U : Unicode) (UA : UnicodeAscii U) :
  (self ← __init__ (JObj weather_schema); convert self (py "openai"))
  = Ok (JObj weather_openai_tool).
Proof.
  cbn [__init__ mbind outcome_mbind outcome_bind].
  rewrite (convert_table _ _ (py "Get Weather")).
  - vm_compute. reflexivity.
  - reflexivity.
  - vm_compute. repeat constructor.
Qed.

Lemma convert_weather_openai_witness :
  (self ← __init__ (JObj weather_schema);
   convert (U := python_latin1) self (py "openai"))
  = Ok (JObj weather_openai_tool).
Proof. exact (convert_weather_openai python_latin1 python_latin1_ascii). Defined.

(** C8. A format other than ["openai"] and ["anthropic"] makes [convert]
    raise the unsupported-format error, whatever the document; no tool
    definition is returned. *)
Theorem convert_unsupported_format (U : Unicode) (self : t) (format : pystr) :
  format <> py "openai" -> format <> py "anthropic" ->
  convert self format =
    Raise (ValueError
      (py "Unsupported format: " ++ format
       ++ py ". Supported formats: openai, anthropic"))
  /\ forall tool, convert self format <> Ok tool.
Proof.
  intros H1 H2.
  assert (E : convert self format =
    Raise (ValueError
      (py "Unsupported format: " ++ format
       ++ py ". Supported formats: openai, anthropic"))).
  { unfold convert. rewrite bool_decide_eq_false_2.
    - reflexivity.
    - unfold SUPPORTED_FORMATS. rewrite !elem_of_cons, elem_of_nil. tauto. }
  split; [exact E|]. intros tool. rewrite E. discriminate.
Qed.

Lemma convert_unsupported_format_witness :
  convert (U := python_latin1) {| schema := weather_schema |} (py "bogus") =
    Raise (ValueError
      (py "Unsupported format: " ++ py "bogus"
       ++ py ". Supported formats: openai, anthropic"))
  /\ forall tool,
       convert (U := python_latin1) {| schema := weather_schema |} (py "bogus")
       <> Ok tool.
Proof.
  apply (convert_unsupported_format python_latin1 {| schema := weather_schema |});
    discriminate.
Defined.

(** ** The validators, check by check *)

Lemma eq_str_true (d : dict) k s :
  eq_str (dict_get d k JNull) s = true <-> d !! k = Some (JStr s).
Proof.
  unfold dict_get. destruct (d !! k) as [[]|]; cbn;
    rewrite ?bool_decide_eq_true; split; congruence.
Qed.

Lemma eq_str_false (d : dict) k s :
  eq_str (dict_get d k JNull) s = false <-> d !! k <> Some (JStr s).
Proof.
  rewrite <- eq_str_true. destruct (eq_str _ _); split; congruence.
Qed.

Ltac lookup_literal :=
  repeat first
    [ rewrite lookup_insert_eq
    | rewrite lookup_insert_ne by key_ne
    | rewrite lookup_singleton_eq
    | rewrite lookup_singleton_ne by key_ne
    | rewrite lookup_empty ].

(** Each group of checks appends its own defects, whatever was found
    before. *)
Lemma openai_check_name_eq (func : dict) errors :
  OpenAIFormatter.check_name func errors =
    Ok (errors ++
        name_defects (py "Function must have a 'name' field")
          (py "Function 'name' must be a string")
          (py "Function 'name' cannot be empty") func).
Proof.
  unfold OpenAIFormatter.check_name, name_defects, dict_contains, dict_getitem.
  destruct (func !! py "name") as [[| | | |[|c s]| |]|];
    cbn; rewrite ?app_nil_r; reflexivity.
Qed.

Lemma openai_check_description_eq (func : dict) errors :
  OpenAIFormatter.check_description func errors =
    Ok (errors ++
        description_defects (py "Function 'description' must be a string") func).
Proof.
  unfold OpenAIFormatter.check_description, description_defects, dict_contains, dict_getitem.
  destruct (func !! py "description") as [[]|];
    cbn; rewrite ?app_nil_r; reflexivity.
Qed.

Lemma openai_check_parameters_eq (func : dict) errors :
  OpenAIFormatter.check_parameters func errors =
    Ok (errors ++
        schema_defects (py "parameters")
          (py "Function must have a 'parameters' field")
          (py "Function 'parameters' must be a dictionary")
          (py "Function parameters 'type' must be 'object'")
          (py "Function parameters must have 'properties'") func).
Proof.
  unfold OpenAIFormatter.check_parameters, schema_defects.
  destruct (func !! py "parameters") as [v|] eqn:E.
  - assert (dict_contains func (py "parameters") = true) as ->
      by (apply dict_contains_true; rewrite E; eauto).
    unfold dict_getitem. rewrite E.
    destruct v; try reflexivity.
    cbn [negb mbind outcome_mbind outcome_bind].
    destruct (eq_str _ _), (dict_contains m _);
      cbn [negb]; rewrite <- ?app_assoc, ?app_nil_r; reflexivity.
  - apply dict_contains_false in E as ->. reflexivity.
Qed.

Lemma openai_validate_eq (tool : dict) :
  OpenAIFormatter.validate (JObj tool) =
    Ok (OpenAIFormatter.verdict
          ((if eq_str (dict_get tool (py "type") JNull) (py "function")
            then [] else [py "Tool 'type' must be 'function'"])
           ++ match tool !! py "function" with
              | None => [py "Tool must have a 'function' field"]
              | Some (JObj func) =>
                  name_defects (py "Function must have a 'name' field")
                    (py "Function 'name' must be a string")
                    (py "Function 'name' cannot be empty") func
                  ++ description_defects
                       (py "Function 'description' must be a string") func
                  ++ schema_defects (py "parameters")
                       (py "Function must have a 'parameters' field")
                       (py "Function 'parameters' must be a dictionary")
                       (py "Function parameters 'type' must be 'object'")
                       (py "Function parameters must have 'properties'") func
              | Some _ => [py "'function' must be a dictionary"]
              end)).
Proof.
  unfold OpenAIFormatter.validate.
  destruct (eq_str (dict_get tool (py "type") JNull) (py "function"));
    cbn [negb];
    (destruct (tool !! py "function") as [v|] eqn:E;
     [ assert (dict_contains tool (py "function") = true) as ->
         by (apply dict_contains_true; rewrite E; eauto);
       unfold dict_getitem; rewrite E;
       destruct v; try reflexivity;
       cbn [negb mbind outcome_mbind outcome_bind];
       rewrite openai_check_name_eq; cbn [mbind outcome_mbind outcome_bind];
       rewrite openai_check_description_eq; cbn [mbind outcome_mbind outcome_bind];
       rewrite openai_check_parameters_eq; cbn [mbind outcome_mbind outcome_bind];
       now rewrite <- !app_assoc
     | apply dict_contains_false in E as ->; reflexivity ]).
Qed.

Lemma anthropic_check_name_eq (tool : dict) errors :
  AnthropicFormatter.check_name tool errors =
    Ok (errors ++
        name_defects (py "Tool must have a 'name' field")
          (py "Tool 'name' must be a string")
          (py "Tool 'name' cannot be empty") tool).
Proof.
  unfold AnthropicFormatter.check_name, name_defects, dict_contains, dict_getitem.
  destruct (tool !! py "name") as [[| | | |[|c s]| |]|];
    cbn; rewrite ?app_nil_r; reflexivity.
Qed.

Lemma anthropic_check_description_eq (tool : dict) errors :
  AnthropicFormatter.check_description tool errors =
    Ok (errors ++
        description_defects (py "Tool 'description' must be a string") tool).
Proof.
  unfold AnthropicFormatter.check_description, description_defects, dict_contains, dict_getitem.
  destruct (tool !! py "description") as [[]|];
    cbn; rewrite ?app_nil_r; reflexivity.
Qed.

Lemma anthropic_check_input_schema_eq (tool : dict) errors :
  AnthropicFormatter.check_input_schema tool errors =
    Ok (errors ++
        schema_defects (py "input_schema")
          (py "Tool must have an 'input_schema' field")
          (py "Tool 'input_schema' must be a dictionary")
          (py "Tool input_schema 'type' must be 'object'")
          (py "Tool input_schema must have 'properties'") tool).
Proof.
  unfold AnthropicFormatter.check_input_schema, schema_defects.
  destruct (tool !! py "input_schema") as [v|] eqn:E.
  - assert (dict_contains tool (py "input_schema") = true) as ->
      by (apply dict_contains_true; rewrite E; eauto).
    unfold dict_getitem. rewrite E.
    destruct v; try reflexivity.
    cbn [negb mbind outcome_mbind outcome_bind].
    destruct (eq_str _ _), (dict_contains m _);
      cbn [negb]; rewrite <- ?app_assoc, ?app_nil_r; reflexivity.
  - apply dict_contains_false in E as ->. reflexivity.
Qed.

Lemma anthropic_validate_eq (tool : dict) :
  AnthropicFormatter.validate (JObj tool) =
    Ok (OpenAIFormatter.verdict
          (name_defects (py "Tool must have a 'name' field")
             (py "Tool 'name' must be a string")
             (py "Tool 'name' cannot be empty") tool
           ++ description_defects (py "Tool 'description' must be a string") tool
           ++ schema_defects (py "input_schema")
                (py "Tool must have an 'input_schema' field")
                (py "Tool 'input_schema' must be a dictionary")
                (py "Tool input_schema 'type' must be 'object'")
                (py "Tool input_schema must have 'properties'") tool)).
Proof.
  unfold AnthropicFormatter.validate.
  rewrite anthropic_check_name_eq. cbn [mbind outcome_mbind outcome_bind].
  rewrite anthropic_check_description_eq. cbn [mbind outcome_mbind outcome_bind].
  rewrite anthropic_check_input_schema_eq. cbn [mbind outcome_mbind outcome_bind].
  now rewrite <- !app_assoc.
Qed.

Lemma in_name_defects (m absent not_str blank : pystr) (d : dict) :
  In m (name_defects absent not_str blank d) <->
    (m = absent /\ d !! py "name" = None)
    \/ (m = not_str /\ exists v, d !! py "name" = Some v /\ isinstance_str v = false)
    \/ (m = blank /\ d !! py "name" = Some (JStr [])).
Proof.
  unfold name_defects.
  destruct (d !! py "name") as [[| | | |[|c s]| |]|]; cbn;
    (split;
     [ intros H; decompose [or] H; subst; try contradiction; eauto 6
     | intros H; decompose [and or ex] H; simplify_eq/=; auto ]).
Qed.

Lemma in_description_defects (m not_str : pystr) (d : dict) :
  In m (description_defects not_str d) <->
    m = not_str /\ exists v, d !! py "description" = Some v /\ isinstance_str v = false.
Proof.
  unfold description_defects.
  destruct (d !! py "description") as [[]|]; cbn;
    (split;
     [ intros H; decompose [or] H; subst; try contradiction; eauto 6
     | intros H; decompose [and or ex] H; simplify_eq/=; auto ]).
Qed.

Lemma in_schema_defects (m key absent not_dict bad_type no_properties : pystr)
    (d : dict) :
  In m (schema_defects key absent not_dict bad_type no_properties d) <->
    (m = absent /\ d !! key = None)
    \/ (m = not_dict /\ exists v, d !! key = Some v /\ isinstance_dict v = false)
    \/ (m = bad_type /\ exists s : dict, d !! key = Some (JObj s)
          /\ s !! py "type" <> Some (JStr (py "object")))
    \/ (m = no_properties /\ exists s : dict, d !! key = Some (JObj s)
          /\ s !! py "properties" = None).
Proof.
  unfold schema_defects.
  destruct (d !! key) as [[| | | | | |s]|].
  7: {
    rewrite in_app_iff.
    destruct (eq_str _ _) eqn:Ety;
      [apply eq_str_true in Ety|apply eq_str_false in Ety];
      (destruct (dict_contains s _) eqn:Ep;
       [apply dict_contains_true in Ep|apply dict_contains_false in Ep]);
      cbn;
      (split;
       [ intros H; decompose [or] H; subst; try contradiction; eauto 10
       | intros H; decompose [and or ex] H; simplify_eq/=; auto;
         try congruence; try (destruct Ep; congruence) ]). }
  all: cbn; split;
    [ intros H; decompose [or] H; subst; try contradiction; eauto 8
    | intros H; decompose [and or ex] H; simplify_eq/=; auto ].
Qed.

(** Two different messages of the source. *)
Ltac other_message :=
  match goal with
  | H : py _ = py _ |- _ => exfalso; revert H; vm_compute; discriminate
  end.


Ltac split8 :=
  split; [|split; [|split; [|split; [|split; [|split; [|split]]]]]].

Ltac in_defects :=
  rewrite ?in_app_iff, ?in_name_defects, ?in_description_defects,
    ?in_schema_defects; cbn [In];
  (split;
   [ let H := fresh in
     intros H; decompose [and or ex] H;
     try other_message; try contradiction; simplify_eq; eauto
   | let H := fresh in
     intros H; decompose [and or ex] H; simplify_eq; eauto 15 ]).

Lemma anthropic_validate_reports (tool : dict) :
  exists errors,
    AnthropicFormatter.validate (JObj tool) = Ok (OpenAIFormatter.verdict errors)
    /\ anthropic_reports tool errors.
Proof.
  eexists. split; [apply anthropic_validate_eq|].
  unfold anthropic_reports. split8; in_defects.
Qed.

Lemma openai_validate_reports (tool : dict) :
  exists errors,
    OpenAIFormatter.validate (JObj tool) = Ok (OpenAIFormatter.verdict errors)
    /\ openai_reports tool errors.
Proof.
  eexists. split; [apply openai_validate_eq|].
  set (ty := if eq_str _ _ then _ else _).
  assert (Hty : forall m,
            In m ty <-> m = py "Tool 'type' must be 'function'"
                        /\ tool !! py "type" <> Some (JStr (py "function"))).
  { intros m. subst ty.
    destruct (eq_str _ _) eqn:E;
      [apply eq_str_true in E|apply eq_str_false in E]; cbn;
      split; intros H; decompose [and or] H; try contradiction; subst; auto. }
  clearbody ty. unfold openai_reports.
  destruct (tool !! py "function") as [[| | | | | |f]|] eqn:Ef.
  7: {
    split; [|split; [|split]].
    - rewrite in_app_iff, Hty. in_defects.
    - rewrite in_app_iff, Hty. in_defects.
    - rewrite in_app_iff, Hty. in_defects.
    - intros func [= <-]. unfold function_reports.
      split8; rewrite in_app_iff, Hty; in_defects. }
  all: (split; [|split; [|split]]);
    [ rewrite in_app_iff, Hty; in_defects
    | rewrite in_app_iff, Hty; in_defects
    | rewrite in_app_iff, Hty; in_defects
    | intros func [=] ].
Qed.

Lemma verdict_flag errors :
  fst (OpenAIFormatter.verdict errors) = true <-> errors = [].
Proof. destruct errors; cbn; split; congruence. Qed.

(** C7. Neither validator raises: each returns a flag and a defect list,
    and the flag is true exactly when the list is empty.  An input that is
    not a mapping gets the single defect [Tool must be a dictionary].  For
    a mapping, every defect is in the list exactly when its own condition
    holds, independently of the others. *)
Theorem validators_report_all_defects (tool : json) :
  (exists valid errors,
     OpenAIFormatter.validate tool = Ok (valid, errors)
     /\ (valid = true <-> errors = []))
  /\ (exists valid errors,
        AnthropicFormatter.validate tool = Ok (valid, errors)
        /\ (valid = true <-> errors = []))
  /\ (isinstance_dict tool = false ->
      OpenAIFormatter.validate tool
        = Ok (false, [py "Tool must be a dictionary"])
      /\ AnthropicFormatter.validate tool
        = Ok (false, [py "Tool must be a dictionary"]))
  /\ (forall (d : dict) valid errors,
        tool = JObj d ->
        OpenAIFormatter.validate tool = Ok (valid, errors) ->
        openai_reports d errors)
  /\ (forall (d : dict) valid errors,
        tool = JObj d ->
        AnthropicFormatter.validate tool = Ok (valid, errors) ->
        anthropic_reports d errors).
Proof.
  assert (Hnd : isinstance_dict tool = false ->
            OpenAIFormatter.validate tool
              = Ok (false, [py "Tool must be a dictionary"])
            /\ AnthropicFormatter.validate tool
              = Ok (false, [py "Tool must be a dictionary"])).
  { destruct tool; cbn; intros; try discriminate; split; reflexivity. }
  split; [|split; [|split; [exact Hnd|split]]].
  - destruct tool as [| | | | | |d]; try (destruct Hnd as [-> _];
      [reflexivity|]; do 2 eexists; split; [reflexivity|]; split; discriminate).
    destruct (openai_validate_reports d) as (errors & -> & _).
    exists (fst (OpenAIFormatter.verdict errors)), errors.
    split; [reflexivity|apply verdict_flag].
  - destruct tool as [| | | | | |d]; try (destruct Hnd as [_ ->];
      [reflexivity|]; do 2 eexists; split; [reflexivity|]; split; discriminate).
    destruct (anthropic_validate_reports d) as (errors & -> & _).
    exists (fst (OpenAIFormatter.verdict errors)), errors.
    split; [reflexivity|apply verdict_flag].
  - intros d valid errors -> Hv.
    destruct (openai_validate_reports d) as (errors' & E & Hr).
    rewrite E in Hv. injection Hv as _ <-. exact Hr.
  - intros d valid errors -> Hv.
    destruct (anthropic_validate_reports d) as (errors' & E & Hr).
    rewrite E in Hv. injection Hv as _ <-. exact Hr.
Qed.

Lemma validators_report_all_defects_witness :
  OpenAIFormatter.validate (JObj empty_name_tool)
    = Ok (false, [py "Function 'name' cannot be empty"])
  /\ openai_reports empty_name_tool [py "Function 'name' cannot be empty"]
  /\ AnthropicFormatter.validate (JObj array_input_tool)
    = Ok (false, [py "Tool input_schema 'type' must be 'object'"])
  /\ anthropic_reports array_input_tool
       [py "Tool input_schema 'type' must be 'object'"].
Proof.
  assert (Eo : OpenAIFormatter.validate (JObj empty_name_tool)
               = Ok (false, [py "Function 'name' cannot be empty"]))
    by (vm_compute; reflexivity).
  assert (Ea : AnthropicFormatter.validate (JObj array_input_tool)
               = Ok (false, [py "Tool input_schema 'type' must be 'object'"]))
    by (vm_compute; reflexivity).
  split; [exact Eo|]. split.
  - destruct (validators_report_all_defects (JObj empty_name_tool))
      as (_ & _ & _ & Hopenai & _).
    exact (Hopenai _ _ _ eq_refl Eo).
  - split; [exact Ea|].
    destruct (validators_report_all_defects (JObj array_input_tool))
      as (_ & _ & _ & _ & Hanthropic).
    exact (Hanthropic _ _ _ eq_refl Ea).
Defined.

(** ** Format, then validate *)

(** C2, as stated, fails: the metadata that the extractor returns for
    [{"name": "f"}] is canonical and has a non-empty name, and neither
    validator accepts its formatted form. *)
Lemma format_validate_counterexample :
  _extract_tool_metadata (U := python_latin1) {| schema := bare_schema |}
    = Ok bare_metadata
  /\ canonical_metadata bare_metadata (py "f") {[ py "type" := JStr (py "object") ]}
  /\ py "f" <> []
  /\ (tool ← OpenAIFormatter.format bare_metadata; OpenAIFormatter.validate tool)
     = Ok (false, [py "Function parameters must have 'properties'"])
  /\ (tool ← AnthropicFormatter.format bare_metadata;
      AnthropicFormatter.validate tool)
     = Ok (false, [py "Tool input_schema must have 'properties'"]).
Proof.
  split; [vm_compute; reflexivity|].
  split; [repeat split; eauto|].
  split; [discriminate|].
  split; vm_compute; reflexivity.
Qed.

(** C2, amended. For canonical metadata with a non-empty name, the
    formatted tool definition is valid exactly when the parameters have a
    [properties] key; without one, each validator reports that one defect. *)
Theorem format_validate_roundtrip (meta : dict) (name : pystr) (parameters : dict) :
  canonical_metadata meta name parameters -> name <> [] ->
  (tool ← OpenAIFormatter.format meta; OpenAIFormatter.validate tool)
    = Ok (if dict_contains parameters (py "properties")
          then (true, [])
          else (false, [py "Function parameters must have 'properties'"]))
  /\ (tool ← AnthropicFormatter.format meta; AnthropicFormatter.validate tool)
    = Ok (if dict_contains parameters (py "properties")
          then (true, [])
          else (false, [py "Tool input_schema must have 'properties'"])).
Proof.
  intros (Hn & (description & Hd) & Hp & Hty) Hne.
  destruct name as [|c name]; [congruence|].
  apply eq_str_true in Hty.
  split.
  - unfold OpenAIFormatter.format, dict_getitem. rewrite Hn, Hd, Hp.
    cbn [mbind outcome_mbind outcome_bind].
    rewrite openai_validate_eq.
    unfold name_defects, description_defects, schema_defects, dict_get.
    lookup_literal.
    change (eq_str (default JNull (Some (JStr (py "function")))) (py "function"))
      with true.
    fold (dict_get parameters (py "type") JNull). rewrite Hty.
    now destruct (dict_contains parameters (py "properties")).
  - unfold AnthropicFormatter.format, dict_getitem. rewrite Hn, Hd, Hp.
    cbn [mbind outcome_mbind outcome_bind].
    rewrite anthropic_validate_eq.
    unfold name_defects, description_defects, schema_defects.
    lookup_literal. rewrite Hty.
    now destruct (dict_contains parameters (py "properties")).
Qed.

Lemma format_validate_roundtrip_witness :
  (tool ← OpenAIFormatter.format bare_metadata; OpenAIFormatter.validate tool)
    = Ok (if dict_contains ({[ py "type" := JStr (py "object") ]} : dict)
               (py "properties")
          then (true, [])
          else (false, [py "Function parameters must have 'properties'"]))
  /\ (tool ← AnthropicFormatter.format bare_metadata;
      AnthropicFormatter.validate tool)
    = Ok (if dict_contains ({[ py "type" := JStr (py "object") ]} : dict)
               (py "properties")
          then (true, [])
          else (false, [py "Tool input_schema must have 'properties'"])).
Proof.
  apply (format_validate_roundtrip bare_metadata (py "f")).
  - repeat split; eauto.
  - discriminate.
Defined.

(** ** Reconstructing a schema from a tool definition *)

Lemma dict_get_Some (d : dict) k v dflt : d !! k = Some v -> dict_get d k dflt = v.
Proof. intros H. unfold dict_get. now rewrite H. Qed.

(** C10. [extract_schema] sets [name] and [description] first and merges
    the parameters in afterwards, so every key of the parameters mapping,
    [name] and [description] included, ends up with the parameters' value;
    the tool's own name and description survive only where the parameters
    have no such key. *)
Theorem extract_schema_parameters_win :
  (forall tool func params : dict,
   tool !! py "function" = Some (JObj func) ->
   func !! py "parameters" = Some (JObj params) ->
   exists schema : dict,
     OpenAIFormatter.extract_schema (JObj tool) = Ok schema
     /\ (forall k v, params !! k = Some v -> schema !! k = Some v)
     /\ (forall v, params !! py "name" = Some v -> schema !! py "name" = Some v)
     /\ (forall v, params !! py "description" = Some v ->
           schema !! py "description" = Some v)
     /\ (params !! py "name" = None ->
         schema !! py "name" = Some (dict_get func (py "name") (JStr [])))
     /\ (params !! py "description" = None ->
         schema !! py "description"
           = Some (dict_get func (py "description") (JStr []))))
  /\ (forall tool params : dict,
      tool !! py "input_schema" = Some (JObj params) ->
      exists schema : dict,
        AnthropicFormatter.extract_schema (JObj tool) = Ok schema
        /\ (forall k v, params !! k = Some v -> schema !! k = Some v)
        /\ (forall v, params !! py "name" = Some v -> schema !! py "name" = Some v)
        /\ (forall v, params !! py "description" = Some v ->
              schema !! py "description" = Some v)
        /\ (params !! py "name" = None ->
            schema !! py "name" = Some (dict_get tool (py "name") (JStr [])))
        /\ (params !! py "description" = None ->
            schema !! py "description"
              = Some (dict_get tool (py "description") (JStr [])))).
Proof.
  split.
  - intros tool func params Hf Hp. unfold OpenAIFormatter.extract_schema.
    cbn [OpenAIFormatter.attr_get mbind outcome_mbind outcome_bind].
    rewrite (dict_get_Some _ _ _ _ Hf).
    cbn [OpenAIFormatter.attr_get outcome_bind].
    rewrite (dict_get_Some _ _ _ _ Hp). cbn [dict_update].
    eexists. split; [reflexivity|].
    repeat split.
    + intros k v Hk. now apply lookup_union_Some_l.
    + intros v Hk. now apply lookup_union_Some_l.
    + intros v Hk. now apply lookup_union_Some_l.
    + intros Hk. rewrite lookup_union_r by assumption. now lookup_literal.
    + intros Hk. rewrite lookup_union_r by assumption. now lookup_literal.
  - intros tool params Hp. unfold AnthropicFormatter.extract_schema.
    cbn [OpenAIFormatter.attr_get mbind outcome_mbind outcome_bind].
    rewrite (dict_get_Some _ _ _ _ Hp). cbn [dict_update].
    eexists. split; [reflexivity|].
    repeat split.
    + intros k v Hk. now apply lookup_union_Some_l.
    + intros v Hk. now apply lookup_union_Some_l.
    + intros v Hk. now apply lookup_union_Some_l.
    + intros Hk. rewrite lookup_union_r by assumption. now lookup_literal.
    + intros Hk. rewrite lookup_union_r by assumption. now lookup_literal.
Qed.

Lemma extract_schema_parameters_win_witness :
  (exists schema : dict,
     OpenAIFormatter.extract_schema (JObj shadowing_openai_tool) = Ok schema
     /\ schema !! py "name" = Some (JStr (py "inner")))
  /\ (exists schema : dict,
        AnthropicFormatter.extract_schema (JObj shadowing_anthropic_tool) = Ok schema
        /\ schema !! py "name" = Some (JStr (py "inner"))).
Proof.
  destruct extract_schema_parameters_win as [Hopenai Hanthropic]. split.
  - destruct (Hopenai shadowing_openai_tool
                {[ py "name" := JStr (py "outer");
                   py "parameters" := JObj shadowing_parameters ]}
                shadowing_parameters eq_refl eq_refl)
      as (schema & E & _ & Hname & _).
    exists schema. split; [exact E|]. now apply Hname.
  - destruct (Hanthropic shadowing_anthropic_tool shadowing_parameters eq_refl)
      as (schema & E & _ & Hname & _).
    exists schema. split; [exact E|]. now apply Hname.
Defined.

(** ** No side effects on the input *)

Section Frame.
Import Heap.
Context {U : Unicode}.
Variable F : heap.

Lemma triple_bind {A B} P (m : M A) (f : A -> M B) Q Q' R :
  triple P m Q R -> (forall a, triple (Q a) (f a) Q' R) ->
  triple P (m ≫= f) Q' R.
Proof.
  intros Hm Hf h HP. unfold mbind, M_mbind, bind.
  specialize (Hm h HP). destruct (m h) as [[a| |] h']; auto.
  now apply Hf.
Qed.

Lemma triple_ret {A} (P : heap -> Prop) (a : A) (Q : A -> heap -> Prop) R :
  (forall h, P h -> Q a h) -> triple P (mret a) Q R.
Proof. intros H h HP. now apply H. Qed.

Lemma triple_raise {A} (P : heap -> Prop) e (Q : A -> heap -> Prop) (R : heap -> Prop) :
  (forall h, P h -> R h) -> triple P (raise e) Q R.
Proof. intros H h HP. now apply H. Qed.

Lemma triple_pure {A} (phi : Prop) P (m : M A) Q R :
  (phi -> triple P m Q R) -> triple (fun h => phi /\ P h) m Q R.
Proof. intros H h [Hphi HP]. now apply H. Qed.

(** Reading leaves the store as it is. *)
Lemma read_dict_keeps v :
  triple (keeps F) (read_dict v) (fun _ => keeps F) (keeps F).
Proof.
  intros h HF. unfold read_dict.
  destruct v; try assumption. destruct (h !! l) as [[]|]; assumption.
Qed.

Lemma dict_get_keeps v k dflt :
  triple (keeps F) (dict_get v k dflt) (fun _ => keeps F) (keeps F).
Proof.
  eapply triple_bind; [apply read_dict_keeps|].
  intros d. now apply triple_ret.
Qed.

Lemma dict_contains_keeps v k :
  triple (keeps F) (dict_contains v k) (fun _ => keeps F) (keeps F).
Proof.
  eapply triple_bind; [apply read_dict_keeps|].
  intros d. now apply triple_ret.
Qed.

Lemma dict_getitem_keeps v k :
  triple (keeps F) (dict_getitem v k) (fun _ => keeps F) (keeps F).
Proof.
  eapply triple_bind; [apply read_dict_keeps|].
  intros d. destruct (d !! k); [now apply triple_ret|now apply triple_raise].
Qed.

(** A new object is none of those that were there. *)
Lemma alloc_keeps o :
  triple (keeps F) (alloc o) (fun v h => fresh_for F v /\ keeps F h) (keeps F).
Proof.
  intros h HF. unfold alloc. cbn.
  assert (Hl : F !! fresh (dom h) = None).
  { destruct (F !! fresh (dom h)) as [o'|] eqn:E; [|reflexivity].
    apply HF in E. exfalso. apply (is_fresh (dom h)).
    apply elem_of_dom. eauto. }
  split; [eexists; eauto|].
  intros l o' Hlo. rewrite lookup_insert_ne; [now apply HF|congruence].
Qed.

Lemma new_dict_keeps d :
  triple (keeps F) (new_dict d) (fun v h => fresh_for F v /\ keeps F h) (keeps F).
Proof. apply alloc_keeps. Qed.

Lemma dict_copy_keeps v :
  triple (keeps F) (dict_copy v) (fun v h => fresh_for F v /\ keeps F h) (keeps F).
Proof.
  eapply triple_bind; [apply read_dict_keeps|].
  intros d. apply alloc_keeps.
Qed.

(** Writing to an object that was not there changes none that were. *)
Lemma write_dict_keeps v d :
  fresh_for F v ->
  triple (keeps F) (write_dict v d) (fun _ => keeps F) (keeps F).
Proof.
  intros (l & -> & Hl) h HF. cbn.
  intros l' o Hlo. rewrite lookup_insert_ne; [now apply HF|congruence].
Qed.

Lemma dict_pop_keeps v k :
  fresh_for F v ->
  triple (keeps F) (dict_pop v k) (fun _ => keeps F) (keeps F).
Proof.
  intros Hv. eapply triple_bind; [apply read_dict_keeps|].
  intros d. now apply write_dict_keeps.
Qed.

Lemma dict_setitem_keeps v k x :
  fresh_for F v ->
  triple (keeps F) (dict_setitem v k x) (fun _ => keeps F) (keeps F).
Proof.
  intros Hv. eapply triple_bind; [apply read_dict_keeps|].
  intros d. now apply write_dict_keeps.
Qed.

Lemma normalize_name_keeps name :
  triple (keeps F) (_normalize_name name) (fun _ => keeps F) (keeps F).
Proof. destruct name; first [now apply triple_ret|now apply triple_raise]. Qed.

(** One step of a computation that only reads. *)
Ltac read_step x :=
  eapply triple_bind;
  [ first [ apply dict_get_keeps | apply dict_contains_keeps
          | apply dict_getitem_keeps | apply normalize_name_keeps ]
  | intros x ].

(** One step that allocates; the fact that the object is new goes to the
    context. *)
Ltac alloc_step x H :=
  eapply triple_bind;
  [ first [ apply new_dict_keeps | apply dict_copy_keeps ]
  | intros x; apply triple_pure; intros H ].

Ltac write_step H :=
  eapply triple_bind;
  [ first [ apply dict_pop_keeps | apply dict_setitem_keeps ]; exact H
  | intros ? ].

Lemma extract_keeps self :
  triple (keeps F) (_extract_tool_metadata self) (fun _ => keeps F) (keeps F).
Proof.
  unfold _extract_tool_metadata.
  read_step title. read_step name. read_step description.
  read_step has_properties.
  eapply triple_bind with (Q := fun _ => keeps F).
  - destruct has_properties.
    + alloc_step empty_dict He. read_step properties.
      alloc_step parameters Hp. read_step has_required.
      eapply triple_bind with (Q := fun _ => keeps F).
      { destruct has_required;
          [read_step required; now apply dict_setitem_keeps
          |now apply triple_ret]. }
      intros _. read_step additional.
      eapply triple_bind with (Q := fun _ => keeps F).
      { destruct (negb (is_None additional));
          [read_step additional'; now apply dict_setitem_keeps
          |now apply triple_ret]. }
      intros _. now apply triple_ret.
    + read_step has_parameters.
      destruct has_parameters; [apply dict_getitem_keeps|].
      alloc_step parameters Hp. do 3 write_step Hp. read_step has_type.
      eapply triple_bind with (Q := fun _ => keeps F).
      { destruct (negb has_type);
          [now apply dict_setitem_keeps|now apply triple_ret]. }
      intros _. now apply triple_ret.
  - intros parameters. read_step name'.
    intros h HF. now apply (new_dict_keeps _ h HF).
Qed.

Lemma openai_format_keeps metadata :
  triple (keeps F) (openai_format metadata) (fun _ => keeps F) (keeps F).
Proof.
  unfold openai_format.
  read_step name. read_step description. read_step parameters.
  alloc_step function Hf.
  intros h HF. now apply (new_dict_keeps _ h HF).
Qed.

Lemma anthropic_format_keeps metadata :
  triple (keeps F) (anthropic_format metadata) (fun _ => keeps F) (keeps F).
Proof.
  unfold anthropic_format.
  read_step name. read_step description. read_step parameters.
  intros h HF. now apply (new_dict_keeps _ h HF).
Qed.

Lemma convert_keeps self format :
  triple (keeps F) (convert self format) (fun _ => keeps F) (keeps F).
Proof.
  unfold convert.
  destruct (negb _); [now apply triple_raise|].
  eapply triple_bind; [apply extract_keeps|]. intros metadata.
  destruct (bool_decide (format = py "openai")); [apply openai_format_keeps|].
  destruct (bool_decide (format = py "anthropic"));
    [apply anthropic_format_keeps|now apply triple_raise].
Qed.

End Frame.

Lemma triple_run {A} (m : Heap.M A) (h : Heap.heap) :
  Heap.triple (Heap.keeps h) m (fun _ => Heap.keeps h) (Heap.keeps h) ->
  Heap.keeps h (m h).2.
Proof.
  intros H. specialize (H h (fun l o E => E)).
  destruct (m h) as [[a| |] h']; exact H.
Qed.

(** C9. Extraction and conversion change no object of the store they start
    from: whatever the schema, the format and the outcome (a result or a
    raised exception), every object that was in the store, the input
    document and all it refers to included, is there unchanged afterwards.
    On path 3 the keys are popped from the copy, a new object. *)
Theorem conversion_leaves_input_unchanged
    (U : Unicode) (self : Heap.t) (format : pystr) (h : Heap.heap) :
  (forall l o,
     h !! l = Some o ->
     (Heap._extract_tool_metadata self h).2 !! l = Some o)
  /\ (forall l o,
        h !! l = Some o -> (Heap.convert self format h).2 !! l = Some o).
Proof.
  split.
  - apply (triple_run (Heap._extract_tool_metadata self)), extract_keeps.
  - apply (triple_run (Heap.convert self format)), convert_keeps.
Qed.

Lemma conversion_leaves_input_unchanged_witness :
  (Heap._extract_tool_metadata (U := python_latin1) tagged_self tagged_store).2
    !! 1%positive = Some tagged_schema
  /\ (Heap.convert (U := python_latin1) tagged_self (py "openai") tagged_store).2
       !! 1%positive = Some tagged_schema.
Proof.
  destruct (conversion_leaves_input_unchanged
              python_latin1 tagged_self (py "openai") tagged_store) as [He Hc].
  split; [apply He|apply Hc]; reflexivity.
Defined.

(** On that store the extractor takes path 3: it returns a new metadata
    object whose parameters are a new dictionary, the copy without [name]
    and with [type] added, next to the schema, which still has its
    [name]. *)
Example extract_tagged_store :
  Heap._extract_tool_metadata (U := python_latin1) tagged_self tagged_store =
    (Ok (Heap.VRef 3),
     {[ 1%positive := tagged_schema;
        2%positive :=
          Heap.ODict {[ py "x" := Heap.VInt 1;
                        py "type" := Heap.VStr (py "object") ]};
        3%positive :=
          Heap.ODict {[ py "name" := Heap.VStr (py "f");
                        py "description" := Heap.VStr [];
                        py "parameters" := Heap.VRef 2 ]} ]}).
Proof. vm_compute. reflexivity. Qed.

(** ** The store model computes what the value model computes *)

Fixpoint represents_weaken (h h' : Heap.heap) (Hk : Heap.keeps h h')
    v j (H : represents h v j) {struct H} : represents h' v j.
Proof.
  destruct H as [| | | | |l vs js Hl Hvs|l d m Hl Hd].
  - constructor.
  - constructor.
  - constructor.
  - constructor.
  - constructor.
  - apply (represents_list h' l vs js); [now apply Hk|].
    clear Hl. revert vs js Hvs. fix go 3. intros vs js [|x y xs ys Hxy Hxs].
    + constructor.
    + constructor; [exact (represents_weaken h h' Hk x y Hxy)|exact (go xs ys Hxs)].
  - apply (represents_dict h' l d m); [now apply Hk|].
    intros k. destruct (Hd k) as [x y Hxy|].
    + constructor. exact (represents_weaken h h' Hk x y Hxy).
    + constructor.
Qed.

Section Simulation.
Import Heap.
Context {U : Unicode}.

Lemma run_bind {A B} (m : M A) (f : A -> M B) h a h' :
  m h = (Ok a, h') -> (m ≫= f) h = f a h'.
Proof. intros E. unfold mbind, M_mbind, bind. now rewrite E. Qed.

Lemma run_bind_raise {A B} (m : M A) (f : A -> M B) h e h' :
  m h = (Raise e, h') -> (m ≫= f) h = (Raise e, h').
Proof. intros E. unfold mbind, M_mbind, bind. now rewrite E. Qed.

Lemma run_read_dict l d h :
  h !! l = Some (ODict d) -> read_dict (VRef l) h = (Ok d, h).
Proof. intros E. unfold read_dict. now rewrite E. Qed.

Lemma run_dict_get l d k dflt h :
  h !! l = Some (ODict d) ->
  dict_get (VRef l) k dflt h = (Ok (default dflt (d !! k)), h).
Proof.
  intros E. unfold dict_get. now rewrite (run_bind _ _ _ _ _ (run_read_dict _ _ _ E)).
Qed.

Lemma run_dict_contains l d k h :
  h !! l = Some (ODict d) ->
  dict_contains (VRef l) k h = (Ok (bool_decide (is_Some (d !! k))), h).
Proof.
  intros E. unfold dict_contains.
  now rewrite (run_bind _ _ _ _ _ (run_read_dict _ _ _ E)).
Qed.

Lemma run_dict_getitem l d k x h :
  h !! l = Some (ODict d) -> d !! k = Some x ->
  dict_getitem (VRef l) k h = (Ok x, h).
Proof.
  intros E Ek. unfold dict_getitem.
  rewrite (run_bind _ _ _ _ _ (run_read_dict _ _ _ E)). now rewrite Ek.
Qed.

Lemma run_dict_getitem_missing l d k h :
  h !! l = Some (ODict d) -> d !! k = None ->
  dict_getitem (VRef l) k h = (Raise (KeyError k), h).
Proof.
  intros E Ek. unfold dict_getitem.
  rewrite (run_bind _ _ _ _ _ (run_read_dict _ _ _ E)). now rewrite Ek.
Qed.

Lemma run_dict_copy l d h :
  h !! l = Some (ODict d) ->
  dict_copy (VRef l) h
  = (Ok (VRef (fresh (dom h))), <[fresh (dom h) := ODict d]> h).
Proof.
  intros E. unfold dict_copy.
  now rewrite (run_bind _ _ _ _ _ (run_read_dict _ _ _ E)).
Qed.

Lemma run_dict_pop l d k h :
  h !! l = Some (ODict d) ->
  dict_pop (VRef l) k h = (Ok tt, <[l := ODict (delete k d)]> h).
Proof.
  intros E. unfold dict_pop.
  now rewrite (run_bind _ _ _ _ _ (run_read_dict _ _ _ E)).
Qed.

Lemma run_dict_setitem l d k x h :
  h !! l = Some (ODict d) ->
  dict_setitem (VRef l) k x h = (Ok tt, <[l := ODict (<[k := x]> d)]> h).
Proof.
  intros E. unfold dict_setitem.
  now rewrite (run_bind _ _ _ _ _ (run_read_dict _ _ _ E)).
Qed.

Lemma run_new_dict d h :
  new_dict d h = (Ok (VRef (fresh (dom h))), <[fresh (dom h) := ODict d]> h).
Proof. reflexivity. Qed.

Lemma fresh_lookup (h : heap) : h !! fresh (dom h) = None.
Proof. apply not_elem_of_dom, is_fresh. Qed.

Lemma fresh_ne (h : heap) l o : h !! l = Some o -> l <> fresh (dom h).
Proof. intros E ->. rewrite fresh_lookup in E. discriminate. Qed.

Ltac solve_lookup :=
  first
    [ eassumption
    | apply lookup_insert_eq
    | rewrite lookup_insert_ne by (first [assumption | apply not_eq_sym; assumption]);
      solve_lookup ].

Ltac run_prim :=
  first
    [ eapply run_dict_get; solve_lookup
    | eapply run_dict_contains; solve_lookup
    | eapply run_dict_getitem; [solve_lookup|eassumption]
    | eapply run_dict_copy; solve_lookup
    | eapply run_dict_pop; solve_lookup
    | eapply run_dict_setitem; solve_lookup
    | apply run_new_dict ].

Ltac run := erewrite run_bind; [cbv beta|run_prim].

(** The last two steps: the name, then the metadata dictionary. *)
Lemma run_extract_end name description parameters h :
  (name ← _normalize_name name;
   new_dict {[ py "name" := VStr name;
               py "description" := description;
               py "parameters" := parameters ]}) h
  = match name with
    | VStr s =>
        (Ok (VRef (fresh (dom h))),
         <[fresh (dom h) :=
             ODict {[ py "name" := VStr (SchemaConverter.normalize_str s);
                      py "description" := description;
                      py "parameters" := parameters ]}]> h)
    | _ => (Raise AttributeError, h)
    end.
Proof. destruct name; reflexivity. Qed.

(** Path 3 on the store. *)
Lemma heap_extract_whole l d h :
  h !! l = Some (ODict d) ->
  d !! py "properties" = None -> d !! py "parameters" = None ->
  let p := fresh (dom h) in
  let q := delete (py "description") (delete (py "title") (delete (py "name") d)) in
  let q' := if bool_decide (is_Some (q !! py "type")) then q
            else <[py "type" := VStr (py "object")]> q in
  let h1 := <[p := ODict q']> h in
  _extract_tool_metadata {| schema := VRef l |} h
  = match default (default (VStr (py "unnamed_tool")) (d !! py "title"))
            (d !! py "name") with
    | VStr s =>
        (Ok (VRef (fresh (dom h1))),
         <[fresh (dom h1) :=
             ODict {[ py "name" := VStr (SchemaConverter.normalize_str s);
                      py "description" := default (VStr []) (d !! py "description");
                      py "parameters" := VRef p ]}]> h1)
    | _ => (Raise AttributeError, h1)
    end.
Proof.
  intros Hl Hprops Hparams p q q' h1.
  unfold _extract_tool_metadata. cbn [schema].
  run. run. run. run. rewrite Hprops.
  change (bool_decide (is_Some None)) with false. cbv iota.
  rewrite (run_bind _ _ _ (VRef p) h1); [apply run_extract_end|].
  run. rewrite Hparams.
  change (bool_decide (is_Some None)) with false. cbv iota.
  run. run. run. run. rewrite !insert_insert_eq. run.
  subst h1 q'. fold q. fold p.
  destruct (bool_decide (is_Some (q !! py "type"))); cbn [negb].
  - reflexivity.
  - erewrite run_bind; [|run_prim]. cbv beta.
    now rewrite insert_insert_eq.
Qed.

(** Path 2 on the store: the metadata refers to the caller's own
    [parameters] object. *)
Lemma heap_extract_nested l d v h :
  h !! l = Some (ODict d) ->
  d !! py "properties" = None -> d !! py "parameters" = Some v ->
  _extract_tool_metadata {| schema := VRef l |} h
  = match default (default (VStr (py "unnamed_tool")) (d !! py "title"))
            (d !! py "name") with
    | VStr s =>
        (Ok (VRef (fresh (dom h))),
         <[fresh (dom h) :=
             ODict {[ py "name" := VStr (SchemaConverter.normalize_str s);
                      py "description" := default (VStr []) (d !! py "description");
                      py "parameters" := v ]}]> h)
    | _ => (Raise AttributeError, h)
    end.
Proof.
  intros Hl Hprops Hparams.
  unfold _extract_tool_metadata. cbn [schema].
  run. run. run. run. rewrite Hprops.
  change (bool_decide (is_Some None)) with false. cbv iota.
  rewrite (run_bind _ _ _ v h); [apply run_extract_end|].
  run. rewrite Hparams.
  change (bool_decide (is_Some (Some v))) with true. cbv iota.
  run_prim.
Qed.

(** Path 1 on the store.  The default of [get("properties", {})] is built
    even though it is not used. *)
Lemma heap_extract_properties l d props h :
  h !! l = Some (ODict d) ->
  d !! py "properties" = Some props ->
  let e := fresh (dom h) in
  let h1 := <[e := ODict ∅]> h in
  let p := fresh (dom h1) in
  let q0 : gmap pystr val :=
    {[ py "type" := VStr (py "object"); py "properties" := props ]} in
  let q1 :=
    match d !! py "required" with
    | Some required => <[py "required" := required]> q0
    | None => q0
    end in
  let q2 :=
    match d !! py "additionalProperties" with
    | Some additional =>
        if is_None additional then q1
        else <[py "additionalProperties" := additional]> q1
    | None => q1
    end in
  let h2 := <[p := ODict q2]> h1 in
  _extract_tool_metadata {| schema := VRef l |} h
  = match default (default (VStr (py "unnamed_tool")) (d !! py "title"))
            (d !! py "name") with
    | VStr s =>
        (Ok (VRef (fresh (dom h2))),
         <[fresh (dom h2) :=
             ODict {[ py "name" := VStr (SchemaConverter.normalize_str s);
                      py "description" := default (VStr []) (d !! py "description");
                      py "parameters" := VRef p ]}]> h2)
    | _ => (Raise AttributeError, h2)
    end.
Proof.
  intros Hl Hprops e h1 p q0 q1 q2 h2.
  assert (Hle : l <> e) by (eapply fresh_ne; eassumption).
  assert (Hl1 : h1 !! l = Some (ODict d))
    by (subst h1; now rewrite lookup_insert_ne by auto).
  assert (Hlp : l <> p) by (eapply fresh_ne; eassumption).
  unfold _extract_tool_metadata. cbn [schema].
  run. run. run. run. rewrite Hprops.
  change (bool_decide (is_Some (Some props))) with true. cbv iota.
  rewrite (run_bind _ _ _ (VRef p) h2); [apply run_extract_end|].
  run. fold e. fold h1. run. rewrite Hprops. cbn [default].
  run. fold p. fold q0. run.
  set (h1' := <[p := ODict q0]> h1).
  assert (Hl1' : h1' !! l = Some (ODict d))
    by (subst h1'; now rewrite lookup_insert_ne by auto).
  assert (Hp1' : h1' !! p = Some (ODict q0)) by apply lookup_insert_eq.
  set (h2' := <[p := ODict q1]> h1).
  assert (Hl2' : h2' !! l = Some (ODict d))
    by (subst h2'; now rewrite lookup_insert_ne by auto).
  assert (Hp2' : h2' !! p = Some (ODict q1)) by apply lookup_insert_eq.
  rewrite (run_bind _ _ _ tt h2').
  - run. subst q2 h2.
    destruct (d !! py "additionalProperties") as [additional|] eqn:Ea;
      cbn [default from_option id is_None negb].
    + destruct (is_None additional) eqn:En; cbn [negb].
      * reflexivity.
      * rewrite (run_bind _ _ h2' tt
                   (<[p := ODict (<[py "additionalProperties" := additional]> q1)]> h2')).
        -- subst h2'. now rewrite insert_insert_eq.
        -- erewrite run_bind by (eapply run_dict_getitem; eassumption).
           cbv beta. eapply run_dict_setitem; eassumption.
    + reflexivity.
  - subst h2' q1.
    destruct (d !! py "required") as [required|] eqn:Er.
    + change (bool_decide (is_Some (Some required))) with true. cbv iota.
      run. erewrite run_dict_setitem by solve_lookup.
      subst h1'. now rewrite insert_insert_eq.
    + change (bool_decide (is_Some None)) with false. cbv iota.
      reflexivity.
Qed.

End Simulation.

Section Represents.
Import Heap.

Lemma entries_represent_weaken h h' d m :
  keeps h h' -> entries_represent h d m -> entries_represent h' d m.
Proof.
  intros Hk Hd k. destruct (Hd k); constructor.
  eapply represents_weaken; eassumption.
Qed.

Lemma entries_represent_empty h : entries_represent h ∅ ∅.
Proof. intros k. rewrite !lookup_empty. constructor. Qed.

Lemma entries_represent_insert h d m k v j :
  represents h v j -> entries_represent h d m ->
  entries_represent h (<[k := v]> d) (<[k := j]> m).
Proof.
  intros Hv Hd k'. destruct (decide (k = k')) as [->|Hne].
  - rewrite !lookup_insert_eq. now constructor.
  - rewrite !lookup_insert_ne by assumption. apply Hd.
Qed.

Lemma entries_represent_delete h d m k :
  entries_represent h d m -> entries_represent h (delete k d) (delete k m).
Proof.
  intros Hd k'. destruct (decide (k = k')) as [->|Hne].
  - rewrite !lookup_delete_eq. constructor.
  - rewrite !lookup_delete_ne by assumption. apply Hd.
Qed.

Lemma entries_represent_None h d m k :
  entries_represent h d m -> (d !! k = None <-> m !! k = None).
Proof. intros Hd. destruct (Hd k); split; congruence. Qed.

Lemma entries_represent_Some h d m k v :
  entries_represent h d m -> d !! k = Some v ->
  exists j, m !! k = Some j /\ represents h v j.
Proof.
  intros Hd E. specialize (Hd k). rewrite E in Hd. inversion Hd; eauto.
Qed.

Lemma entries_represent_is_Some h d m k :
  entries_represent h d m ->
  bool_decide (is_Some (d !! k)) = bool_decide (is_Some (m !! k)).
Proof.
  intros Hd. apply bool_decide_ext. destruct (Hd k); split; eauto.
  all: intros [x Hx]; discriminate.
Qed.

Lemma entries_represent_default h d m k v j :
  entries_represent h d m -> represents h v j ->
  represents h (default v (d !! k)) (default j (m !! k)).
Proof. intros Hd Hv. destruct (Hd k); assumption. Qed.

Lemma represents_str_inv h v s : represents h v (JStr s) -> v = VStr s.
Proof. inversion 1; reflexivity. Qed.

Lemma represents_not_str h v j :
  represents h v j -> isinstance_str j = false ->
  match v with VStr _ => False | _ => True end.
Proof. destruct 1; cbn; auto; discriminate. Qed.

Lemma keeps_insert_fresh (h : heap) o : keeps h (<[fresh (dom h) := o]> h).
Proof.
  intros l o' E. rewrite lookup_insert_ne; [assumption|].
  apply not_eq_sym. eapply fresh_ne. eassumption.
Qed.

Lemma keeps_trans (h1 h2 h3 : heap) : keeps h1 h2 -> keeps h2 h3 -> keeps h1 h3.
Proof. intros H12 H23 l o E. auto. Qed.

End Represents.

Section ExtractSimulation.
Context {U : Unicode}.

Lemma represents_is_None h v j :
  represents h v j -> Heap.is_None v = is_None j.
Proof. destruct 1; reflexivity. Qed.

(** The metadata dictionary, once its three values are represented. *)
Lemma represents_metadata (h : Heap.heap) r s dv dj pv pj :
  h !! r = Some (Heap.ODict {[ py "name" := Heap.VStr s;
                               py "description" := dv;
                               py "parameters" := pv ]}) ->
  represents h dv dj -> represents h pv pj ->
  represents h (Heap.VRef r)
    (JObj {[ py "name" := JStr s; py "description" := dj; py "parameters" := pj ]}).
Proof.
  intros Hr Hd Hp. eapply represents_dict; [exact Hr|].
  rewrite <- !insert_empty.
  repeat apply entries_represent_insert;
    first [assumption | constructor | apply entries_represent_empty].
Qed.

(** The end of extraction, on both sides: the name is normalized or the
    call raises, and the metadata dictionary is a new object. *)
Lemma extract_end_simulates (h0 h : Heap.heap) nv nj dv dj pv pj :
  Heap.keeps h0 h ->
  represents h nv nj -> represents h dv dj -> represents h pv pj ->
  match (name ← _normalize_name nj;
         Ok ({[ py "name" := JStr name;
                py "description" := dj;
                py "parameters" := pj ]} : dict)) with
  | Ok meta =>
      exists r h',
        match nv with
        | Heap.VStr s =>
            (Ok (Heap.VRef (fresh (dom h))),
             <[fresh (dom h) :=
                 Heap.ODict {[ py "name" := Heap.VStr (normalize_str s);
                               py "description" := dv;
                               py "parameters" := pv ]}]> h)
        | _ => (Raise AttributeError, h)
        end = (Ok (Heap.VRef r), h')
        /\ represents h' (Heap.VRef r) (JObj meta)
        /\ Heap.keeps h0 h'
  | Raise e =>
      exists h',
        match nv with
        | Heap.VStr s =>
            (Ok (Heap.VRef (fresh (dom h))),
             <[fresh (dom h) :=
                 Heap.ODict {[ py "name" := Heap.VStr (normalize_str s);
                               py "description" := dv;
                               py "parameters" := pv ]}]> h)
        | _ => (Raise AttributeError, h)
        end = (Raise e, h')
        /\ Heap.keeps h0 h'
  | Unmodelled => False
  end.
Proof.
  intros Hk Hn Hd Hp.
  assert (Hk' : forall o, Heap.keeps h (<[fresh (dom h) := o]> h))
    by (intros o; apply keeps_insert_fresh).
  destruct Hn; cbn; try (eexists; split; [reflexivity|assumption]).
  do 2 eexists. split; [reflexivity|]. split.
  - eapply represents_metadata.
    + apply lookup_insert_eq.
    + eapply represents_weaken; [apply Hk'|assumption].
    + eapply represents_weaken; [apply Hk'|assumption].
  - eapply keeps_trans; [exact Hk|apply Hk'].
Qed.

Lemma is_Some_Some_true {A} (x : A) : bool_decide (is_Some (Some x)) = true.
Proof. reflexivity. Qed.

Lemma is_Some_None_false {A} : bool_decide (is_Some (@None A)) = false.
Proof. reflexivity. Qed.

(** Both entries under [k], at once. *)
Ltac split_key Hd d m k v j Hv :=
  let H := fresh in
  pose proof (Hd k) as H;
  destruct (d !! k) as [v|] eqn:?, (m !! k) as [j|] eqn:?;
  inversion H as [? ? Hv|]; subst; clear H.

(** The store model refines the value model: started on a store in which
    [self.schema] stands for the document [m], the extractor of the store
    model returns a reference that stands for the metadata that the value
    model computes, raises when it raises, and keeps every object that was
    there. *)
Lemma store_extraction_simulates (l : Heap.loc) (d : gmap pystr Heap.val) (m : dict)
    (h : Heap.heap) :
  h !! l = Some (Heap.ODict d) -> entries_represent h d m ->
  match _extract_tool_metadata {| schema := m |} with
  | Ok meta =>
      exists r h',
        Heap._extract_tool_metadata {| Heap.schema := Heap.VRef l |} h
          = (Ok (Heap.VRef r), h')
        /\ represents h' (Heap.VRef r) (JObj meta)
        /\ Heap.keeps h h'
  | Raise e =>
      exists h',
        Heap._extract_tool_metadata {| Heap.schema := Heap.VRef l |} h
          = (Raise e, h')
        /\ Heap.keeps h h'
  | Unmodelled => False
  end.
Proof.
  intros Hl Hd. rewrite extract_unfold. cbn [schema].
  assert (Hn : represents h
            (default (default (Heap.VStr (py "unnamed_tool")) (d !! py "title"))
               (d !! py "name"))
            (raw_name m)).
  { unfold raw_name, dict_get.
    repeat apply entries_represent_default; solve [assumption|constructor]. }
  assert (Hdesc : represents h (default (Heap.VStr []) (d !! py "description"))
            (dict_get m (py "description") (JStr []))).
  { unfold dict_get. apply entries_represent_default; solve [assumption|constructor]. }
  unfold build_parameters, dict_contains.
  split_key Hd d m (py "properties") props jprops Hprops.
  - (* path 1 *)
    rewrite (heap_extract_properties l d props h Hl) by assumption. cbv zeta.
    change (bool_decide (is_Some (Some jprops))) with true. cbv iota.
    unfold dict_getitem, dict_setitem, dict_get.
    match goal with E : m !! py "properties" = _ |- _ => rewrite E end.
    cbn [default from_option id].
    set (h1 := <[fresh (dom h) := Heap.ODict ∅]> h).
    assert (Hk1 : Heap.keeps h h1) by apply keeps_insert_fresh.
    assert (Hq0 : entries_represent h
              {[ py "type" := Heap.VStr (py "object"); py "properties" := props ]}
              {[ py "type" := JStr (py "object"); py "properties" := jprops ]}).
    { rewrite <- !insert_empty.
      repeat apply entries_represent_insert;
        first [assumption | constructor | apply entries_represent_empty]. }
    split_key Hd d m (py "required") required jrequired Hrequired;
      split_key Hd d m (py "additionalProperties") additional jadditional
        Hadditional;
      cbn [mbind outcome_mbind outcome_bind default from_option id];
      try rewrite (represents_is_None _ _ _ Hadditional);
      try destruct (is_None jadditional);
      cbn [mbind outcome_mbind outcome_bind negb is_None];
      (apply extract_end_simulates;
       [ eapply keeps_trans; [exact Hk1|apply keeps_insert_fresh]
       | eapply represents_weaken; [|exact Hn];
         eapply keeps_trans; [exact Hk1|apply keeps_insert_fresh]
       | eapply represents_weaken; [|exact Hdesc];
         eapply keeps_trans; [exact Hk1|apply keeps_insert_fresh]
       | eapply represents_dict; [apply lookup_insert_eq|];
         eapply entries_represent_weaken;
         [ eapply keeps_trans; [exact Hk1|apply keeps_insert_fresh] |];
         repeat (apply entries_represent_insert; [assumption|]);
         exact Hq0 ]).
  - change (bool_decide (is_Some (@None json))) with false. cbv iota.
    split_key Hd d m (py "parameters") params jparams Hparams.
    + (* path 2 *)
      rewrite (heap_extract_nested l d params h Hl) by assumption.
      change (bool_decide (is_Some (Some jparams))) with true. cbv iota.
      unfold dict_getitem at 1.
      match goal with E : m !! py "parameters" = _ |- _ => rewrite E end.
      cbn [mbind outcome_mbind outcome_bind].
      apply extract_end_simulates; auto. intros ? ? ?; assumption.
    + (* path 3 *)
      change (bool_decide (is_Some (@None json))) with false. cbv iota.
      rewrite (heap_extract_whole l d h Hl) by assumption. cbv zeta.
      cbn [mbind outcome_mbind outcome_bind].
      unfold dict_pop, dict_setitem.
      set (q := delete _ (delete _ (delete _ d))).
      set (qm := delete _ (delete _ (delete _ m))).
      assert (Hq : entries_represent h q qm)
        by (subst q qm; repeat apply entries_represent_delete; assumption).
      rewrite <- (entries_represent_is_Some h q qm) by assumption.
      apply extract_end_simulates.
      * apply keeps_insert_fresh.
      * eapply represents_weaken; [apply keeps_insert_fresh|exact Hn].
      * eapply represents_weaken; [apply keeps_insert_fresh|exact Hdesc].
      * eapply represents_dict; [apply lookup_insert_eq|].
        eapply entries_represent_weaken; [apply keeps_insert_fresh|].
        destruct (bool_decide _); cbn [negb];
          [assumption|apply entries_represent_insert; [constructor|assumption]].
Qed.

End ExtractSimulation.

Section ConvertSimulation.
Context {U : Unicode}.

(** The two maps agree on which outcome a lookup has. *)
Ltac split_entry Hd d m k v j Hv :=
  let H := fresh in
  pose proof (Hd k) as H;
  destruct (d !! k) as [v|] eqn:?, (m !! k) as [j|] eqn:?;
  inversion H as [? ? Hv|]; subst; clear H.

Lemma openai_format_simulates (h : Heap.heap) (r : Heap.loc)
    (dm : gmap pystr Heap.val) (meta : dict) :
  h !! r = Some (Heap.ODict dm) -> entries_represent h dm meta ->
  match OpenAIFormatter.format meta with
  | Ok tool =>
      exists t h',
        Heap.openai_format (Heap.VRef r) h = (Ok (Heap.VRef t), h')
        /\ represents h' (Heap.VRef t) tool
        /\ Heap.keeps h h'
  | Raise e =>
      exists h', Heap.openai_format (Heap.VRef r) h = (Raise e, h')
                 /\ Heap.keeps h h'
  | Unmodelled => False
  end.
Proof.
  intros Hr Hd.
  assert (Hkeep : Heap.keeps h h) by (intros ? ? E; exact E).
  unfold OpenAIFormatter.format, Heap.openai_format, dict_getitem.
  split_entry Hd dm meta (py "name") name jname Hname;
    [|eexists; split; [|exact Hkeep];
      apply run_bind_raise; now apply (run_dict_getitem_missing r dm)].
  erewrite run_bind by (eapply run_dict_getitem; eassumption).
  cbn [mbind outcome_mbind outcome_bind].
  split_entry Hd dm meta (py "description") description jdescription Hdescription;
    [|eexists; split; [|exact Hkeep];
      apply run_bind_raise; now apply (run_dict_getitem_missing r dm)].
  erewrite run_bind by (eapply run_dict_getitem; eassumption).
  cbn [mbind outcome_mbind outcome_bind].
  split_entry Hd dm meta (py "parameters") parameters jparameters Hparameters;
    [|eexists; split; [|exact Hkeep];
      apply run_bind_raise; now apply (run_dict_getitem_missing r dm)].
  erewrite run_bind by (eapply run_dict_getitem; eassumption).
  cbn [mbind outcome_mbind outcome_bind].
  rewrite (run_bind _ _ _ _ _ (run_new_dict _ _)).
  set (f := fresh (dom h)).
  set (h1 := <[f := _]> h).
  assert (Hk1 : Heap.keeps h h1) by apply keeps_insert_fresh.
  do 2 eexists. split; [apply run_new_dict|]. split.
  - assert (Hk2 : Heap.keeps h1 (<[fresh (dom h1) :=
               Heap.ODict {[ py "type" := Heap.VStr (py "function");
                             py "function" := Heap.VRef f ]}]> h1))
      by apply keeps_insert_fresh.
    eapply represents_dict; [apply lookup_insert_eq|].
    rewrite <- !insert_empty.
    apply entries_represent_insert; [constructor|].
    apply entries_represent_insert; [|apply entries_represent_empty].
    eapply represents_weaken; [exact Hk2|].
    eapply represents_dict; [apply lookup_insert_eq|].
    rewrite <- !insert_empty.
    repeat (apply entries_represent_insert;
            [eapply represents_weaken; [exact Hk1|eassumption]|]).
    apply entries_represent_empty.
  - eapply keeps_trans; [exact Hk1|apply keeps_insert_fresh].
Qed.

Lemma anthropic_format_simulates (h : Heap.heap) (r : Heap.loc)
    (dm : gmap pystr Heap.val) (meta : dict) :
  h !! r = Some (Heap.ODict dm) -> entries_represent h dm meta ->
  match AnthropicFormatter.format meta with
  | Ok tool =>
      exists t h',
        Heap.anthropic_format (Heap.VRef r) h = (Ok (Heap.VRef t), h')
        /\ represents h' (Heap.VRef t) tool
        /\ Heap.keeps h h'
  | Raise e =>
      exists h', Heap.anthropic_format (Heap.VRef r) h = (Raise e, h')
                 /\ Heap.keeps h h'
  | Unmodelled => False
  end.
Proof.
  intros Hr Hd.
  assert (Hkeep : Heap.keeps h h) by (intros ? ? E; exact E).
  unfold AnthropicFormatter.format, Heap.anthropic_format, dict_getitem.
  split_entry Hd dm meta (py "name") name jname Hname;
    [|eexists; split; [|exact Hkeep];
      apply run_bind_raise; now apply (run_dict_getitem_missing r dm)].
  erewrite run_bind by (eapply run_dict_getitem; eassumption).
  cbn [mbind outcome_mbind outcome_bind].
  split_entry Hd dm meta (py "description") description jdescription Hdescription;
    [|eexists; split; [|exact Hkeep];
      apply run_bind_raise; now apply (run_dict_getitem_missing r dm)].
  erewrite run_bind by (eapply run_dict_getitem; eassumption).
  cbn [mbind outcome_mbind outcome_bind].
  split_entry Hd dm meta (py "parameters") parameters jparameters Hparameters;
    [|eexists; split; [|exact Hkeep];
      apply run_bind_raise; now apply (run_dict_getitem_missing r dm)].
  erewrite run_bind by (eapply run_dict_getitem; eassumption).
  cbn [mbind outcome_mbind outcome_bind].
  assert (Hk1 : forall o, Heap.keeps h (<[fresh (dom h) := o]> h))
    by (intros o; apply keeps_insert_fresh).
  do 2 eexists. split; [apply run_new_dict|]. split; [|apply Hk1].
  eapply represents_dict; [apply lookup_insert_eq|].
  rewrite <- !insert_empty.
  repeat (apply entries_represent_insert;
          [eapply represents_weaken; [apply Hk1|eassumption]|]).
  apply entries_represent_empty.
Qed.

(** The same for [convert]: on a store in which [self.schema] stands for
    the document [m], the store model returns a reference to an object that
    stands for the tool definition of the value model, or raises the same
    exception, and every object that was in the store is kept. *)
Theorem store_conversion_simulates (l : Heap.loc) (d : gmap pystr Heap.val)
    (m : dict) (h : Heap.heap) (format : pystr) :
  h !! l = Some (Heap.ODict d) -> entries_represent h d m ->
  match convert {| schema := m |} format with
  | Ok tool =>
      exists t h',
        Heap.convert {| Heap.schema := Heap.VRef l |} format h
          = (Ok (Heap.VRef t), h')
        /\ represents h' (Heap.VRef t) tool
        /\ Heap.keeps h h'
  | Raise e =>
      exists h',
        Heap.convert {| Heap.schema := Heap.VRef l |} format h = (Raise e, h')
        /\ Heap.keeps h h'
  | Unmodelled => False
  end.
Proof.
  intros Hl Hd.
  assert (Hkeep : Heap.keeps h h) by (intros ? ? E; exact E).
  unfold convert, Heap.convert.
  destruct (negb _); [eexists; split; [reflexivity|exact Hkeep]|].
  pose proof (store_extraction_simulates l d m h Hl Hd) as Hsim.
  destruct (_extract_tool_metadata _) as [meta|e|];
    cbn [mbind outcome_mbind outcome_bind].
  - destruct Hsim as (r & h' & E & Hrep & Hk).
    rewrite (run_bind _ _ _ _ _ E).
    inversion Hrep as [| | | | | |? dm ? Hr Hdm]; subst.
    destruct (bool_decide (format = py "openai")).
    + pose proof (openai_format_simulates h' r dm meta Hr Hdm) as Hf.
      destruct (OpenAIFormatter.format meta) as [tool|e|].
      * destruct Hf as (t & h'' & Ef & Ht & Hk').
        exists t, h''. repeat split; try assumption.
        eapply keeps_trans; eassumption.
      * destruct Hf as (h'' & Ef & Hk'). exists h''. split; [assumption|].
        eapply keeps_trans; eassumption.
      * assumption.
    + destruct (bool_decide (format = py "anthropic")).
      * pose proof (anthropic_format_simulates h' r dm meta Hr Hdm) as Hf.
        destruct (AnthropicFormatter.format meta) as [tool|e|].
        -- destruct Hf as (t & h'' & Ef & Ht & Hk').
           exists t, h''. repeat split; try assumption.
           eapply keeps_trans; eassumption.
        -- destruct Hf as (h'' & Ef & Hk'). exists h''. split; [assumption|].
           eapply keeps_trans; eassumption.
        -- assumption.
      * exists h'. split; [reflexivity|assumption].
  - destruct Hsim as (h' & E & Hk). exists h'. split; [|assumption].
    now apply run_bind_raise.
  - contradiction.
Qed.

End ConvertSimulation.

(** * Further properties of the code *)

(** ** The extractor: its three paths and its inputs *)

Section ExtractMore.
Context {U : Unicode}.

(** Building the parameters never raises: whatever the document, only the
    name can make extraction fail. *)
Lemma build_parameters_returns (d : dict) :
  exists parameters, build_parameters d = Ok parameters.
Proof.
  destruct (d !! py "properties") as [props|] eqn:Eprops.
  - destruct (build_parameters_properties d) as (p & -> & _); eauto.
  - destruct (d !! py "parameters") as [params|] eqn:Eparams.
    + unfold build_parameters.
      apply dict_contains_false in Eprops as ->.
      assert (dict_contains d (py "parameters") = true) as ->
        by (apply dict_contains_true; rewrite Eparams; eauto).
      unfold dict_getitem. rewrite Eparams. eauto.
    + destruct (build_parameters_whole d) as (p & -> & _); eauto.
Qed.

Lemma build_parameters_nested (d : dict) v :
  d !! py "properties" = None -> d !! py "parameters" = Some v ->
  build_parameters d = Ok v.
Proof.
  intros Eprops Eparams. unfold build_parameters.
  apply dict_contains_false in Eprops as ->.
  assert (dict_contains d (py "parameters") = true) as ->
    by (apply dict_contains_true; rewrite Eparams; eauto).
  unfold dict_getitem. now rewrite Eparams.
Qed.

(** What extraction returns, in terms of the parameters built. *)
Lemma extract_with_name self s parameters :
  raw_name (schema self) = JStr s ->
  build_parameters (schema self) = Ok parameters ->
  _extract_tool_metadata self =
    Ok {[ py "name" := JStr (normalize_str s);
          py "description" := dict_get (schema self) (py "description") (JStr []);
          py "parameters" := parameters ]}.
Proof. intros Hn Hb. rewrite extract_unfold, Hb, Hn. reflexivity. Qed.

Lemma extract_without_name self :
  isinstance_str (raw_name (schema self)) = false ->
  _extract_tool_metadata self = Raise AttributeError.
Proof.
  intros Hn. rewrite extract_unfold.
  destruct (build_parameters_returns (schema self)) as (p & ->).
  cbn [mbind outcome_mbind outcome_bind].
  destruct (raw_name (schema self)); try discriminate; reflexivity.
Qed.

End ExtractMore.

(** X1. Path 2: a document without [properties] and with a [parameters]
    key.  The value under [parameters] becomes the parameters of the
    metadata exactly as it is, mapping or not, with no [type] added; this
    holds whenever the name is a string, and otherwise the call raises. *)
Theorem extract_nested_verbatim (U : Unicode) (self : t) (v : json) :
  schema self !! py "properties" = None ->
  schema self !! py "parameters" = Some v ->
  (forall s,
     raw_name (schema self) = JStr s ->
     _extract_tool_metadata self =
       Ok {[ py "name" := JStr (normalize_str s);
             py "description" := dict_get (schema self) (py "description") (JStr []);
             py "parameters" := v ]})
  /\ (isinstance_str (raw_name (schema self)) = false ->
      _extract_tool_metadata self = Raise AttributeError).
Proof.
  intros Eprops Eparams. split.
  - intros s Hn. apply extract_with_name; [assumption|].
    now apply build_parameters_nested.
  - apply extract_without_name.
Qed.

Lemma extract_nested_verbatim_witness :
  _extract_tool_metadata (U := python_latin1) {| schema := nested_schema |} =
    Ok {[ py "name" := JStr (normalize_str (U := python_latin1) (py "Find-Me"));
          py "description" := dict_get nested_schema (py "description") (JStr []);
          py "parameters" := JList [JInt 1; JInt 2] ]}.
Proof.
  apply (extract_nested_verbatim python_latin1 {| schema := nested_schema |}
           (JList [JInt 1; JInt 2]) eq_refl eq_refl).
  reflexivity.
Defined.

(** X2. On path 1 the extractor reads six keys and nothing else: two
    documents with a [properties] key that agree on [name], [title],
    [description], [properties], [required] and [additionalProperties] give
    the same result, whatever else they hold; a [parameters] key in
    particular is ignored. *)
Theorem extract_properties_reads_six_keys (U : Unicode) (d1 d2 : dict) :
  is_Some (d1 !! py "properties") ->
  (forall k,
     In k [py "name"; py "title"; py "description"; py "properties";
           py "required"; py "additionalProperties"] ->
     d1 !! k = d2 !! k) ->
  _extract_tool_metadata {| schema := d1 |}
  = _extract_tool_metadata {| schema := d2 |}.
Proof.
  intros Hprops Hagree.
  assert (Hn : d1 !! py "name" = d2 !! py "name") by (apply Hagree; cbn; auto).
  assert (Ht : d1 !! py "title" = d2 !! py "title") by (apply Hagree; cbn; auto).
  assert (Hd : d1 !! py "description" = d2 !! py "description")
    by (apply Hagree; cbn; auto).
  assert (Hp : d1 !! py "properties" = d2 !! py "properties")
    by (apply Hagree; cbn; auto 10).
  assert (Hr : d1 !! py "required" = d2 !! py "required")
    by (apply Hagree; cbn; auto 10).
  assert (Ha : d1 !! py "additionalProperties" = d2 !! py "additionalProperties")
    by (apply Hagree; cbn; auto 10).
  rewrite !extract_unfold. cbn [schema].
  unfold raw_name, build_parameters, dict_contains, dict_get, dict_getitem.
  rewrite <- Hn, <- Ht, <- Hd, <- Hp, <- Hr, <- Ha.
  destruct Hprops as [props ->]. reflexivity.
Qed.

Lemma extract_properties_reads_six_keys_witness :
  _extract_tool_metadata (U := python_latin1) {| schema := weather_schema |}
  = _extract_tool_metadata (U := python_latin1)
      {| schema := weather_schema_extended |}.
Proof.
  apply (extract_properties_reads_six_keys python_latin1).
  - vm_compute. eauto.
  - intros k Hk. cbn in Hk. decompose [or] Hk; subst; try contradiction;
      vm_compute; reflexivity.
Defined.

Lemma normalize_str_unnamed (U : Unicode) (UA : UnicodeAscii U) :
  normalize_str (py "unnamed_tool") = py "unnamed_tool".
Proof.
  change (py "unnamed_tool") with (117 :: py "nnamed_tool").
  apply normalize_str_fixed; [exact unnamed_tool_kept|now rewrite isdigit_ascii].
Qed.

(** X3. Where the name comes from.  A [name] key decides alone: its string
    is normalized whatever [title] says, and a [name] that is not a string
    (a JSON null, say) makes extraction raise, even next to a usable
    [title].  Without [name], a string [title] is used; without both, the
    name is [unnamed_tool]. *)
Theorem extract_name_source (U : Unicode) (UA : UnicodeAscii U) (self : t) :
  (forall s,
     schema self !! py "name" = Some (JStr s) ->
     exists meta, _extract_tool_metadata self = Ok meta
       /\ meta !! py "name" = Some (JStr (normalize_str s)))
  /\ (forall v,
        schema self !! py "name" = Some v -> isinstance_str v = false ->
        _extract_tool_metadata self = Raise AttributeError)
  /\ (forall s,
        schema self !! py "name" = None ->
        schema self !! py "title" = Some (JStr s) ->
        exists meta, _extract_tool_metadata self = Ok meta
          /\ meta !! py "name" = Some (JStr (normalize_str s)))
  /\ (schema self !! py "name" = None -> schema self !! py "title" = None ->
      exists meta, _extract_tool_metadata self = Ok meta
        /\ meta !! py "name" = Some (JStr (py "unnamed_tool"))).
Proof.
  destruct (build_parameters_returns (schema self)) as (p & Hb).
  assert (Hok : forall s, raw_name (schema self) = JStr s ->
            exists meta, _extract_tool_metadata self = Ok meta
              /\ meta !! py "name" = Some (JStr (normalize_str s))).
  { intros s Hn. eexists. split; [eapply extract_with_name; eassumption|].
    apply lookup_insert_eq. }
  split; [|split; [|split]].
  - intros s Hn. apply Hok. unfold raw_name, dict_get. now rewrite Hn.
  - intros v Hn Hv. apply extract_without_name.
    unfold raw_name, dict_get. now rewrite Hn.
  - intros s Hn Ht. apply Hok. unfold raw_name, dict_get. now rewrite Hn, Ht.
  - intros Hn Ht.
    destruct (Hok (py "unnamed_tool")) as (meta & E & Hm).
    { unfold raw_name, dict_get. now rewrite Hn, Ht. }
    exists meta. split; [exact E|]. rewrite Hm. do 2 f_equal.
    now apply normalize_str_unnamed.
Qed.

Lemma extract_name_source_witness :
  _extract_tool_metadata (U := python_latin1) {| schema := null_name_schema |}
  = Raise AttributeError.
Proof.
  destruct (extract_name_source python_latin1 python_latin1_ascii
              {| schema := null_name_schema |}) as (_ & Hnot_str & _).
  apply (Hnot_str JNull); reflexivity.
Defined.

(** ** Conversion as a whole *)

Section ConvertMore.
Context {U : Unicode}.

Lemma convert_openai_eq self s parameters :
  raw_name (schema self) = JStr s ->
  build_parameters (schema self) = Ok parameters ->
  convert self (py "openai") =
    Ok (JObj {[ py "type" := JStr (py "function");
                py "function" :=
                  JObj {[ py "name" := JStr (normalize_str s);
                          py "description" :=
                            dict_get (schema self) (py "description") (JStr []);
                          py "parameters" := parameters ]} ]}).
Proof.
  intros Hn Hb. unfold convert.
  change (negb (bool_decide (py "openai" ∈ SUPPORTED_FORMATS))) with false.
  cbv iota. rewrite (extract_with_name self s parameters Hn Hb).
  cbn [mbind outcome_mbind outcome_bind].
  change (bool_decide (py "openai" = py "openai")) with true. cbv iota.
  unfold OpenAIFormatter.format, dict_getitem. lookup_literal.
  reflexivity.
Qed.

Lemma convert_anthropic_eq self s parameters :
  raw_name (schema self) = JStr s ->
  build_parameters (schema self) = Ok parameters ->
  convert self (py "anthropic") =
    Ok (JObj {[ py "name" := JStr (normalize_str s);
                py "description" :=
                  dict_get (schema self) (py "description") (JStr []);
                py "input_schema" := parameters ]}).
Proof.
  intros Hn Hb. unfold convert.
  change (negb (bool_decide (py "anthropic" ∈ SUPPORTED_FORMATS))) with false.
  cbv iota. rewrite (extract_with_name self s parameters Hn Hb).
  cbn [mbind outcome_mbind outcome_bind].
  change (bool_decide (py "anthropic" = py "openai")) with false.
  change (bool_decide (py "anthropic" = py "anthropic")) with true. cbv iota.
  unfold AnthropicFormatter.format, dict_getitem. lookup_literal.
  reflexivity.
Qed.

Lemma convert_without_name self format :
  format = py "openai" \/ format = py "anthropic" ->
  isinstance_str (raw_name (schema self)) = false ->
  convert self format = Raise AttributeError.
Proof.
  intros Hf Hn. unfold convert.
  rewrite (extract_without_name self Hn).
  destruct Hf as [-> | ->]; reflexivity.
Qed.

Lemma convert_unsupported_eq self format :
  format <> py "openai" -> format <> py "anthropic" ->
  convert self format =
    Raise (ValueError
      (py "Unsupported format: " ++ format
       ++ py ". Supported formats: openai, anthropic")).
Proof.
  intros H1 H2. unfold convert. rewrite bool_decide_eq_false_2.
  - reflexivity.
  - unfold SUPPORTED_FORMATS. rewrite !elem_of_cons, elem_of_nil. tauto.
Qed.

End ConvertMore.

(** X4. The two formats carry the same three values.  Whenever the name is
    a string, converting to OpenAI and converting to Anthropic both return,
    and the [name], [description] and [parameters] under [function] in the
    first are the [name], [description] and [input_schema] of the second:
    the metadata the extractor returns. *)
Theorem convert_formats_agree (U : Unicode) (self : t) (s : pystr) :
  raw_name (schema self) = JStr s ->
  exists name description parameters,
    _extract_tool_metadata self =
      Ok {[ py "name" := name; py "description" := description;
            py "parameters" := parameters ]}
    /\ convert self (py "openai") =
         Ok (JObj {[ py "type" := JStr (py "function");
                     py "function" :=
                       JObj {[ py "name" := name;
                               py "description" := description;
                               py "parameters" := parameters ]} ]})
    /\ convert self (py "anthropic") =
         Ok (JObj {[ py "name" := name; py "description" := description;
                     py "input_schema" := parameters ]}).
Proof.
  intros Hn. destruct (build_parameters_returns (schema self)) as (p & Hb).
  do 3 eexists. split; [|split].
  - eapply extract_with_name; eassumption.
  - eapply convert_openai_eq; eassumption.
  - eapply convert_anthropic_eq; eassumption.
Qed.

Lemma convert_formats_agree_witness :
  exists name description parameters,
    _extract_tool_metadata (U := python_latin1) {| schema := weather_schema |} =
      Ok {[ py "name" := name; py "description" := description;
            py "parameters" := parameters ]}
    /\ convert (U := python_latin1) {| schema := weather_schema |} (py "openai") =
         Ok (JObj {[ py "type" := JStr (py "function");
                     py "function" :=
                       JObj {[ py "name" := name;
                               py "description" := description;
                               py "parameters" := parameters ]} ]})
    /\ convert (U := python_latin1) {| schema := weather_schema |} (py "anthropic") =
         Ok (JObj {[ py "name" := name; py "description" := description;
                     py "input_schema" := parameters ]}).
Proof.
  apply (convert_formats_agree python_latin1 {| schema := weather_schema |}
           (py "Get Weather")).
  reflexivity.
Defined.

(** X5. Every outcome of [SchemaConverter(x).convert(format)].  It returns
    a tool definition exactly when [x] is a mapping, the format is one of
    the two and the name is a string.  Otherwise it raises: the
    not-a-dictionary error for any other [x], before the format is looked
    at; [AttributeError] for a supported format and a name that is not a
    string.  The [Unknown format] error at the end of [convert] is never
    raised. *)
Theorem convert_outcomes (U : Unicode) (x : json) (format : pystr) :
  ((exists tool, (self ← __init__ x; convert self format) = Ok tool) <->
   (exists d s,
      x = JObj d /\ (format = py "openai" \/ format = py "anthropic")
      /\ raw_name d = JStr s))
  /\ (isinstance_dict x = false ->
      (self ← __init__ x; convert self format)
      = Raise (ValueError (py "Schema must be a dictionary")))
  /\ (forall d,
        x = JObj d -> format = py "openai" \/ format = py "anthropic" ->
        isinstance_str (raw_name d) = false ->
        (self ← __init__ x; convert self format) = Raise AttributeError)
  /\ (self ← __init__ x; convert self format) <> Unmodelled
  /\ (self ← __init__ x; convert self format)
     <> Raise (ValueError (py "Unknown format: " ++ format)).
Proof.
  assert (Hnd : isinstance_dict x = false ->
            (self ← __init__ x; convert self format)
            = Raise (ValueError (py "Schema must be a dictionary")))
    by (destruct x; cbn; intros; try discriminate; reflexivity).
  assert (Hcases : forall d, x = JObj d ->
            (exists s, raw_name d = JStr s) \/ isinstance_str (raw_name d) = false).
  { intros d _. destruct (raw_name d); eauto. }
  split; [|split; [exact Hnd|split; [|split]]].
  - split.
    + intros [tool E]. destruct x as [| | | | | |d];
        try (rewrite Hnd in E by reflexivity; discriminate).
      cbn [__init__ mbind outcome_mbind outcome_bind] in E.
      destruct (decide (format = py "openai")) as [Ho|Ho];
        [|destruct (decide (format = py "anthropic")) as [Ha|Ha]].
      * destruct (Hcases d eq_refl) as [[s Hs]|Hs]; [eauto 10|].
        rewrite (convert_without_name _ format) in E by auto. discriminate.
      * destruct (Hcases d eq_refl) as [[s Hs]|Hs]; [eauto 10|].
        rewrite (convert_without_name _ format) in E by auto. discriminate.
      * rewrite convert_unsupported_eq in E by assumption. discriminate.
    + intros (d & s & -> & Hf & Hs).
      cbn [__init__ mbind outcome_mbind outcome_bind].
      destruct (build_parameters_returns d) as (p & Hb).
      destruct Hf as [-> | ->]; eexists;
        [eapply convert_openai_eq|eapply convert_anthropic_eq]; eassumption.
  - intros d -> Hf Hs. cbn [__init__ mbind outcome_mbind outcome_bind].
    now apply convert_without_name.
  - destruct x as [| | | | | |d];
      try (rewrite Hnd by reflexivity; discriminate).
    cbn [__init__ mbind outcome_mbind outcome_bind].
    destruct (decide (format = py "openai")) as [Ho|Ho];
      [|destruct (decide (format = py "anthropic")) as [Ha|Ha]].
    + destruct (Hcases d eq_refl) as [[s Hs]|Hs].
      * destruct (build_parameters_returns d) as (p & Hb). subst format.
        erewrite convert_openai_eq by eassumption. discriminate.
      * rewrite (convert_without_name _ format) by auto. discriminate.
    + destruct (Hcases d eq_refl) as [[s Hs]|Hs].
      * destruct (build_parameters_returns d) as (p & Hb). subst format.
        erewrite convert_anthropic_eq by eassumption. discriminate.
      * rewrite (convert_without_name _ format) by auto. discriminate.
    + rewrite convert_unsupported_eq by assumption. discriminate.
  - destruct x as [| | | | | |d];
      try (rewrite Hnd by reflexivity; intros [= E]; revert E;
           vm_compute; discriminate).
    cbn [__init__ mbind outcome_mbind outcome_bind].
    destruct (decide (format = py "openai")) as [Ho|Ho];
      [|destruct (decide (format = py "anthropic")) as [Ha|Ha]].
    + destruct (Hcases d eq_refl) as [[s Hs]|Hs].
      * destruct (build_parameters_returns d) as (p & Hb). subst format.
        erewrite convert_openai_eq by eassumption. discriminate.
      * rewrite (convert_without_name _ format) by auto. discriminate.
    + destruct (Hcases d eq_refl) as [[s Hs]|Hs].
      * destruct (build_parameters_returns d) as (p & Hb). subst format.
        erewrite convert_anthropic_eq by eassumption. discriminate.
      * rewrite (convert_without_name _ format) by auto. discriminate.
    + rewrite convert_unsupported_eq by assumption.
      intros [= E].
Qed.

Lemma convert_outcomes_witness :
  (self ← __init__ (JList []); convert (U := python_latin1) self (py "bogus"))
  = Raise (ValueError (py "Schema must be a dictionary"))
  /\ (self ← __init__ (JObj null_name_schema);
      convert (U := python_latin1) self (py "openai"))
     = Raise AttributeError.
Proof.
  split.
  - destruct (convert_outcomes python_latin1 (JList []) (py "bogus"))
      as (_ & Hnot_dict & _).
    apply Hnot_dict. reflexivity.
  - destruct (convert_outcomes python_latin1 (JObj null_name_schema) (py "openai"))
      as (_ & _ & Hname & _).
    apply (Hname null_name_schema eq_refl); [now left|reflexivity].
Defined.

(** ** Conversion, then validation *)

(** X6. A document with a [properties] key and a string name converts to a
    tool definition that both validators accept, with one exception: a
    [description] that is not a string passes through conversion and is the
    single defect that validation then reports. *)
Theorem convert_properties_then_validate
    (U : Unicode) (UA : UnicodeAscii U) (self : t) (s : pystr) :
  is_Some (schema self !! py "properties") ->
  raw_name (schema self) = JStr s ->
  (tool ← convert self (py "openai"); OpenAIFormatter.validate tool)
    = Ok match schema self !! py "description" with
         | None | Some (JStr _) => (true, [])
         | Some _ => (false, [py "Function 'description' must be a string"])
         end
  /\ (tool ← convert self (py "anthropic"); AnthropicFormatter.validate tool)
    = Ok match schema self !! py "description" with
         | None | Some (JStr _) => (true, [])
         | Some _ => (false, [py "Tool 'description' must be a string"])
         end.
Proof.
  intros Hprops Hn.
  destruct (build_parameters_properties (schema self) Hprops)
    as (p & Hb & Hty & Hp & _).
  destruct (normalize_str_shape s) as (c & r & Hs & _).
  assert (Hpp : dict_contains p (py "properties") = true)
    by (apply dict_contains_true; now rewrite Hp).
  apply eq_str_true in Hty.
  split.
  - rewrite (convert_openai_eq self s (JObj p) Hn Hb).
    cbn [mbind outcome_mbind outcome_bind].
    rewrite openai_validate_eq.
    unfold name_defects, description_defects, schema_defects.
    lookup_literal. rewrite Hs, Hty, Hpp.
    change (eq_str (dict_get _ (py "type") JNull) (py "function")) with true.
    unfold dict_get.
    destruct (schema self !! py "description") as [[]|]; reflexivity.
  - rewrite (convert_anthropic_eq self s (JObj p) Hn Hb).
    cbn [mbind outcome_mbind outcome_bind].
    rewrite anthropic_validate_eq.
    unfold name_defects, description_defects, schema_defects.
    lookup_literal. rewrite Hs, Hty, Hpp.
    unfold dict_get.
    destruct (schema self !! py "description") as [[]|]; reflexivity.
Qed.

Lemma convert_properties_then_validate_witness :
  (tool ← convert (U := python_latin1) {| schema := numbered_schema |} (py "openai");
   OpenAIFormatter.validate tool)
    = Ok match numbered_schema !! py "description" with
         | None | Some (JStr _) => (true, [])
         | Some _ => (false, [py "Function 'description' must be a string"])
         end
  /\ (tool ← convert (U := python_latin1) {| schema := numbered_schema |}
               (py "anthropic");
      AnthropicFormatter.validate tool)
    = Ok match numbered_schema !! py "description" with
         | None | Some (JStr _) => (true, [])
         | Some _ => (false, [py "Tool 'description' must be a string"])
         end.
Proof.
  apply (convert_properties_then_validate python_latin1 python_latin1_ascii
           {| schema := numbered_schema |} (py "f")).
  - vm_compute. eauto.
  - reflexivity.
Defined.

(** ** From a tool definition back to a schema, and again to the tool *)

Lemma openai_extract_schema_of_format (name description : json) (p : dict) :
  OpenAIFormatter.extract_schema
    (JObj {[ py "type" := JStr (py "function");
             py "function" :=
               JObj {[ py "name" := name; py "description" := description;
                       py "parameters" := JObj p ]} ]})
  = Ok (p ∪ {[ py "name" := name; py "description" := description ]}).
Proof.
  unfold OpenAIFormatter.extract_schema.
  cbn [OpenAIFormatter.attr_get mbind outcome_mbind outcome_bind].
  unfold dict_get. lookup_literal.
  cbn [default from_option id OpenAIFormatter.attr_get outcome_bind].
  lookup_literal. reflexivity.
Qed.

Lemma anthropic_extract_schema_of_format (name description : json) (p : dict) :
  AnthropicFormatter.extract_schema
    (JObj {[ py "name" := name; py "description" := description;
             py "input_schema" := JObj p ]})
  = Ok (p ∪ {[ py "name" := name; py "description" := description ]}).
Proof.
  unfold AnthropicFormatter.extract_schema.
  cbn [OpenAIFormatter.attr_get mbind outcome_mbind outcome_bind].
  unfold dict_get. lookup_literal. reflexivity.
Qed.

(** The schema that [extract_schema] rebuilds: the parameters with [name]
    and [description] added. *)
Lemma rebuilt_lookup_other (p : dict) (name description : json) k :
  k <> py "name" -> k <> py "description" ->
  (p ∪ {[ py "name" := name; py "description" := description ]}) !! k = p !! k.
Proof.
  intros Hn Hd. destruct (p !! k) as [v|] eqn:E.
  - now apply lookup_union_Some_l.
  - rewrite lookup_union_r by assumption.
    rewrite lookup_insert_ne, lookup_singleton_ne by congruence. reflexivity.
Qed.

Lemma rebuilt_lookup_name (p : dict) (name description : json) :
  p !! py "name" = None ->
  (p ∪ {[ py "name" := name; py "description" := description ]}) !! py "name"
  = Some name.
Proof. intros E. rewrite lookup_union_r by assumption. now lookup_literal. Qed.

Lemma rebuilt_lookup_description (p : dict) (name description : json) :
  p !! py "description" = None ->
  (p ∪ {[ py "name" := name; py "description" := description ]})
    !! py "description" = Some description.
Proof. intros E. rewrite lookup_union_r by assumption. now lookup_literal. Qed.

Section Rebuild.
Context {U : Unicode}.

(** Path 1 and path 3 build parameters from which extraction builds the
    same parameters again. *)
Lemma build_parameters_rebuilt (d : dict) (name description : json) :
  is_Some (d !! py "properties") \/ d !! py "parameters" = None ->
  exists p : dict,
    build_parameters d = Ok (JObj p)
    /\ p !! py "name" = None /\ p !! py "title" = None
    /\ p !! py "description" = None
    /\ build_parameters
         (p ∪ {[ py "name" := name; py "description" := description ]})
       = Ok (JObj p).
Proof.
  intros Hpath.
  destruct (d !! py "properties") as [props|] eqn:Eprops.
  - (* path 1 *)
    destruct (build_parameters_properties d) as (p & Hb & Hty & Hp & Hr & Ha & Hk);
      [rewrite Eprops; eauto|].
    exists p. split; [exact Hb|].
    assert (Hpn : p !! py "name" = None) by (apply Hk; key_ne).
    assert (Hpt : p !! py "title" = None) by (apply Hk; key_ne).
    assert (Hpd : p !! py "description" = None) by (apply Hk; key_ne).
    do 3 (split; [assumption|]).
    set (back := p ∪ _).
    destruct (build_parameters_properties back) as (p2 & Hb2 & Hty2 & Hp2 & Hr2 & Ha2 & Hk2).
    { subst back. rewrite rebuilt_lookup_other by key_ne.
      rewrite Hp, Eprops. eauto. }
    rewrite Hb2. do 2 f_equal. apply map_eq. intros k.
    subst back.
    destruct (decide (k = py "type")) as [->|?]; [congruence|].
    destruct (decide (k = py "properties")) as [->|?].
    { rewrite Hp2. apply rebuilt_lookup_other; key_ne. }
    destruct (decide (k = py "required")) as [->|?].
    { rewrite Hr2. apply rebuilt_lookup_other; key_ne. }
    destruct (decide (k = py "additionalProperties")) as [->|?].
    { rewrite Ha2, rebuilt_lookup_other by key_ne. rewrite Ha.
      destruct (d !! py "additionalProperties") as [[]|]; reflexivity. }
    rewrite Hk, Hk2 by assumption. reflexivity.
  - (* path 3 *)
    destruct Hpath as [[? [=]]|Eparams].
    destruct (build_parameters_whole d Eprops Eparams)
      as (p & Hb & Hty & Hpn & Hpt & Hpd & Hk).
    exists p. split; [exact Hb|]. do 3 (split; [assumption|]).
    set (back := p ∪ _).
    assert (Hbk : forall k, k <> py "name" -> k <> py "description" ->
              back !! k = p !! k)
      by (intros; now apply rebuilt_lookup_other).
    destruct (build_parameters_whole back)
      as (p2 & Hb2 & Hty2 & Hpn2 & Hpt2 & Hpd2 & Hk2).
    { rewrite Hbk by key_ne. rewrite Hk by key_ne. exact Eprops. }
    { rewrite Hbk by key_ne. rewrite Hk by key_ne. exact Eparams. }
    rewrite Hb2. do 2 f_equal. apply map_eq. intros k.
    destruct (decide (k = py "type")) as [->|?].
    { rewrite Hty2, Hbk by key_ne. now rewrite Hty. }
    destruct (decide (k = py "name")) as [->|?]; [congruence|].
    destruct (decide (k = py "title")) as [->|?]; [congruence|].
    destruct (decide (k = py "description")) as [->|?]; [congruence|].
    rewrite Hk2 by assumption. now apply Hbk.
Qed.

End Rebuild.

(** X7. Round trip through [extract_schema].  For a document that takes
    path 1 or path 3 (it has [properties], or has no [parameters]) and has
    a string name, converting, rebuilding a schema from the tool definition
    with [extract_schema] and converting that schema gives the same tool
    definition again, for either format. *)
Theorem convert_extract_schema_convert
    (U : Unicode) (UA : UnicodeAscii U) (self : t) (s : pystr) :
  is_Some (schema self !! py "properties")
  \/ schema self !! py "parameters" = None ->
  raw_name (schema self) = JStr s ->
  (exists tool back,
     convert self (py "openai") = Ok (JObj tool)
     /\ OpenAIFormatter.extract_schema (JObj tool) = Ok back
     /\ convert {| schema := back |} (py "openai") = Ok (JObj tool))
  /\ (exists tool back,
        convert self (py "anthropic") = Ok (JObj tool)
        /\ AnthropicFormatter.extract_schema (JObj tool) = Ok back
        /\ convert {| schema := back |} (py "anthropic") = Ok (JObj tool)).
Proof.
  intros Hpath Hn.
  set (name := JStr (normalize_str s)).
  set (description := dict_get (schema self) (py "description") (JStr [])).
  destruct (build_parameters_rebuilt (schema self) name description Hpath)
    as (p & Hb & Hpn & Hpt & Hpd & Hb2).
  set (back := p ∪ {[ py "name" := name; py "description" := description ]}) in *.
  assert (Hn2 : raw_name (schema {| schema := back |}) = JStr (normalize_str s)).
  { cbn [schema]. unfold raw_name, dict_get. subst back.
    now rewrite rebuilt_lookup_name by assumption. }
  assert (Hd2 : dict_get back (py "description") (JStr []) = description).
  { unfold dict_get at 1. subst back.
    now rewrite rebuilt_lookup_description by assumption. }
  split; do 2 eexists.
  - split; [now apply (convert_openai_eq self s (JObj p))|].
    split; [apply openai_extract_schema_of_format|].
    fold name description back.
    rewrite (convert_openai_eq {| schema := back |} (normalize_str s) (JObj p) Hn2 Hb2).
    cbn [schema]. now rewrite Hd2, normalize_str_idempotent.
  - split; [now apply (convert_anthropic_eq self s (JObj p))|].
    split; [apply anthropic_extract_schema_of_format|].
    fold name description back.
    rewrite (convert_anthropic_eq {| schema := back |} (normalize_str s) (JObj p) Hn2 Hb2).
    cbn [schema]. now rewrite Hd2, normalize_str_idempotent.
Qed.

Lemma convert_extract_schema_convert_witness :
  (exists tool back,
     convert (U := python_latin1) {| schema := weather_schema |} (py "openai")
       = Ok (JObj tool)
     /\ OpenAIFormatter.extract_schema (JObj tool) = Ok back
     /\ convert (U := python_latin1) {| schema := back |} (py "openai")
        = Ok (JObj tool))
  /\ (exists tool back,
        convert (U := python_latin1) {| schema := weather_schema |} (py "anthropic")
          = Ok (JObj tool)
        /\ AnthropicFormatter.extract_schema (JObj tool) = Ok back
        /\ convert (U := python_latin1) {| schema := back |} (py "anthropic")
           = Ok (JObj tool)).
Proof.
  apply (convert_extract_schema_convert python_latin1 python_latin1_ascii
           {| schema := weather_schema |} (py "Get Weather")).
  - left. vm_compute. eauto.
  - reflexivity.
Defined.

(** ** What the validators look at *)

Lemma Ok_inj {A} (a b : A) : Ok a = Ok b -> a = b.
Proof. now intros [=]. Qed.

Lemma verdict_true errors errs :
  OpenAIFormatter.verdict errors = (true, errs) -> errors = [] /\ errs = [].
Proof.
  unfold OpenAIFormatter.verdict. intros [= Hlen <-].
  destruct errors; [auto|discriminate].
Qed.

Lemma name_defects_nil (absent not_str blank : pystr) (d : dict) :
  name_defects absent not_str blank d = [] <->
  exists c r, d !! py "name" = Some (JStr (c :: r)).
Proof.
  unfold name_defects. split.
  - destruct (d !! py "name") as [[| | | |[|c r]| |]|]; try discriminate.
    eauto.
  - now intros (c & r & ->).
Qed.

Lemma description_defects_nil (not_str : pystr) (d : dict) :
  description_defects not_str d = [] <->
  isinstance_str (dict_get d (py "description") (JStr [])) = true.
Proof.
  unfold description_defects, dict_get.
  destruct (d !! py "description") as [[]|]; cbn; split; congruence.
Qed.

Lemma schema_defects_nil (key absent not_dict bad_type no_properties : pystr)
    (d : dict) :
  schema_defects key absent not_dict bad_type no_properties d = [] <->
  exists p : dict, d !! key = Some (JObj p)
    /\ p !! py "type" = Some (JStr (py "object"))
    /\ is_Some (p !! py "properties").
Proof.
  unfold schema_defects. split.
  - destruct (d !! key) as [[| | | | | |p]|]; try discriminate.
    intros H. apply app_eq_nil in H as [Hty Hp]. exists p. split; [reflexivity|].
    split.
    + apply eq_str_true. destruct (eq_str _ _); [reflexivity|discriminate].
    + apply dict_contains_true. destruct (dict_contains _ _);
        [reflexivity|discriminate].
  - intros (p & -> & Hty & Hp).
    apply eq_str_true in Hty as ->. apply dict_contains_true in Hp as ->.
    reflexivity.
Qed.

(** When the Anthropic validator accepts. *)
Lemma anthropic_accepts (tool : dict) errs :
  AnthropicFormatter.validate (JObj tool) = Ok (true, errs) <->
  errs = []
  /\ (exists c r, tool !! py "name" = Some (JStr (c :: r)))
  /\ isinstance_str (dict_get tool (py "description") (JStr [])) = true
  /\ (exists p : dict, tool !! py "input_schema" = Some (JObj p)
        /\ p !! py "type" = Some (JStr (py "object"))
        /\ is_Some (p !! py "properties")).
Proof.
  rewrite anthropic_validate_eq. split.
  - intros H. apply Ok_inj, verdict_true in H as [H ->].
    apply app_eq_nil in H as [Hn H]. apply app_eq_nil in H as [Hd Hs].
    split; [reflexivity|].
    split; [eapply name_defects_nil; eassumption|].
    split; [eapply description_defects_nil; eassumption|].
    eapply schema_defects_nil; eassumption.
  - intros (-> & Hn & Hd & Hs).
    eapply name_defects_nil in Hn as ->.
    eapply description_defects_nil in Hd as ->.
    eapply schema_defects_nil in Hs as ->. reflexivity.
Qed.

(** When the OpenAI validator accepts. *)
Lemma openai_accepts (tool : dict) errs :
  OpenAIFormatter.validate (JObj tool) = Ok (true, errs) <->
  errs = []
  /\ tool !! py "type" = Some (JStr (py "function"))
  /\ exists func : dict, tool !! py "function" = Some (JObj func)
     /\ (exists c r, func !! py "name" = Some (JStr (c :: r)))
     /\ isinstance_str (dict_get func (py "description") (JStr [])) = true
     /\ (exists p : dict, func !! py "parameters" = Some (JObj p)
           /\ p !! py "type" = Some (JStr (py "object"))
           /\ is_Some (p !! py "properties")).
Proof.
  rewrite openai_validate_eq. split.
  - intros H. apply Ok_inj, verdict_true in H as [H ->].
    apply app_eq_nil in H as [Hty H].
    split; [reflexivity|]. split.
    { apply eq_str_true. destruct (eq_str _ _); [reflexivity|discriminate]. }
    destruct (tool !! py "function") as [[| | | | | |func]|]; try discriminate.
    apply app_eq_nil in H as [Hn H]. apply app_eq_nil in H as [Hd Hs].
    exists func. split; [reflexivity|].
    split; [eapply name_defects_nil; eassumption|].
    split; [eapply description_defects_nil; eassumption|].
    eapply schema_defects_nil; eassumption.
  - intros (-> & Hty & func & -> & Hn & Hd & Hs).
    apply eq_str_true in Hty as ->.
    eapply name_defects_nil in Hn as ->.
    eapply description_defects_nil in Hd as ->.
    eapply schema_defects_nil in Hs as ->. reflexivity.
Qed.

Lemma name_defects_length (a b c a' b' c' : pystr) (d d' : dict) :
  d !! py "name" = d' !! py "name" ->
  length (name_defects a b c d) = length (name_defects a' b' c' d').
Proof.
  unfold name_defects. intros ->.
  destruct (d' !! py "name") as [[| | | |[]| |]|]; reflexivity.
Qed.

Lemma description_defects_length (m m' : pystr) (d d' : dict) :
  d !! py "description" = d' !! py "description" ->
  length (description_defects m d) = length (description_defects m' d').
Proof.
  unfold description_defects. intros ->.
  destruct (d' !! py "description") as [[]|]; reflexivity.
Qed.

Lemma schema_defects_length (k a b c e k' a' b' c' e' : pystr) (d d' : dict) :
  d !! k = d' !! k' ->
  length (schema_defects k a b c e d) = length (schema_defects k' a' b' c' e' d').
Proof.
  unfold schema_defects. intros ->.
  destruct (d' !! k') as [[| | | | | |p]|]; try reflexivity.
  destruct (eq_str _ _), (dict_contains _ _); reflexivity.
Qed.

(** X8. The two validators apply the same checks.  An OpenAI tool with
    [type] equal to ["function"] and the Anthropic tool that has the same
    [name] and [description] as its [function], and its [parameters] as
    [input_schema], get the same verdict and the same number of
    defects. *)
Theorem validators_agree (wrapper func tool : dict) :
  wrapper !! py "type" = Some (JStr (py "function")) ->
  wrapper !! py "function" = Some (JObj func) ->
  tool !! py "name" = func !! py "name" ->
  tool !! py "description" = func !! py "description" ->
  tool !! py "input_schema" = func !! py "parameters" ->
  exists valid openai_errors anthropic_errors,
    OpenAIFormatter.validate (JObj wrapper) = Ok (valid, openai_errors)
    /\ AnthropicFormatter.validate (JObj tool) = Ok (valid, anthropic_errors)
    /\ length openai_errors = length anthropic_errors.
Proof.
  intros Hty Hf Hn Hd Hs.
  rewrite openai_validate_eq, anthropic_validate_eq, Hf.
  apply eq_str_true in Hty as ->. cbn [app].
  unfold OpenAIFormatter.verdict.
  set (eo := _ ++ _ ++ _). set (ea := _ ++ _ ++ _).
  assert (Hlen : length eo = length ea).
  { subst eo ea. rewrite !length_app.
    f_equal; [|f_equal].
    - now apply name_defects_length.
    - now apply description_defects_length.
    - now apply schema_defects_length. }
  exists (Nat.eqb (length eo) 0), eo, ea.
  split; [reflexivity|]. split; [now rewrite Hlen|exact Hlen].
Qed.

Lemma validators_agree_witness :
  exists valid openai_errors anthropic_errors,
    OpenAIFormatter.validate (JObj (openai_tool_of odd_function))
      = Ok (valid, openai_errors)
    /\ AnthropicFormatter.validate (JObj odd_anthropic_tool)
      = Ok (valid, anthropic_errors)
    /\ length openai_errors = length anthropic_errors.
Proof.
  apply (validators_agree (openai_tool_of odd_function) odd_function
           odd_anthropic_tool); reflexivity.
Defined.

Lemma schema_defects_same (k a b c e : pystr) (d d' p p' : dict) :
  d !! k = Some (JObj p) -> d' !! k = Some (JObj p') ->
  p !! py "type" = p' !! py "type" ->
  (is_Some (p !! py "properties") <-> is_Some (p' !! py "properties")) ->
  schema_defects k a b c e d = schema_defects k a b c e d'.
Proof.
  intros Hd Hd' Hty Hp. unfold schema_defects. rewrite Hd, Hd'.
  unfold dict_get. rewrite Hty. f_equal.
  destruct (dict_contains p (py "properties")) eqn:E.
  - apply dict_contains_true, Hp, dict_contains_true in E. now rewrite E.
  - destruct (dict_contains p' (py "properties")) eqn:E'; [|reflexivity].
    apply dict_contains_true, Hp, dict_contains_true in E'. congruence.
Qed.

(** X9. Inside the parameter schema the validators look at two things
    only: the value of [type] and whether a [properties] key is there.
    Two tools with the same [name] and [description] whose schemas agree
    on these get the same result, defect for defect, whatever the schemas
    hold otherwise and whatever is stored under [properties]. *)
Theorem validators_inspect_type_and_properties
    (wrapper1 wrapper2 func1 func2 tool1 tool2 p1 p2 : dict) :
  p1 !! py "type" = p2 !! py "type" ->
  (is_Some (p1 !! py "properties") <-> is_Some (p2 !! py "properties")) ->
  (tool1 !! py "name" = tool2 !! py "name" ->
   tool1 !! py "description" = tool2 !! py "description" ->
   tool1 !! py "input_schema" = Some (JObj p1) ->
   tool2 !! py "input_schema" = Some (JObj p2) ->
   AnthropicFormatter.validate (JObj tool1)
   = AnthropicFormatter.validate (JObj tool2))
  /\ (wrapper1 !! py "type" = wrapper2 !! py "type" ->
      wrapper1 !! py "function" = Some (JObj func1) ->
      wrapper2 !! py "function" = Some (JObj func2) ->
      func1 !! py "name" = func2 !! py "name" ->
      func1 !! py "description" = func2 !! py "description" ->
      func1 !! py "parameters" = Some (JObj p1) ->
      func2 !! py "parameters" = Some (JObj p2) ->
      OpenAIFormatter.validate (JObj wrapper1)
      = OpenAIFormatter.validate (JObj wrapper2)).
Proof.
  intros Hty Hp. split.
  - intros Hn Hd H1 H2. rewrite !anthropic_validate_eq.
    unfold name_defects, description_defects. rewrite Hn, Hd.
    now rewrite (schema_defects_same _ _ _ _ _ tool1 tool2 p1 p2).
  - intros Hw Hf1 Hf2 Hn Hd H1 H2. rewrite !openai_validate_eq.
    unfold dict_get. rewrite Hw, Hf1, Hf2.
    unfold name_defects, description_defects. rewrite Hn, Hd.
    now rewrite (schema_defects_same _ _ _ _ _ func1 func2 p1 p2).
Qed.

Lemma validators_inspect_type_and_properties_witness :
  AnthropicFormatter.validate (JObj plain_anthropic_tool)
  = AnthropicFormatter.validate (JObj odd_anthropic_tool)
  /\ OpenAIFormatter.validate (JObj (openai_tool_of plain_function))
     = OpenAIFormatter.validate (JObj (openai_tool_of odd_function)).
Proof.
  destruct (validators_inspect_type_and_properties
              (openai_tool_of plain_function) (openai_tool_of odd_function)
              plain_function odd_function
              plain_anthropic_tool odd_anthropic_tool
              {[ py "type" := JStr (py "object"); py "properties" := JObj ∅ ]}
              {[ py "type" := JStr (py "object"); py "properties" := JInt 7;
                 py "note" := JNull ]}) as [Ha Ho].
  - reflexivity.
  - split; intros _; vm_compute; eauto.
  - split; [apply Ha|apply Ho]; reflexivity.
Defined.

(** ** From an accepted tool definition to a schema and on *)

Lemma openai_extract_schema_eq (tool func p : dict) :
  tool !! py "function" = Some (JObj func) ->
  func !! py "parameters" = Some (JObj p) ->
  OpenAIFormatter.extract_schema (JObj tool)
  = Ok (p ∪ {[ py "name" := dict_get func (py "name") (JStr []);
               py "description" := dict_get func (py "description") (JStr []) ]}).
Proof.
  intros Hf Hp. unfold OpenAIFormatter.extract_schema.
  cbn [OpenAIFormatter.attr_get mbind outcome_mbind outcome_bind].
  rewrite (dict_get_Some tool _ _ _ Hf).
  cbn [OpenAIFormatter.attr_get mbind outcome_mbind outcome_bind].
  now rewrite (dict_get_Some func _ _ _ Hp).
Qed.

Lemma anthropic_extract_schema_eq (tool p : dict) :
  tool !! py "input_schema" = Some (JObj p) ->
  AnthropicFormatter.extract_schema (JObj tool)
  = Ok (p ∪ {[ py "name" := dict_get tool (py "name") (JStr []);
               py "description" := dict_get tool (py "description") (JStr []) ]}).
Proof.
  intros Hp. unfold AnthropicFormatter.extract_schema.
  cbn [OpenAIFormatter.attr_get mbind outcome_mbind outcome_bind].
  now rewrite (dict_get_Some tool _ _ _ Hp).
Qed.

Lemma rebuilt_has_name (p : dict) (name description : json) :
  is_Some ((p ∪ {[ py "name" := name; py "description" := description ]})
             !! py "name").
Proof.
  destruct (p !! py "name") as [v|] eqn:E.
  - exists v. now apply lookup_union_Some_l.
  - rewrite rebuilt_lookup_name by assumption. eauto.
Qed.

Lemma rebuilt_has_description (p : dict) (name description : json) :
  is_Some ((p ∪ {[ py "name" := name; py "description" := description ]})
             !! py "description").
Proof.
  destruct (p !! py "description") as [v|] eqn:E.
  - exists v. now apply lookup_union_Some_l.
  - rewrite rebuilt_lookup_description by assumption. eauto.
Qed.

(** X10. [extract_schema] returns on every tool definition its validator
    accepts, and the schema it returns has the four keys [name],
    [description], [type] (with value ["object"]) and [properties].  On a
    tool that is not a mapping it raises [AttributeError], where the
    validator returns a report. *)
Theorem extract_schema_of_accepted (tool : json) :
  (forall errs,
     OpenAIFormatter.validate tool = Ok (true, errs) ->
     exists back, OpenAIFormatter.extract_schema tool = Ok back
       /\ is_Some (back !! py "name") /\ is_Some (back !! py "description")
       /\ back !! py "type" = Some (JStr (py "object"))
       /\ is_Some (back !! py "properties"))
  /\ (forall errs,
        AnthropicFormatter.validate tool = Ok (true, errs) ->
        exists back, AnthropicFormatter.extract_schema tool = Ok back
          /\ is_Some (back !! py "name") /\ is_Some (back !! py "description")
          /\ back !! py "type" = Some (JStr (py "object"))
          /\ is_Some (back !! py "properties"))
  /\ (isinstance_dict tool = false ->
      OpenAIFormatter.extract_schema tool = Raise AttributeError
      /\ AnthropicFormatter.extract_schema tool = Raise AttributeError).
Proof.
  split; [|split].
  - intros errs Hv. destruct tool as [| | | | | |tool]; try discriminate.
    apply openai_accepts in Hv as (_ & _ & func & Hf & _ & _ & p & Hp & Hty & Hpp).
    eexists. split; [now apply (openai_extract_schema_eq tool func p)|].
    split; [apply rebuilt_has_name|]. split; [apply rebuilt_has_description|].
    split; [now apply lookup_union_Some_l|].
    destruct Hpp as [v Hv]. exists v. now apply lookup_union_Some_l.
  - intros errs Hv. destruct tool as [| | | | | |tool]; try discriminate.
    apply anthropic_accepts in Hv as (_ & _ & _ & p & Hp & Hty & Hpp).
    eexists. split; [now apply (anthropic_extract_schema_eq tool p)|].
    split; [apply rebuilt_has_name|]. split; [apply rebuilt_has_description|].
    split; [now apply lookup_union_Some_l|].
    destruct Hpp as [v Hv]. exists v. now apply lookup_union_Some_l.
  - destruct tool; try discriminate; intros _; split; reflexivity.
Qed.

Lemma extract_schema_of_accepted_witness :
  exists back, AnthropicFormatter.extract_schema (JObj shadowed_name_tool) = Ok back
    /\ is_Some (back !! py "name") /\ is_Some (back !! py "description")
    /\ back !! py "type" = Some (JStr (py "object"))
    /\ is_Some (back !! py "properties").
Proof.
  destruct (extract_schema_of_accepted (JObj shadowed_name_tool)) as (_ & Ha & _).
  apply (Ha []). vm_compute. reflexivity.
Defined.

Section Reconvert.
Context {U : Unicode} {UA : UnicodeAscii U}.

(** A path-1 document with a string name and a string description converts
    to an accepted tool definition. *)
Lemma convert_properties_accepted (d : dict) :
  is_Some (d !! py "properties") ->
  isinstance_str (raw_name d) = true ->
  isinstance_str (dict_get d (py "description") (JStr [])) = true ->
  (tool ← convert {| schema := d |} (py "openai"); OpenAIFormatter.validate tool)
    = Ok (true, [])
  /\ (tool ← convert {| schema := d |} (py "anthropic");
      AnthropicFormatter.validate tool) = Ok (true, []).
Proof.
  intros Hprops Hn Hd.
  destruct (raw_name d) as [| | | |s| |] eqn:En; try discriminate.
  destruct (build_parameters_properties d Hprops) as (p & Hb & Hty & Hp & _).
  destruct (normalize_str_shape s) as (c & r & Hs & _).
  assert (Hpp : is_Some (p !! py "properties")) by now rewrite Hp.
  split.
  - rewrite (convert_openai_eq {| schema := d |} s (JObj p) En Hb).
    cbn [mbind outcome_mbind outcome_bind schema].
    apply openai_accepts. split; [reflexivity|].
    split; [now lookup_literal|]. eexists. split; [now lookup_literal|].
    split; [rewrite Hs; lookup_literal; eauto|].
    split; [unfold dict_get at 1; now lookup_literal|].
    exists p. split; [now lookup_literal|]. auto.
  - rewrite (convert_anthropic_eq {| schema := d |} s (JObj p) En Hb).
    cbn [mbind outcome_mbind outcome_bind schema].
    apply anthropic_accepts. split; [reflexivity|].
    split; [rewrite Hs; lookup_literal; eauto|].
    split; [unfold dict_get at 1; now lookup_literal|].
    exists p. split; [now lookup_literal|]. auto.
Qed.

(** The schema rebuilt from accepted parts is such a document. *)
Lemma rebuilt_convert_accepted (p : dict) (c : N) (r : pystr) (description : json) :
  is_Some (p !! py "properties") ->
  isinstance_str (dict_get p (py "name") (JStr [])) = true ->
  isinstance_str (dict_get p (py "description") (JStr [])) = true ->
  isinstance_str description = true ->
  let back := p ∪ {[ py "name" := JStr (c :: r); py "description" := description ]} in
  (tool ← convert {| schema := back |} (py "openai"); OpenAIFormatter.validate tool)
    = Ok (true, [])
  /\ (tool ← convert {| schema := back |} (py "anthropic");
      AnthropicFormatter.validate tool) = Ok (true, []).
Proof.
  intros [v Hv] Hn Hd Hdesc back.
  apply convert_properties_accepted.
  - exists v. now apply lookup_union_Some_l.
  - unfold raw_name. unfold dict_get at 1. subst back.
    destruct (p !! py "name") as [w|] eqn:E.
    + rewrite (lookup_union_Some_l _ _ _ _ E). cbn.
      unfold dict_get in Hn. now rewrite E in Hn.
    + now rewrite rebuilt_lookup_name by assumption.
  - unfold dict_get at 1. subst back.
    destruct (p !! py "description") as [w|] eqn:E.
    + rewrite (lookup_union_Some_l _ _ _ _ E). cbn.
      unfold dict_get in Hd. now rewrite E in Hd.
    + now rewrite rebuilt_lookup_description by assumption.
Qed.

End Reconvert.

(** X11. Moving an accepted tool definition to either format.  Take a
    tool definition that its validator accepts and whose parameter schema
    has no [name] or [description] entry that is not a string.  The schema
    that [extract_schema] rebuilds from it converts, to OpenAI and to
    Anthropic alike, into a tool definition that the validator of that
    format accepts. *)
Theorem accepted_tool_translates
    (U : Unicode) (UA : UnicodeAscii U) (tool p : dict) (errs : list pystr) :
  isinstance_str (dict_get p (py "name") (JStr [])) = true ->
  isinstance_str (dict_get p (py "description") (JStr [])) = true ->
  (forall func : dict,
     tool !! py "function" = Some (JObj func) ->
     func !! py "parameters" = Some (JObj p) ->
     OpenAIFormatter.validate (JObj tool) = Ok (true, errs) ->
     exists back,
       OpenAIFormatter.extract_schema (JObj tool) = Ok back
       /\ (again ← convert {| schema := back |} (py "openai");
           OpenAIFormatter.validate again) = Ok (true, [])
       /\ (again ← convert {| schema := back |} (py "anthropic");
           AnthropicFormatter.validate again) = Ok (true, []))
  /\ (tool !! py "input_schema" = Some (JObj p) ->
      AnthropicFormatter.validate (JObj tool) = Ok (true, errs) ->
      exists back,
        AnthropicFormatter.extract_schema (JObj tool) = Ok back
        /\ (again ← convert {| schema := back |} (py "openai");
            OpenAIFormatter.validate again) = Ok (true, [])
        /\ (again ← convert {| schema := back |} (py "anthropic");
            AnthropicFormatter.validate again) = Ok (true, [])).
Proof.
  intros Hpn Hpd. split.
  - intros func Hf Hp Hv.
    apply openai_accepts in Hv
      as (_ & _ & func' & Hf' & (c & r & Hn) & Hd & p' & Hp' & _ & Hpp).
    assert (func' = func) as -> by congruence.
    assert (p' = p) as -> by congruence.
    eexists. split; [now apply (openai_extract_schema_eq tool func p)|].
    rewrite (dict_get_Some func _ _ _ Hn).
    now apply rebuilt_convert_accepted.
  - intros Hp Hv.
    apply anthropic_accepts in Hv as (_ & (c & r & Hn) & Hd & p' & Hp' & _ & Hpp).
    assert (p' = p) as -> by congruence.
    eexists. split; [now apply (anthropic_extract_schema_eq tool p)|].
    rewrite (dict_get_Some tool _ _ _ Hn).
    now apply rebuilt_convert_accepted.
Qed.

Lemma accepted_tool_translates_witness :
  exists back,
    AnthropicFormatter.extract_schema (JObj plain_anthropic_tool) = Ok back
    /\ (again ← convert (U := python_latin1) {| schema := back |} (py "openai");
        OpenAIFormatter.validate again) = Ok (true, [])
    /\ (again ← convert (U := python_latin1) {| schema := back |} (py "anthropic");
        AnthropicFormatter.validate again) = Ok (true, []).
Proof.
  destruct (accepted_tool_translates python_latin1 python_latin1_ascii
              plain_anthropic_tool
              {[ py "type" := JStr (py "object"); py "properties" := JObj ∅ ]}
              []) as [_ Ha]; [reflexivity|reflexivity|].
  apply Ha; [reflexivity|vm_compute; reflexivity].
Defined.

(** ** Names that normalization leaves alone, and names it identifies *)

(** X12. The names that [_normalize_name] returns unchanged are exactly
    the non-empty strings of alphanumeric characters and underscores that
    do not start with a digit. *)
Theorem normalize_name_fixed_points (U : Unicode) (UA : UnicodeAscii U) (s : pystr) :
  _normalize_name (JStr s) = Ok s <->
  exists c r, s = c :: r
    /\ Forall (fun x => isalnum x || N.eqb x 95 = true) (c :: r)
    /\ isdigit c = false.
Proof.
  cbn [_normalize_name]. split.
  - intros H. apply Ok_inj in H.
    destruct (normalize_str_shape s) as (c & r & E & Hk & Hd).
    exists c, r. split; [congruence|]. split; assumption.
  - intros (c & r & -> & Hk & Hd). f_equal. now apply normalize_str_fixed.
Qed.

Lemma normalize_name_fixed_points_witness :
  _normalize_name (U := python_latin1) (JStr (py "get_weather2"))
  = Ok (py "get_weather2").
Proof.
  apply (normalize_name_fixed_points python_latin1 python_latin1_ascii).
  exists 103, (py "et_weather2"). split; [reflexivity|]. split.
  - vm_compute. repeat constructor.
  - reflexivity.
Defined.

Lemma separators_merge (a b : N) (s : pystr) :
  In a [32; 45] -> In b [32; 45; 95] ->
  str_replace 45 95 (str_replace 32 95 (str_replace a b s))
  = str_replace 45 95 (str_replace 32 95 s).
Proof.
  intros Ha Hb. unfold str_replace. rewrite !map_map. apply map_ext. intros x.
  cbn in Ha, Hb.
  destruct Ha as [<-|[<-|[]]]; destruct Hb as [<-|[<-|[<-|[]]]];
    destruct (N.eqb_spec x 32) as [->|H32]; try reflexivity;
    destruct (N.eqb_spec x 45) as [->|H45]; try reflexivity;
    cbn; rewrite ?(proj2 (N.eqb_neq x 32)), ?(proj2 (N.eqb_neq x 45)) by assumption;
    reflexivity.
Qed.

(** X13. Space, hyphen and underscore are one separator to
    [_normalize_name]: writing a hyphen or an underscore for every space
    of a name, or a space or an underscore for every hyphen, gives the same
    normalized name.  Distinct names can so end as the same tool name. *)
Theorem normalize_name_separators (U : Unicode) (a b : N) (s : pystr) :
  In a [32; 45] -> In b [32; 45; 95] ->
  _normalize_name (JStr (str_replace a b s)) = _normalize_name (JStr s).
Proof.
  intros Ha Hb. cbn [_normalize_name]. f_equal.
  unfold normalize_str. now rewrite separators_merge.
Qed.

Lemma normalize_name_separators_witness :
  _normalize_name (U := python_latin1) (JStr (str_replace 32 45 (py "get weather")))
  = _normalize_name (U := python_latin1) (JStr (py "get weather"))
  /\ str_replace 32 45 (py "get weather") = py "get-weather".
Proof.
  split; [|reflexivity].
  apply (normalize_name_separators python_latin1 32 45); cbn; auto.
Defined.

(** ** What the extracted metadata shares with the document *)

Section Sharing.
Context {U : Unicode}.

Lemma fresh_after_insert (h : Heap.heap) (p : Heap.loc) (o : Heap.obj) :
  h !! fresh (dom (<[p := o]> h)) = None /\ p <> fresh (dom (<[p := o]> h)).
Proof.
  pose proof (fresh_lookup (<[p := o]> h)) as Hf.
  apply lookup_insert_None in Hf as [Hf Hne]. auto.
Qed.

End Sharing.

(** X14. On the store, the metadata is always a new object, and its
    parameters share objects with the caller's document.  With nested
    [parameters] (path 2) the metadata holds the very value the document
    holds, the same reference when it is an object.  On the other two
    paths the parameters are a new dictionary, but a shallow one: under
    [properties] (path 1), and under every key other than [type] (path 3),
    it holds the document's own values. *)
Theorem extraction_shares_with_document
    (U : Unicode) (l : Heap.loc) (d : gmap pystr Heap.val) (h : Heap.heap)
    (s : pystr) :
  h !! l = Some (Heap.ODict d) ->
  default (default (Heap.VStr (py "unnamed_tool")) (d !! py "title"))
    (d !! py "name") = Heap.VStr s ->
  exists r h' meta,
    Heap._extract_tool_metadata {| Heap.schema := Heap.VRef l |} h
      = (Ok (Heap.VRef r), h')
    /\ h !! r = None /\ h' !! r = Some (Heap.ODict meta)
    /\ (forall v,
          d !! py "properties" = None -> d !! py "parameters" = Some v ->
          meta !! py "parameters" = Some v)
    /\ (forall props,
          d !! py "properties" = Some props ->
          exists p q,
            meta !! py "parameters" = Some (Heap.VRef p)
            /\ h !! p = None /\ h' !! p = Some (Heap.ODict q)
            /\ q !! py "properties" = Some props)
    /\ (d !! py "properties" = None -> d !! py "parameters" = None ->
        exists p q,
          meta !! py "parameters" = Some (Heap.VRef p)
          /\ h !! p = None /\ h' !! p = Some (Heap.ODict q)
          /\ forall k v, q !! k = Some v -> k <> py "type" -> d !! k = Some v).
Proof.
  intros Hl Hn.
  destruct (d !! py "properties") as [props|] eqn:Eprops.
  - (* path 1 *)
    pose proof (heap_extract_properties l d props h Hl Eprops) as E.
    cbv zeta in E. rewrite Hn in E. cbv beta iota in E.
    lazymatch type of E with
    | _ = (Ok (Heap.VRef (fresh (dom (<[?p := ?o]> ?h1)))), _) =>
        destruct (fresh_after_insert h1 p o) as [Hr Hpr]
    end.
    destruct (fresh_after_insert h (fresh (dom h)) (Heap.ODict ∅)) as [Hp Hep].
    apply lookup_insert_None in Hr as [Hr Her].
    do 3 eexists. split; [exact E|].
    split; [exact Hr|]. split; [apply lookup_insert_eq|].
    split; [intros v [=]|]. split; [|intros [=]].
    intros props' [= <-]. do 2 eexists.
    split; [now lookup_literal|]. split; [exact Hp|].
    split.
    { rewrite lookup_insert_ne by (apply not_eq_sym; exact Hpr).
      apply lookup_insert_eq. }
    destruct (d !! py "additionalProperties") as [a|];
      [destruct (Heap.is_None a)|];
      destruct (d !! py "required"); now lookup_literal.
  - destruct (d !! py "parameters") as [v|] eqn:Eparams.
    + (* path 2 *)
      pose proof (heap_extract_nested l d v h Hl Eprops Eparams) as E.
      rewrite Hn in E.
      do 3 eexists. split; [exact E|].
      split; [apply fresh_lookup|]. split; [apply lookup_insert_eq|].
      split; [intros v' _ [= <-]; now lookup_literal|].
      split; [intros props [=]|intros _ [=]].
    + (* path 3 *)
      pose proof (heap_extract_whole l d h Hl Eprops Eparams) as E.
      cbv zeta in E. rewrite Hn in E. cbv beta iota in E.
      lazymatch type of E with
      | _ = (Ok (Heap.VRef (fresh (dom (<[?p := ?o]> ?h1)))), _) =>
          destruct (fresh_after_insert h1 p o) as [Hr Hpr]
      end.
      do 3 eexists. split; [exact E|].
      split; [exact Hr|]. split; [apply lookup_insert_eq|].
      split; [intros v _ [=]|]. split; [intros props [=]|].
      intros _ _. do 2 eexists.
      split; [now lookup_literal|]. split; [apply fresh_lookup|].
      split.
      { rewrite lookup_insert_ne by (apply not_eq_sym; exact Hpr).
      apply lookup_insert_eq. }
      intros k v Hq Hk.
      assert (Hq' : delete (py "description")
                      (delete (py "title") (delete (py "name") d)) !! k = Some v).
      { destruct (bool_decide _) in Hq; [exact Hq|].
        now rewrite lookup_insert_ne in Hq by congruence. }
      apply lookup_delete_Some in Hq' as [_ Hq'].
      apply lookup_delete_Some in Hq' as [_ Hq'].
      now apply lookup_delete_Some in Hq' as [_ Hq'].
Qed.

Lemma extraction_shares_with_document_witness :
  exists r h' meta,
    Heap._extract_tool_metadata (U := python_latin1)
      {| Heap.schema := Heap.VRef 1 |} nested_store
      = (Ok (Heap.VRef r), h')
    /\ nested_store !! r = None /\ h' !! r = Some (Heap.ODict meta)
    /\ meta !! py "parameters" = Some (Heap.VRef 2).
Proof.
  destruct (extraction_shares_with_document python_latin1 1%positive
              {[ py "title" := Heap.VStr (py "t");
                 py "parameters" := Heap.VRef 2 ]}
              nested_store (py "t") eq_refl eq_refl)
    as (r & h' & meta & E & Hr & Hm & Hnested & _).
  exists r, h', meta. split; [exact E|]. split; [exact Hr|].
  split; [exact Hm|]. apply Hnested; reflexivity.
Defined.

(** ** The [validate] command *)

Example cli_validate_weather :
  @Cli.validate utf8_console (JObj weather_openai_tool) (py "openai")
  = ([ (Cli.Stdout, py "[OK] Get_Weather: Valid openai tool definition");
       (Cli.Stdout, 10 :: py "All tool definitions are valid.") ],
     Cli.Exit 0).
Proof. vm_compute. reflexivity. Qed.

(** The validator's report on a [function] that is a number is never
    shown: computing the name fails first. *)
Example cli_validate_numbered_function :
  @Cli.validate utf8_console (JObj numbered_function_tool) (py "openai")
  = ([], Cli.Uncaught AttributeError)
  /\ OpenAIFormatter.validate (JObj numbered_function_tool)
     = Ok (false, [py "'function' must be a dictionary"]).
Proof. split; vm_compute; reflexivity. Qed.

(** A rejected tool is reported under the text of its name, a number
    here, with its defects below; a tool without a name is reported by its
    position. *)
Example cli_validate_report :
  @Cli.validate utf8_console
    (JList [ JObj {[ py "function" := JObj {[ py "name" := JInt (-12) ]} ]};
             JObj ∅ ])
    (py "openai")
  = ([ (Cli.Stdout, py "[ERROR] -12: Invalid openai tool definition");
       (Cli.Stdout, py "  - Tool 'type' must be 'function'");
       (Cli.Stdout, py "  - Function 'name' must be a string");
       (Cli.Stdout, py "  - Function must have a 'parameters' field");
       (Cli.Stdout, py "[ERROR] tool[1]: Invalid openai tool definition");
       (Cli.Stdout, py "  - Tool 'type' must be 'function'");
       (Cli.Stdout, py "  - Tool must have a 'function' field");
       (Cli.Stderr, 10 :: py "Some tool definitions have errors.") ],
     Cli.Exit 1).
Proof. vm_compute. reflexivity. Qed.

Section CliSteps.
Context {C : Cli.Console}.

Lemma cmd_bind_eq {A B} (m : Cli.cmd A) (f : A -> Cli.cmd B) out :
  (m ≫= f) out
  = match m out with
    | (inl a, out') => f a out'
    | (inr e, out') => (inr e, out')
    end.
Proof. reflexivity. Qed.

Lemma echo_eq s message out :
  Cli.echo s message out
  = if Cli.writable s message then (inl tt, out ++ [(s, message)])
    else (inr Cli.EchoFailed, out).
Proof. reflexivity. Qed.







End CliSteps.

Section CliRuns.
Context {C : Cli.Console}.

Lemma validate_eq tool format :
  Cli.validate tool format
  = match Cli.report_tools format 0 (Cli.tools_of tool) true [] with
    | (inl true, out) =>
        if Cli.writable Cli.Stdout (10 :: py "All tool definitions are valid.")
        then (out ++ [(Cli.Stdout, 10 :: py "All tool definitions are valid.")],
              Cli.Exit 0)
        else (out, Cli.EchoFailed)
    | (inl false, out) =>
        if Cli.writable Cli.Stderr (10 :: py "Some tool definitions have errors.")
        then (out ++ [(Cli.Stderr, 10 :: py "Some tool definitions have errors.")],
              Cli.Exit 1)
        else (out, Cli.EchoFailed)
    | (inr e, out) => (out, e)
    end.
Proof.
  unfold Cli.validate, Cli.validate_parsed. rewrite cmd_bind_eq.
  destruct (Cli.report_tools _ _ _ _ _) as [[[]|e] out]; [| |reflexivity];
    rewrite cmd_bind_eq, echo_eq; destruct (Cli.writable _ _); reflexivity.
Qed.





End CliRuns.







(** X18. With a format other than the two, the body of [validate] looks at
    no tool: for a file with at least one tool it prints the unknown-format
    error on standard error and exits with status 1, and for an empty list
    of tools it reports that all tool definitions are valid and exits with
    status 0. *)
Theorem cli_validate_unknown_format
    (C : Cli.Console) (tool : json) (format : pystr) :
  format <> py "openai" -> format <> py "anthropic" ->
  Cli.validate tool format
  = match Cli.tools_of tool with
    | [] =>
        if Cli.writable Cli.Stdout (10 :: py "All tool definitions are valid.")
        then ([(Cli.Stdout, 10 :: py "All tool definitions are valid.")],
              Cli.Exit 0)
        else ([], Cli.EchoFailed)
    | _ :: _ =>
        if Cli.writable Cli.Stderr (py "Error: Unknown format: " ++ format)
        then ([(Cli.Stderr, py "Error: Unknown format: " ++ format)], Cli.Exit 1)
        else ([], Cli.EchoFailed)
    end.
Proof.
  intros Ho Ha. rewrite validate_eq.
  destruct (Cli.tools_of tool) as [|t rest]; [reflexivity|].
  cbn [Cli.report_tools]. rewrite cmd_bind_eq. unfold Cli.report_tool.
  rewrite !bool_decide_eq_false_2 by assumption.
  rewrite !cmd_bind_eq, echo_eq.
  destruct (Cli.writable _ _); reflexivity.
Qed.

Lemma cli_validate_unknown_format_witness :
  @Cli.validate utf8_console (JList []) (py "yaml")
  = ([(Cli.Stdout, 10 :: py "All tool definitions are valid.")], Cli.Exit 0).
Proof.
  apply (cli_validate_unknown_format utf8_console (JList []) (py "yaml"));
    discriminate.
Defined.

Section CliNeverShown.
Context {C : Cli.Console}.






End CliNeverShown.


(** ** [extract_schema] on incomplete tool definitions *)

(** X20. What [extract_schema] does with a mapping that lacks parts.  A
    missing [function], or a missing [input_schema], counts as empty: the
    result has the two keys [name] and [description] only, both the empty
    string in the OpenAI case.  A [function] that is not a mapping raises
    [AttributeError], and a parameter schema that is [null], a boolean or
    a number raises [TypeError]. *)
Theorem extract_schema_incomplete (tool : dict) :
  (tool !! py "function" = None ->
   OpenAIFormatter.extract_schema (JObj tool)
   = Ok {[ py "name" := JStr []; py "description" := JStr [] ]})
  /\ (forall v,
        tool !! py "function" = Some v -> isinstance_dict v = false ->
        OpenAIFormatter.extract_schema (JObj tool) = Raise AttributeError)
  /\ (tool !! py "input_schema" = None ->
      AnthropicFormatter.extract_schema (JObj tool)
      = Ok {[ py "name" := dict_get tool (py "name") (JStr []);
              py "description" := dict_get tool (py "description") (JStr []) ]})
  /\ (forall v,
        v = JNull \/ (exists b, v = JBool b) \/ (exists z, v = JInt z)
        \/ (exists bits, v = JFloat bits) ->
        (tool !! py "input_schema" = Some v ->
         AnthropicFormatter.extract_schema (JObj tool) = Raise TypeError)
        /\ (forall func : dict,
              tool !! py "function" = Some (JObj func) ->
              func !! py "parameters" = Some v ->
              OpenAIFormatter.extract_schema (JObj tool) = Raise TypeError)).
Proof.
  split; [|split; [|split]].
  - intros Hf. unfold OpenAIFormatter.extract_schema.
    cbn [OpenAIFormatter.attr_get mbind outcome_mbind outcome_bind].
    unfold dict_get. rewrite Hf.
    cbn [default from_option id OpenAIFormatter.attr_get mbind outcome_mbind
         outcome_bind].
    unfold dict_get. rewrite !lookup_empty.
    cbn [default from_option id dict_update]. f_equal; apply (left_id_L ∅ (∪)).
  - intros v Hf Hv. unfold OpenAIFormatter.extract_schema.
    cbn [OpenAIFormatter.attr_get mbind outcome_mbind outcome_bind].
    rewrite (dict_get_Some _ _ _ _ Hf). destruct v; try discriminate; reflexivity.
  - intros Hs. unfold AnthropicFormatter.extract_schema.
    cbn [OpenAIFormatter.attr_get mbind outcome_mbind outcome_bind].
    unfold dict_get at 3. rewrite Hs.
    cbn [default from_option id dict_update]. f_equal; apply (left_id_L ∅ (∪)).
  - intros v Hv. split.
    + intros Hs. unfold AnthropicFormatter.extract_schema.
      cbn [OpenAIFormatter.attr_get mbind outcome_mbind outcome_bind].
      rewrite (dict_get_Some _ _ _ _ Hs).
      destruct Hv as [->|[[b ->]|[[z ->]|[bits ->]]]]; reflexivity.
    + intros func Hf Hp. unfold OpenAIFormatter.extract_schema.
      cbn [OpenAIFormatter.attr_get mbind outcome_mbind outcome_bind].
      rewrite (dict_get_Some _ _ _ _ Hf).
      cbn [OpenAIFormatter.attr_get outcome_bind].
      rewrite (dict_get_Some _ _ _ _ Hp).
      destruct Hv as [->|[[b ->]|[[z ->]|[bits ->]]]]; reflexivity.
Qed.

Lemma extract_schema_incomplete_witness :
  AnthropicFormatter.extract_schema (JObj null_schema_tool) = Raise TypeError.
Proof.
  destruct (extract_schema_incomplete null_schema_tool) as (_ & _ & _ & H).
  destruct (H JNull) as [Ha _]; [now left|].
  now apply Ha.
Defined.

(** ** The store plays no part in the result *)

(** X21. The content of a conversion depends on the content of the
    document only.  Take two stores, each holding the same document,
    at any addresses and with any sharing among their objects.  Converting
    in one and in the other either returns two references to objects with
    the same content, or raises the same exception. *)
Theorem conversion_depends_on_content
    (U : Unicode) (l1 l2 : Heap.loc) (d1 d2 : gmap pystr Heap.val) (m : dict)
    (h1 h2 : Heap.heap) (format : pystr) :
  h1 !! l1 = Some (Heap.ODict d1) -> entries_represent h1 d1 m ->
  h2 !! l2 = Some (Heap.ODict d2) -> entries_represent h2 d2 m ->
  match Heap.convert {| Heap.schema := Heap.VRef l1 |} format h1,
        Heap.convert {| Heap.schema := Heap.VRef l2 |} format h2 with
  | (Ok v1, h1'), (Ok v2, h2') =>
      exists tool, represents h1' v1 tool /\ represents h2' v2 tool
  | (Raise e1, _), (Raise e2, _) => e1 = e2
  | _, _ => False
  end.
Proof.
  intros Hl1 Hd1 Hl2 Hd2.
  pose proof (store_conversion_simulates l1 d1 m h1 format Hl1 Hd1) as S1.
  pose proof (store_conversion_simulates l2 d2 m h2 format Hl2 Hd2) as S2.
  destruct (convert {| schema := m |} format) as [tool|e|].
  - destruct S1 as (t1 & h1' & -> & R1 & _), S2 as (t2 & h2' & -> & R2 & _).
    eauto.
  - destruct S1 as (h1' & -> & _), S2 as (h2' & -> & _). reflexivity.
  - contradiction.
Qed.

Lemma tagged_schema_represents (h : Heap.heap) :
  entries_represent h
    {[ py "name" := Heap.VStr (py "f"); py "x" := Heap.VInt 1 ]}
    tagged_document.
Proof.
  unfold tagged_document. rewrite <- !insert_empty.
  repeat (apply entries_represent_insert; [constructor|]).
  apply entries_represent_empty.
Qed.

Lemma conversion_depends_on_content_witness :
  match Heap.convert (U := python_latin1) {| Heap.schema := Heap.VRef 1 |}
          (py "anthropic") tagged_store,
        Heap.convert (U := python_latin1) {| Heap.schema := Heap.VRef 5 |}
          (py "anthropic") moved_store with
  | (Ok v1, h1'), (Ok v2, h2') =>
      exists tool, represents h1' v1 tool /\ represents h2' v2 tool
  | (Raise e1, _), (Raise e2, _) => e1 = e2
  | _, _ => False
  end.
Proof.
  apply (conversion_depends_on_content python_latin1 1%positive 5%positive
           {[ py "name" := Heap.VStr (py "f"); py "x" := Heap.VInt 1 ]}
           {[ py "name" := Heap.VStr (py "f"); py "x" := Heap.VInt 1 ]}
           tagged_document).
  - reflexivity.
  - apply tagged_schema_represents.
  - reflexivity.
  - apply tagged_schema_represents.
Defined.
